(** * cmdrdata-gemini: the tracking proxy and its extraction functions

    A shallow embedding of [src/cmdrdata_gemini/proxy.py]: the class
    [TrackedProxy] ([__getattr__], [_wrap_method] and the closure [wrapped]
    it builds) and the two extraction functions [track_generate_content]
    and [track_count_tokens], followed by the properties the specification
    states about them.

    Python objects live in a store and are referred to by location, so that
    two handles are identical exactly when they are the same reference and
    a later change of a target object is seen through every reference to
    it.  The store keeps three kinds of objects apart: the ordinary objects
    of the wrapped client, the proxies, and the closures built by
    [_wrap_method]; the object graph of the client refers to ordinary
    objects only.  A computation threads a [world] (the store, the calls
    received by the usage tracker, the warnings logged, and two ghost
    traces of the calls the module makes) and either returns or raises. *)

From Stdlib Require Import ZArith String Ascii.
From Stdlib Require Import Floats.PrimFloat.
From stdpp Require Import gmap strings list fin_maps.
From stdpp Require Import sorting.

Set Warnings "-register-all".
Local Open Scope string_scope.

(** ** Values *)

Definition loc := positive.

(** The module-level functions of [proxy.py] that are first-class values:
    they are the values of [GEMINI_TRACK_METHODS]. *)
Inductive builtin : Type :=
| track_generate_content_fn
| track_count_tokens_fn.

(** Python values.  Dictionaries have string keys (keyword arguments and
    metadata mappings); [VRef] is a reference to an ordinary object. *)
Inductive value : Type :=
| VNone
| VEllipsis
| VBool (b : bool)
| VInt (n : Z)
| VFloat (f : float)
| VStr (s : string)
| VTuple (l : list value)
| VList (l : list value)
| VDict (d : gmap string value)
| VRef (l : loc).

(** Exceptions, as far as [proxy.py] observes them: the class name, the
    string form [str(e)], and the state of the attribute [code] that
    [wrapped] probes with [hasattr(e, 'code')] and then calls.  The type
    stands for instances of [Exception], which is what every handler of the
    module catches. *)
Inductive exc : Type :=
| Exc (ty : string) (msg : string) (code : code_attr)
with code_attr : Type :=
| CodeAbsent                       (* hasattr(e, 'code') is False *)
| CodeMethod (s : string)          (* e.code() returns a value whose str() is s *)
| CodeRaises (x : exc)             (* e.code(), or str() of its result, raises x *)
| CodeNotCallable (tyname : string). (* e.code is a plain attribute of type tyname *)

Definition exc_type (e : exc) : string := let 'Exc ty _ _ := e in ty.
Definition exc_str (e : exc) : string := let 'Exc _ msg _ := e in msg.
Definition exc_code (e : exc) : code_attr := let 'Exc _ _ c := e in c.

Inductive outcome (A : Type) : Type :=
| Return (a : A)
| Raise (e : exc).
Arguments Return {A} a.
Arguments Raise {A} e.

(** ** Heap objects *)

(** An ordinary object of the wrapped client: its class name
    ([type(o).__name__]), what calling it does when it is callable (the
    client is an oracle: a call has an outcome and no effect on the state
    modelled here), whether it has a [__dict__], its truth value in a
    condition (what [__bool__], or else [__len__], of its class gives;
    true for a class that defines neither), and its attributes. *)
Record pyobj : Type := PyObj {
  obj_type : string;
  obj_call : option (list value → gmap string value → outcome value);
  obj_has_dict : bool;
  obj_truth : bool;
  obj_attrs : gmap string value;
}.

(** An extraction function, the value of an entry of the interception
    table: one of the two functions of the module, or any other value
    (a callable object supplied by the caller, for instance). *)
Inductive tracker_fn : Type :=
| Builtin (b : builtin)
| External (v : value).

(** What [__getattr__] hands out: a value of the client, a closure built by
    [_wrap_method], or a child proxy. *)
Inductive handle : Type :=
| HValue (v : value)
| HWrapped (l : loc)
| HProxy (l : loc).

(** The state of a [TrackedProxy]: the four fields set by [__init__]. *)
Record proxy : Type := Proxy {
  _client : value;
  _tracker : value;
  _track_methods : gmap string tracker_fn;
  _tracked_attributes : gmap string handle;
}.

(** The closure [wrapped] built by [_wrap_method]: the variables it
    captures. *)
Record closure : Type := Closure {
  cl_self : loc;
  cl_method : value;
  cl_method_name : string;
  cl_tracker_func : tracker_fn;
}.

(** ** Calls made by the module *)

(** The keyword arguments [wrapped] passes to an extraction function. *)
Record tracker_call : Type := TrackerCall {
  tc_result : value;
  tc_customer_id : value;
  tc_tracker : value;
  tc_method_name : string;
  tc_args : list value;
  tc_kwargs : gmap string value;
  tc_custom_metadata : value;
  tc_request_start_time : value;
  tc_request_end_time : value;
  tc_error_occurred : value;
  tc_error_type : value;
  tc_error_code : value;
  tc_error_message : value;
  tc_request_id : value;
}.

(** The keyword arguments of [tracker.track_usage_background]. *)
Record usage_event : Type := UsageEvent {
  ev_customer_id : value;
  ev_model : value;
  ev_input_tokens : value;
  ev_output_tokens : value;
  ev_provider : string;
  ev_metadata : gmap string value;
  ev_request_start_time : value;
  ev_request_end_time : value;
  ev_error_occurred : value;
  ev_error_type : value;
  ev_error_code : value;
  ev_error_message : value;
  ev_request_id : value;
}.

(** ** The world *)

Record world : Type := World {
  objects : gmap loc pyobj;
  proxies : gmap loc proxy;
  closures : gmap loc closure;
  (* calls received by track_usage_background: the tracker and the event *)
  sink_calls : list (value * usage_event);
  (* logger.warning *)
  warnings : list string;
  (* ghost: every call tracker_func(...) evaluated by wrapped *)
  tracker_calls : list (tracker_fn * tracker_call);
  (* ghost: every call of the real method evaluated by wrapped, with the
     positional and keyword arguments it forwards *)
  method_calls : list (value * list value * gmap string value);
  (* number of readings of uuid.uuid4() and time.time() so far *)
  ticks : nat;
}.

(** What lies outside [proxy.py]: the identity resolution of [.context],
    the usage tracker of [.tracker], the clock and the identifier source,
    and what [dict.update] does with an argument that is not a dict. *)
Record environment : Type := Environment {
  get_effective_customer_id : value → value;
  (* None: the call returns; Some e: it raises e *)
  track_usage_background : value → usage_event → option exc;
  time_time : nat → float;
  uuid4 : nat → string;
  update_from_other : gmap string value → value → outcome (gmap string value);
}.

(** ** Computations *)

Definition M (A : Type) : Type := world → outcome A * world.

Definition ret {A} (a : A) : M A := λ w, (Return a, w).
Definition raise {A} (e : exc) : M A := λ w, (Raise e, w).
Definition bind {A B} (m : M A) (k : A → M B) : M B :=
  λ w, match m w with
       | (Return a, w') => k a w'
       | (Raise e, w') => (Raise e, w')
       end.
(** [try: m except Exception as e: h e] *)
Definition try_except {A} (m : M A) (h : exc → M A) : M A :=
  λ w, match m w with
       | (Return a, w') => (Return a, w')
       | (Raise e, w') => h e w'
       end.
Definition lift {A} (o : outcome A) : M A := λ w, (o, w).
Definition get_world : M world := λ w, (Return w, w).

Notation "x <- m ;; k" := (bind m (λ x, k))
  (at level 100, m at next level, right associativity).
Notation "m ;;; k" := (bind m (λ _, k))
  (at level 100, right associativity).

(** ** Python primitives used by the module *)

(** Truth value of a value in a condition.  An object of the store has the
    truth value of its class ([__bool__], or else [__len__]), which returns
    without any effect. *)
Definition truthy (w : world) (v : value) : bool :=
  match v with
  | VNone => false
  | VEllipsis => true
  | VBool b => b
  | VInt n => negb (n =? 0)%Z
  | VFloat f => negb (PrimFloat.eqb f 0%float)
  | VStr s => negb (String.eqb s "")
  | VTuple l | VList l => negb (bool_decide (l = []))
  | VDict d => negb (bool_decide (d = ∅))
  | VRef l => from_option obj_truth true (objects w !! l)
  end.

(** The ordinary object a value refers to, if it refers to one. *)
Definition heap_obj (w : world) (v : value) : option pyobj :=
  match v with
  | VRef l => objects w !! l
  | _ => None
  end.

(** [getattr(v, name)]: [None] stands for [AttributeError].  Attributes are
    plain data attributes of ordinary objects; the names the module reads
    are not attributes of numbers, strings or containers. *)
Definition py_getattr (w : world) (v : value) (name : string) : option value :=
  o ← heap_obj w v; obj_attrs o !! name.

(** [hasattr(v, name)] *)
Definition py_hasattr (w : world) (v : value) (name : string) : bool :=
  bool_decide (is_Some (py_getattr w v name)).

(** [getattr(v, name, dflt)] *)
Definition getattr_default (w : world) (v : value) (name : string) (dflt : value) : value :=
  default dflt (py_getattr w v name).

(** [type(v).__name__] *)
Definition type_name (w : world) (v : value) : string :=
  match v with
  | VNone => "NoneType"
  | VEllipsis => "ellipsis"
  | VBool _ => "bool"
  | VInt _ => "int"
  | VFloat _ => "float"
  | VStr _ => "str"
  | VTuple _ => "tuple"
  | VList _ => "list"
  | VDict _ => "dict"
  | VRef l => from_option obj_type "object" (objects w !! l)
  end.

(** [callable(v)] *)
Definition py_callable (w : world) (v : value) : bool :=
  match heap_obj w v with
  | Some o => bool_decide (is_Some (obj_call o))
  | None => false
  end.

(** [hasattr(v, "__dict__")] *)
Definition has_dict (w : world) (v : value) : bool :=
  match heap_obj w v with
  | Some o => obj_has_dict o
  | None => false
  end.

(** [isinstance(v, (str, int, float, bool, type(None)))] *)
Definition is_scalar (v : value) : bool :=
  match v with
  | VStr _ | VInt _ | VFloat _ | VBool _ | VNone => true
  | _ => false
  end.

(** [s[n:]] *)
Fixpoint drop_chars (n : nat) (s : string) : string :=
  match n, s with
  | O, _ => s
  | S n', EmptyString => EmptyString
  | S n', String _ s' => drop_chars n' s'
  end.

(** [v[0]] *)
Definition py_index0 (w : world) (v : value) : outcome value :=
  match v with
  | VTuple (x :: _) | VList (x :: _) => Return x
  | VTuple [] => Raise (Exc "IndexError" "tuple index out of range" CodeAbsent)
  | VList [] => Raise (Exc "IndexError" "list index out of range" CodeAbsent)
  | VStr (String c _) => Return (VStr (String c EmptyString))
  | VStr EmptyString => Raise (Exc "IndexError" "string index out of range" CodeAbsent)
  | VDict _ => Raise (Exc "KeyError" "0" CodeAbsent)
  | _ => Raise (Exc "TypeError"
                  ("'" ++ type_name w v ++ "' object is not subscriptable") CodeAbsent)
  end.

(** [logger.warning(msg)] *)
Definition log_warning (msg : string) : M unit :=
  λ w, (Return tt,
        World (objects w) (proxies w) (closures w) (sink_calls w)
              (warnings w ++ [msg]) (tracker_calls w) (method_calls w) (ticks w)).

(** The operation identifier: [kwargs.get("model", "unknown")], with a
    leading ["models/"] removed when it is a string that has one. *)
Definition normalize_model (model : value) : value :=
  match model with
  | VStr s => if String.prefix "models/" s then VStr (drop_chars 7 s) else model
  | _ => model
  end.

Definition model_of (kwargs : gmap string value) : value :=
  normalize_model (default (VStr "unknown") (kwargs !! "model")).

Section Model.

Context (env : environment).

(** ** Extraction functions *)

(** [tracker.track_usage_background(...)]: the call is recorded, and it
    returns or raises as the tracker decides. *)
Definition sink_record (tracker : value) (ev : usage_event) : M unit :=
  λ w, let w' := World (objects w) (proxies w) (closures w)
                       (sink_calls w ++ [(tracker, ev)]) (warnings w)
                       (tracker_calls w) (method_calls w) (ticks w) in
       match track_usage_background env tracker ev with
       | None => (Return tt, w')
       | Some e => (Raise e, w')
       end.

(** [metadata.update(custom_metadata)]: the keys of the argument win. *)
Definition dict_update (metadata : gmap string value) (custom : value)
  : outcome (gmap string value) :=
  match custom with
  | VDict d => Return (d ∪ metadata)
  | _ => update_from_other env metadata custom
  end.

(** [if custom_metadata: metadata.update(custom_metadata)] *)
Definition merge_custom (w : world) (metadata : gmap string value) (custom : value)
  : outcome (gmap string value) :=
  if truthy w custom then dict_update metadata custom else Return metadata.

(** The conditional expression that computes ["finish_reason"]:
    [getattr(result.candidates[0], "finish_reason", None)] when the result
    has a true [candidates], and [None] otherwise. *)
Definition finish_reason_of (w : world) (result : value) : outcome value :=
  if py_hasattr w result "candidates"
     && truthy w (getattr_default w result "candidates" VNone)
  then match py_index0 w (getattr_default w result "candidates" VNone) with
       | Return c => Return (getattr_default w c "finish_reason" VNone)
       | Raise e => Raise e
       end
  else Return VNone.

(** The quantities and metadata [track_generate_content] reads from the
    result: the body of [if result and hasattr(result, "usage_metadata")],
    and the initial values when the condition fails. *)
Definition generate_usage (w : world) (result : value)
  : outcome (value * value * gmap string value) :=
  if truthy w result && py_hasattr w result "usage_metadata" then
    let usage_metadata := getattr_default w result "usage_metadata" VNone in
    let input_tokens := getattr_default w usage_metadata "prompt_token_count" (VInt 0) in
    let output_tokens := getattr_default w usage_metadata "candidates_token_count" (VInt 0) in
    match finish_reason_of w result with
    | Return finish_reason =>
        Return (input_tokens, output_tokens,
                <["response_id" := getattr_default w result "id" VNone]>
                  (<["safety_ratings" := getattr_default w result "safety_ratings" VNone]>
                     (<["finish_reason" := finish_reason]> ∅)))
    | Raise e => Raise e
    end
  else Return (VInt 0, VInt 0, ∅).

Definition track_generate_content (c : tracker_call) : M unit :=
  try_except
    (let effective_customer_id := get_effective_customer_id env (tc_customer_id c) in
     w <- get_world ;;
     if negb (truthy w effective_customer_id) then
       log_warning "No customer_id provided for tracking."
     else
       let model := model_of (tc_kwargs c) in
       usage <- lift (generate_usage w (tc_result c)) ;;
       let '(input_tokens, output_tokens, metadata) := usage in
       metadata <- lift (merge_custom w metadata (tc_custom_metadata c)) ;;
       sink_record (tc_tracker c)
         {| ev_customer_id := effective_customer_id;
            ev_model := model;
            ev_input_tokens := input_tokens;
            ev_output_tokens := output_tokens;
            ev_provider := "google";
            ev_metadata := metadata;
            ev_request_start_time := tc_request_start_time c;
            ev_request_end_time := tc_request_end_time c;
            ev_error_occurred := tc_error_occurred c;
            ev_error_type := tc_error_type c;
            ev_error_code := tc_error_code c;
            ev_error_message := tc_error_message c;
            ev_request_id := tc_request_id c |})
    (λ e, log_warning ("Failed to extract usage data from generate_content: "
                       ++ exc_str e)).

(** The quantity and metadata [track_count_tokens] reads from the result. *)
Definition count_usage (w : world) (result : value) : value * gmap string value :=
  if truthy w result && py_hasattr w result "total_tokens" then
    let total_tokens := getattr_default w result "total_tokens" VNone in
    (total_tokens,
     <["total_tokens" := total_tokens]> {["operation" := VStr "count_tokens"]})
  else (VInt 0, {["operation" := VStr "count_tokens"]}).

Definition track_count_tokens (c : tracker_call) : M unit :=
  try_except
    (let effective_customer_id := get_effective_customer_id env (tc_customer_id c) in
     w <- get_world ;;
     if negb (truthy w effective_customer_id) then
       log_warning "No customer_id provided for tracking."
     else
       let model := model_of (tc_kwargs c) in
       let '(input_tokens, metadata) := count_usage w (tc_result c) in
       metadata <- lift (merge_custom w metadata (tc_custom_metadata c)) ;;
       sink_record (tc_tracker c)
         {| ev_customer_id := effective_customer_id;
            ev_model := model;
            ev_input_tokens := input_tokens;
            ev_output_tokens := VInt 0;
            ev_provider := "google";
            ev_metadata := metadata;
            ev_request_start_time := tc_request_start_time c;
            ev_request_end_time := tc_request_end_time c;
            ev_error_occurred := tc_error_occurred c;
            ev_error_type := tc_error_type c;
            ev_error_code := tc_error_code c;
            ev_error_message := tc_error_message c;
            ev_request_id := tc_request_id c |})
    (λ e, log_warning ("Failed to extract usage data from count_tokens: "
                       ++ exc_str e)).

(** ** The per-call interceptor: [_wrap_method] and [wrapped] *)

Definition tick (w : world) : world :=
  World (objects w) (proxies w) (closures w) (sink_calls w) (warnings w)
        (tracker_calls w) (method_calls w) (S (ticks w)).

(** [time.time()] *)
Definition now : M value :=
  λ w, (Return (VFloat (time_time env (ticks w))), tick w).

(** [str(uuid.uuid4())] *)
Definition new_request_id : M value :=
  λ w, (Return (VStr (uuid4 env (ticks w))), tick w).

Definition not_callable (tyname : string) : exc :=
  Exc "TypeError" ("'" ++ tyname ++ "' object is not callable") CodeAbsent.

(** Calling a value of the client with positional and keyword arguments. *)
Definition call_value (w : world) (f : value) (args : list value)
    (kwargs : gmap string value) : outcome value :=
  match heap_obj w f ≫= obj_call with
  | Some g => g args kwargs
  | None => Raise (not_callable (type_name w f))
  end.

(** The call of the real method in [wrapped], recorded in the ghost trace. *)
Definition call_method (method : value) (args : list value)
    (kwargs : gmap string value) : M value :=
  λ w, (call_value w method args kwargs,
        World (objects w) (proxies w) (closures w) (sink_calls w) (warnings w)
              (tracker_calls w) (method_calls w ++ [(method, args, kwargs)])
              (ticks w)).

(** The keyword arguments of a call of an extraction function, as the
    dictionary a callable object receives. *)
Definition tracker_kwargs (c : tracker_call) : gmap string value :=
  list_to_map
    [("result", tc_result c); ("customer_id", tc_customer_id c);
     ("tracker", tc_tracker c); ("method_name", VStr (tc_method_name c));
     ("args", VTuple (tc_args c)); ("kwargs", VDict (tc_kwargs c));
     ("custom_metadata", tc_custom_metadata c);
     ("request_start_time", tc_request_start_time c);
     ("request_end_time", tc_request_end_time c);
     ("error_occurred", tc_error_occurred c);
     ("error_type", tc_error_type c); ("error_code", tc_error_code c);
     ("error_message", tc_error_message c); ("request_id", tc_request_id c)].

(** The two extraction functions of the module, as values. *)
Definition run_builtin (b : builtin) : tracker_call → M unit :=
  match b with
  | track_generate_content_fn => track_generate_content
  | track_count_tokens_fn => track_count_tokens
  end.

(** The call [tracker_func(result=..., ...)] in [wrapped], recorded in the
    ghost trace. *)
Definition call_tracker (tracker_func : tracker_fn) (c : tracker_call) : M unit :=
  λ w, let w1 := World (objects w) (proxies w) (closures w) (sink_calls w)
                       (warnings w) (tracker_calls w ++ [(tracker_func, c)])
                       (method_calls w) (ticks w) in
       match tracker_func with
       | Builtin b => run_builtin b c w1
       | External f =>
           match call_value w1 f [] (tracker_kwargs c) with
           | Return _ => (Return tt, w1)
           | Raise e => (Raise e, w1)
           end
       end.

(** The classification of the error in the handler of [wrapped]: the pair
    [(error_code, error_type)].  The call [e.code()] is not guarded. *)
Definition classify_error (e : exc) : outcome (value * value) :=
  match exc_code e with
  | CodeAbsent => Return (VNone, VStr "sdk_error")
  | CodeMethod s => Return (VStr s, VStr "grpc_error")
  | CodeRaises x => Raise x
  | CodeNotCallable tyname => Raise (not_callable tyname)
  end.

(** [self._tracker], read when the closure runs.  The proxy that built a
    closure always exists. *)
Definition self_tracker (self : loc) : M value :=
  λ w, (Return (from_option _tracker VNone (proxies w !! self)), w).

Definition wrapped (cl : closure) (args : list value) (kwargs : gmap string value)
  : M value :=
  let method_name := cl_method_name cl in
  let customer_id := default VEllipsis (kwargs !! "customer_id") in
  let kwargs := delete "customer_id" kwargs in
  let track_usage := default (VBool true) (kwargs !! "track_usage") in
  let kwargs := delete "track_usage" kwargs in
  let custom_metadata := default VNone (kwargs !! "metadata") in
  let kwargs := delete "metadata" kwargs in
  request_id <- new_request_id ;;
  start_time <- now ;;
  try_except
    (result <- call_method (cl_method cl) args kwargs ;;
     end_time <- now ;;
     w <- get_world ;;
     (if truthy w track_usage then
        try_except
          (tracker <- self_tracker (cl_self cl) ;;
           call_tracker (cl_tracker_func cl)
             {| tc_result := result;
                tc_customer_id := customer_id;
                tc_tracker := tracker;
                tc_method_name := method_name;
                tc_args := args;
                tc_kwargs := kwargs;
                tc_custom_metadata := custom_metadata;
                tc_request_start_time := start_time;
                tc_request_end_time := end_time;
                tc_error_occurred := VBool false;
                tc_error_type := VNone;
                tc_error_code := VNone;
                tc_error_message := VNone;
                tc_request_id := request_id |})
          (λ e, log_warning ("Failed to track usage for " ++ method_name
                             ++ ": " ++ exc_str e))
      else ret tt) ;;;
     ret result)
    (λ e,
     end_time <- now ;;
     let error_message := VStr (exc_str e) in
     classified <- lift (classify_error e) ;;
     let '(error_code, error_type) := classified in
     w <- get_world ;;
     (if truthy w track_usage then
        try_except
          (tracker <- self_tracker (cl_self cl) ;;
           call_tracker (cl_tracker_func cl)
             {| tc_result := VNone;
                tc_customer_id := customer_id;
                tc_tracker := tracker;
                tc_method_name := method_name;
                tc_args := args;
                tc_kwargs := kwargs;
                tc_custom_metadata := custom_metadata;
                tc_request_start_time := start_time;
                tc_request_end_time := end_time;
                tc_error_occurred := VBool true;
                tc_error_type := error_type;
                tc_error_code := error_code;
                tc_error_message := error_message;
                tc_request_id := request_id |})
          (λ track_error,
           log_warning ("Failed to track error for " ++ method_name
                        ++ ": " ++ exc_str track_error))
      else ret tt) ;;;
     raise e).

(** [_wrap_method]: looks the extraction function up and builds the
    closure.  (The copies of the name, the documentation and the signature
    of the method onto the closure are not modelled.) *)
Definition _wrap_method (self : loc) (method : value) (method_name : string)
  : M handle :=
  λ w, match proxies w !! self ≫= λ p, _track_methods p !! method_name with
       | Some tracker_func =>
           let l := fresh (dom (closures w)) in
           (Return (HWrapped l),
            World (objects w) (proxies w)
                  (<[l := Closure self method method_name tracker_func]> (closures w))
                  (sink_calls w) (warnings w) (tracker_calls w)
                  (method_calls w) (ticks w))
       | None => (Raise (Exc "KeyError" ("'" ++ method_name ++ "'") CodeAbsent), w)
       end.

(** ** The forwarding proxy: [TrackedProxy] *)

(** [TrackedProxy(client, tracker, track_methods)]: a new proxy with an
    empty memo cache. *)
Definition new_proxy (client tracker : value) (track_methods : gmap string tracker_fn)
  : M handle :=
  λ w, let l := fresh (dom (proxies w)) in
       (Return (HProxy l),
        World (objects w)
              (<[l := Proxy client tracker track_methods ∅]> (proxies w))
              (closures w) (sink_calls w) (warnings w) (tracker_calls w)
              (method_calls w) (ticks w)).

(** [self._tracked_attributes[name] = h] *)
Definition memoize (self : loc) (name : string) (h : handle) : M unit :=
  λ w, (Return tt,
        World (objects w)
              (alter (λ p, Proxy (_client p) (_tracker p) (_track_methods p)
                                 (<[name := h]> (_tracked_attributes p)))
                     self (proxies w))
              (closures w) (sink_calls w) (warnings w) (tracker_calls w)
              (method_calls w) (ticks w)).

(** The table of a child proxy: the entries whose key starts with [name]
    and a dot, under the rest of the key. *)
Definition sub_track_methods (name : string) (track_methods : gmap string tracker_fn)
  : gmap string tracker_fn :=
  list_to_map
    (omap (λ kv : string * tracker_fn,
             if String.prefix (name ++ ".") kv.1
             then Some (drop_chars (String.length name + 1) kv.1, kv.2)
             else None)
          (map_to_list track_methods)).

Definition attribute_error (w : world) (client : value) (name : string) : exc :=
  Exc "AttributeError"
      ("'" ++ type_name w client ++ "' object has no attribute '" ++ name ++ "'")
      CodeAbsent.

(** [TrackedProxy.__getattr__(self, name)].  Python calls it for the names
    that are not found on the proxy itself.  A location that holds no proxy
    is not a state of the program; the first case only makes the function
    total. *)
Definition proxy_getattr (self : loc) (name : string) : M handle :=
  λ w,
    match proxies w !! self with
    | None => (Raise (Exc "ReferenceError" "no such proxy" CodeAbsent), w)
    | Some p =>
        match _tracked_attributes p !! name with
        | Some h => (Return h, w)
        | None =>
            match py_getattr w (_client p) name with
            | None => (Raise (attribute_error w (_client p) name), w)
            | Some attr =>
                if py_callable w attr
                   && bool_decide (is_Some (_track_methods p !! name))
                then
                  (wrapped_attr <- _wrap_method self attr name ;;
                   memoize self name wrapped_attr ;;;
                   ret wrapped_attr) w
                else if has_dict w attr && negb (is_scalar attr)
                        && negb (bool_decide
                                   (sub_track_methods name (_track_methods p) = ∅))
                then
                  (wrapped_attr <- new_proxy attr (_tracker p)
                                     (sub_track_methods name (_track_methods p)) ;;
                   memoize self name wrapped_attr ;;;
                   ret wrapped_attr) w
                else
                  (memoize self name (HValue attr) ;;;
                   ret (HValue attr)) w
            end
        end
    end.

(** Calling a handle: a closure runs [wrapped], a value of the client is
    called directly, and a proxy is not callable. *)
Definition call_handle (h : handle) (args : list value) (kwargs : gmap string value)
  : M value :=
  λ w,
    match h with
    | HValue v => (call_value w v args kwargs, w)
    | HWrapped l =>
        match closures w !! l with
        | Some cl => wrapped cl args kwargs w
        | None => (Raise (Exc "ReferenceError" "no such closure" CodeAbsent), w)
        end
    | HProxy _ => (Raise (not_callable "TrackedProxy"), w)
    end.

(** Member access along a chain: [h.a.b.c] through proxies. *)
Fixpoint resolve_path (h : handle) (path : list string) : M handle :=
  match path with
  | [] => ret h
  | name :: rest =>
      match h with
      | HProxy p => h' <- proxy_getattr p name ;; resolve_path h' rest
      | _ => raise (Exc "TypeError" "not a proxy" CodeAbsent)
      end
  end.

(** ** What a program does to a proxy during its lifetime *)

(** [setattr(o, name, v)] on an ordinary object ([v = None] deletes the
    attribute): a change of the target behind the back of the proxy, which
    is also what [TrackedProxy.__setattr__] does with a public name. *)
Definition patch_object (l : loc) (name : string) (v : option value) (w : world)
  : world :=
  World (alter (λ o, PyObj (obj_type o) (obj_call o) (obj_has_dict o)
                           (obj_truth o)
                           (match v with
                            | Some x => <[name := x]> (obj_attrs o)
                            | None => delete name (obj_attrs o)
                            end))
               l (objects w))
        (proxies w) (closures w) (sink_calls w) (warnings w) (tracker_calls w)
        (method_calls w) (ticks w).

Inductive action : Type :=
| AGetattr (p : loc) (name : string)
| ACall (h : handle) (args : list value) (kwargs : gmap string value)
| APatch (l : loc) (name : string) (v : option value)
| ANewProxy (client tracker : value) (track_methods : gmap string tracker_fn).

Definition run_action (a : action) (w : world) : world :=
  match a with
  | AGetattr p name => (proxy_getattr p name w).2
  | ACall h args kwargs => (call_handle h args kwargs w).2
  | APatch l name v => patch_object l name v w
  | ANewProxy client tracker track_methods =>
      (new_proxy client tracker track_methods w).2
  end.

Definition run_actions (acts : list action) (w : world) : world :=
  foldl (λ w a, run_action a w) w acts.

End Model.

(** ** A concrete environment *)

(** Modelled from the spec: [get_effective_customer_id] of
    [cmdrdata_gemini/context.py], which is not among the sources.  The
    override is consulted first; the ambient default is used only when the
    override is the unset sentinel ([...]); an explicit [None] means no id. *)
Definition resolve_customer (ambient : value) (override : value) : value :=
  match override with
  | VEllipsis => ambient
  | _ => override
  end.

(** An environment for evaluating the code on concrete inputs: no ambient
    customer, a tracker that accepts every event, a clock that counts, and
    a [dict.update] that rejects what is not a dict. *)
Definition test_env : environment :=
  {| get_effective_customer_id := resolve_customer VNone;
     track_usage_background := λ _ _, None;
     time_time := λ n, Nat.iter n (λ t, PrimFloat.add t 1%float) 0%float;
     uuid4 := λ n, "req-" ++ String.concat "" (replicate n "i");
     update_from_other := λ _ _,
       Raise (Exc "TypeError" "object is not iterable" CodeAbsent) |}.

(** [GEMINI_TRACK_METHODS] *)
Definition GEMINI_TRACK_METHODS : gmap string tracker_fn :=
  <["models.generate_content" := Builtin track_generate_content_fn]>
    (<["models.count_tokens" := Builtin track_count_tokens_fn]> ∅).


(** ** The other members of [TrackedProxy] *)

(** [TrackedProxy.__dir__]: the names of the proxy object that do not start
    with an underscore, and the names of the target, sorted and without
    repetition.  [own_dir] is [object.__dir__(self)] and [client_dir] is
    [dir(self._client)]. *)
Definition proxy_dir (own_dir client_dir : list string) : list string :=
  let proxy_attrs := filter (λ attr, String.prefix "_" attr = false) own_dir in
  merge_sort String.le (remove_dups (proxy_attrs ++ client_dir)).

(** [TrackedProxy.__setattr__(self, name, value)] for a name that does not
    start with an underscore: [setattr(self._client, name, value)], on a
    target that is an object with a [__dict__].  The result is [None]
    outside of that: a name that starts with an underscore is stored on the
    proxy object itself, which has no place for it here, and the refusal of
    a target without [__dict__] is not modelled. *)
Definition proxy_setattr (self : loc) (name : string) (v : value) (w : world)
  : option world :=
  p ← proxies w !! self;
  if String.prefix "_" name then None
  else match _client p with
       | VRef l =>
           if has_dict w (VRef l) then Some (patch_object l name (Some v) w)
           else None
       | _ => None
       end.
(** ** Vocabulary of the statements *)

(** A computation went from [w] to [w'] and did nothing to the store, the
    ghost traces and the clock; the tracker received [evs] and the log
    received [msgs]. *)
Definition telemetry_step (w w' : world) (evs : list (value * usage_event))
    (msgs : list string) : Prop :=
  w' = World (objects w) (proxies w) (closures w) (sink_calls w ++ evs)
             (warnings w ++ msgs) (tracker_calls w) (method_calls w) (ticks w).

(** The custom metadata of a call is what the contract of the reserved
    keyword [metadata] allows: absent ([None]) or a dict. *)
Definition mapping_or_none (v : value) : Prop :=
  v = VNone ∨ ∃ d, v = VDict d.

(** The quantity [track_count_tokens] reports: the field [total_tokens] of
    the result when the result is true in a condition and has it, and
    zero. *)
Definition total_tokens_or_zero (w : world) (result : value) : value :=
  if truthy w result then default (VInt 0) (py_getattr w result "total_tokens")
  else VInt 0.

(** The quantities [track_generate_content] reports: the fields
    [prompt_token_count] and [candidates_token_count] of the usage metadata
    of the result, each zero when it is missing; and two zeros when the
    result is false in a condition or has no usage metadata. *)
Definition generate_quantities (w : world) (result : value) : value * value :=
  match py_getattr w result "usage_metadata" with
  | Some usage_metadata =>
      if truthy w result then
        (getattr_default w usage_metadata "prompt_token_count" (VInt 0),
         getattr_default w usage_metadata "candidates_token_count" (VInt 0))
      else (VInt 0, VInt 0)
  | None => (VInt 0, VInt 0)
  end.

(** The three reserved keyword arguments of a tracked call, as [wrapped]
    pops them, and what is left for the real method. *)
Definition customer_override (kwargs : gmap string value) : value :=
  default VEllipsis (kwargs !! "customer_id").

Definition tracking_enabled (w : world) (kwargs : gmap string value) : bool :=
  truthy w (default (VBool true) (kwargs !! "track_usage")).

Definition metadata_override (kwargs : gmap string value) : value :=
  default VNone (kwargs !! "metadata").

Definition forwarded_kwargs (kwargs : gmap string value) : gmap string value :=
  delete "metadata" (delete "track_usage" (delete "customer_id" kwargs)).

Definition reserved (k : string) : Prop :=
  k = "customer_id" ∨ k = "track_usage" ∨ k = "metadata".

(** The outcome of the real method of a closure on a tracked call. *)
Definition method_outcome (w : world) (cl : closure) (args : list value)
    (kwargs : gmap string value) : outcome value :=
  call_value w (cl_method cl) args (forwarded_kwargs kwargs).

(** The call context a tracked call started in world [w] hands to the
    extraction function: the identifier and the two clock readings are the
    next three readings of the environment. *)
Definition call_context (env : environment) (w : world) (cl : closure)
    (args : list value) (kwargs : gmap string value)
    (result error_occurred error_type error_code error_message : value)
  : tracker_call :=
  {| tc_result := result;
     tc_customer_id := customer_override kwargs;
     tc_tracker := from_option _tracker VNone (proxies w !! cl_self cl);
     tc_method_name := cl_method_name cl;
     tc_args := args;
     tc_kwargs := forwarded_kwargs kwargs;
     tc_custom_metadata := metadata_override kwargs;
     tc_request_start_time := VFloat (time_time env (S (ticks w)));
     tc_request_end_time := VFloat (time_time env (S (S (ticks w))));
     tc_error_occurred := error_occurred;
     tc_error_type := error_type;
     tc_error_code := error_code;
     tc_error_message := error_message;
     tc_request_id := VStr (uuid4 env (ticks w)) |}.

Definition success_call (env : environment) (w : world) (cl : closure)
    (args : list value) (kwargs : gmap string value) (result : value)
  : tracker_call :=
  call_context env w cl args kwargs result (VBool false) VNone VNone VNone.

Definition failure_call (env : environment) (w : world) (cl : closure)
    (args : list value) (kwargs : gmap string value) (e : exc)
    (error_code error_type : value) : tracker_call :=
  call_context env w cl args kwargs VNone (VBool true) error_type error_code
               (VStr (exc_str e)).

(** A tracked call went from [w] to [w']: the store is untouched, the real
    method was called once with [args] and the forwarded keyword arguments,
    the extraction function was called with the contexts [calls], and the
    clock was read three times. *)
Definition tracked_step (w w' : world) (cl : closure) (args : list value)
    (kwargs : gmap string value) (calls : list tracker_call) : Prop :=
  objects w' = objects w ∧ proxies w' = proxies w ∧ closures w' = closures w
  ∧ method_calls w'
    = (method_calls w ++ [(cl_method cl, args, forwarded_kwargs kwargs)])%list
  ∧ tracker_calls w'
    = (tracker_calls w ++ ((λ c, (cl_tracker_func cl, c)) <$> calls))%list
  ∧ ticks w' = S (S (S (ticks w)))
  ∧ (∃ evs, sink_calls w' = (sink_calls w ++ evs)%list)
  ∧ (∃ msgs, warnings w' = (warnings w ++ msgs)%list).

(** The state in which [wrapped] calls the extraction function: the real
    method has been called and the clock read three times. *)
Definition at_tracker_call (w : world) (cl : closure) (args : list value)
    (kwargs : gmap string value) : world :=
  World (objects w) (proxies w) (closures w) (sink_calls w) (warnings w)
        (tracker_calls w)
        (method_calls w ++ [(cl_method cl, args, forwarded_kwargs kwargs)])
        (S (S (S (ticks w)))).

(** The warning [wrapped] logs when the extraction function raises. *)
Definition tracker_warning (prefix name : string) (r : outcome unit) : list string :=
  match r with
  | Return _ => []
  | Raise x => [prefix ++ name ++ ": " ++ exc_str x]
  end.

(** A world with other proxies and closures. *)
Definition with_store (w : world) (ps : gmap loc proxy) (cs : gmap loc closure)
  : world :=
  World (objects w) ps cs (sink_calls w) (warnings w) (tracker_calls w)
        (method_calls w) (ticks w).

(** A proxy with one more entry in its memo cache. *)
Definition memo (p : proxy) (name : string) (h : handle) : proxy :=
  Proxy (_client p) (_tracker p) (_track_methods p)
        (<[name := h]> (_tracked_attributes p)).

(** The handle [h] stands for the member [v] of the target: it is [v]
    itself, a closure around [v], or a proxy of [v]. *)
Definition presents (w : world) (h : handle) (v : value) : Prop :=
  match h with
  | HValue v' => v' = v
  | HWrapped l => ∃ cl, closures w !! l = Some cl ∧ cl_method cl = v
  | HProxy l => ∃ q, proxies w !! l = Some q ∧ _client q = v
  end.

(** [name] is tracked at a proxy with table [tm] when the member is
    callable and [name] is a key of the table. *)
Definition wraps (w : world) (tm : gmap string tracker_fn) (name : string)
    (attr : value) : bool :=
  py_callable w attr && bool_decide (is_Some (tm !! name)).

(** [name] is a namespace at a proxy with table [tm] when the member is an
    object with a [__dict__] and some key of the table starts with [name]
    and a dot. *)
Definition nests (w : world) (tm : gmap string tracker_fn) (name : string)
    (attr : value) : bool :=
  has_dict w attr && negb (is_scalar attr)
  && negb (bool_decide (sub_track_methods name tm = ∅)).

(** The proxy [p'] is the proxy [p] later in its life: the same target,
    tracker and table, and a memo cache that has kept every entry. *)
Definition later_proxy (p p' : proxy) : Prop :=
  _client p' = _client p ∧ _tracker p' = _tracker p
  ∧ _track_methods p' = _track_methods p
  ∧ ∀ k h, _tracked_attributes p !! k = Some h → _tracked_attributes p' !! k = Some h.

(** The dotted path of a chain of member names: [outer.inner.op]. *)
Fixpoint dotted (path : list string) : string :=
  match path with
  | [] => ""
  | name :: rest =>
      match rest with
      | [] => name
      | _ :: _ => name ++ "." ++ dotted rest
      end
  end.

(** The target has the chain of members [path] below [client], seen from a
    proxy with table [tm]: every member but the last is an object with a
    [__dict__] that is not itself taken for a tracked method, and the last
    is the callable [method]. *)
Fixpoint namespace_chain (w : world) (client : value)
    (tm : gmap string tracker_fn) (path : list string) (method : value) : Prop :=
  match path with
  | [] => False
  | name :: rest =>
      match rest with
      | [] => py_getattr w client name = Some method ∧ py_callable w method = true
      | _ :: _ =>
          ∃ member,
            py_getattr w client name = Some member
            ∧ has_dict w member = true
            ∧ wraps w tm name member = false
            ∧ namespace_chain w member (sub_track_methods name tm) rest method
      end
  end.

(** The outcome of the real method is one the handler of [wrapped] can
    classify: a result, or an error whose [code] is absent or is a method
    that returns. *)
Definition classifiable (o : outcome value) : Prop :=
  match o with
  | Return _ => True
  | Raise e => ∃ r, classify_error e = Return r
  end.

(** Accessing on proxy [self] the name before the first dot of any key of
    its table, when the target has that member as an object with a
    [__dict__] that is not itself taken for a tracked method, gives a child
    proxy of the member whose table has exactly the suffixes: under [s],
    what the parent has under the name, a dot and [s]. *)
Definition child_proxy_for_every_prefix (w : world) (self : loc) (p : proxy) : Prop :=
  ∀ name rest member tf,
    _tracked_attributes p !! name = None →
    _track_methods p !! (name ++ "." ++ rest) = Some tf →
    py_getattr w (_client p) name = Some member →
    has_dict w member = true →
    wraps w (_track_methods p) name member = false →
    ∃ l q,
      (proxy_getattr self name w).1 = Return (HProxy l)
      ∧ proxies (proxy_getattr self name w).2 !! l = Some q
      ∧ _client q = member
      ∧ _tracker q = _tracker p
      ∧ ∀ s, _track_methods q !! s = _track_methods p !! (name ++ "." ++ s).

(** From [w] on, whatever the program does in between, every call of the
    closure [l] with tracking enabled, whose real method returns or raises
    an error that can be classified, has the outcome of the real method and
    calls the extraction function exactly once. *)
Definition tracked_once_per_call (env : environment) (w : world) (l : loc)
    (cl : closure) : Prop :=
  ∀ acts args kwargs,
    tracking_enabled (run_actions env acts w) kwargs = true →
    classifiable (method_outcome (run_actions env acts w) cl args kwargs) →
    (call_handle env (HWrapped l) args kwargs (run_actions env acts w)).1
    = method_outcome (run_actions env acts w) cl args kwargs
    ∧ ∃ c,
        tracked_step (run_actions env acts w)
          (call_handle env (HWrapped l) args kwargs (run_actions env acts w)).2
          cl args kwargs [c].

(** ** Concrete inputs *)

(** The tracker object handed to the proxies of the examples. *)
Definition the_tracker : value := VRef 9%positive.

Definition call_of (result customer_id : value) (method_name : string)
    (kwargs : gmap string value) : tracker_call :=
  {| tc_result := result;
     tc_customer_id := customer_id;
     tc_tracker := the_tracker;
     tc_method_name := method_name;
     tc_args := [];
     tc_kwargs := kwargs;
     tc_custom_metadata := VNone;
     tc_request_start_time := VNone;
     tc_request_end_time := VNone;
     tc_error_occurred := VNone;
     tc_error_type := VNone;
     tc_error_code := VNone;
     tc_error_message := VNone;
     tc_request_id := VNone |}.

(** A response of [generate_content] that carries a text and nothing about
    usage: object 1 has no attribute [usage_metadata]. *)
Definition world_without_usage : world :=
  World (<[1%positive := PyObj "GenerateContentResponse" None true true
                           (<["text" := VStr "Hello"]> ∅)]> ∅)
        ∅ ∅ [] [] [] [] 0.

(** The call of [test_track_generate_content_no_usage_info]. *)
Definition call_without_usage : tracker_call :=
  call_of (VRef 1%positive) (VStr "customer-123") "models.generate_content" ∅.

(** A response of [count_tokens] with [total_tokens = 15] (object 1), and a
    response of [generate_content] (object 2) whose usage metadata
    (object 3) counts 15 prompt and 25 candidate tokens. *)
Definition world_with_usage : world :=
  World (<[1%positive := PyObj "CountTokensResponse" None true true
                           (<["total_tokens" := VInt 15]> ∅)]>
         (<[2%positive := PyObj "GenerateContentResponse" None true true
                            (<["usage_metadata" := VRef 3%positive]>
                               (<["id" := VStr "resp_123"]> ∅))]>
         (<[3%positive := PyObj "UsageMetadata" None true true
                            (<["prompt_token_count" := VInt 15]>
                               (<["candidates_token_count" := VInt 25]> ∅))]> ∅)))
        ∅ ∅ [] [] [] [] 0.

(** A response of [count_tokens] with [total_tokens = 15] whose class makes
    it false in a condition (a class with a [__len__] that gives zero,
    say). *)
Definition world_with_false_result : world :=
  World (<[1%positive := PyObj "CountTokensResponse" None true false
                           (<["total_tokens" := VInt 15]> ∅)]> ∅)
        ∅ ∅ [] [] [] [] 0.

Definition count_tokens_call : tracker_call :=
  call_of (VRef 1%positive) (VStr "customer-123") "models.count_tokens"
          (<["model" := VStr "models/gemini-2.5-flash"]> ∅).

(** Errors a method of the client may raise: an error of the Gen AI SDK,
    whose attribute [code] is the integer status; an error of gRPC, whose
    [code] is a method; and an error without [code]. *)
Definition api_error : exc :=
  Exc "APIError" "404 NOT_FOUND. model is not found" (CodeNotCallable "int").
Definition client_error : exc :=
  Exc "ClientError" "429 RESOURCE_EXHAUSTED. quota exceeded" (CodeNotCallable "int").
Definition rpc_error : exc :=
  Exc "RpcError" "deadline exceeded" (CodeMethod "StatusCode.DEADLINE_EXCEEDED").
Definition plain_error : exc := Exc "Exception" "API call failed" CodeAbsent.
Definition tracking_error : exc := Exc "Exception" "Tracking failed" CodeAbsent.

Definition method_object (behaviour : list value → gmap string value → outcome value)
  : pyobj :=
  PyObj "method" (Some behaviour) true true ∅.

(** A client (object 20) in the manner of the tests: methods that return,
    and methods that raise each of the errors above; two extraction
    functions supplied by the caller, one that returns (object 14) and one
    that raises (object 15); and a proxy (1) over the client. *)
Definition world_of_methods : world :=
  World (<[10%positive := method_object (λ _ _, Return (VStr "result"))]>
         (<[11%positive := method_object (λ _ _, Raise api_error)]>
         (<[12%positive := method_object (λ _ _, Raise client_error)]>
         (<[13%positive := method_object (λ _ _, Raise plain_error)]>
         (<[14%positive := method_object (λ _ _, Return VNone)]>
         (<[15%positive := method_object (λ _ _, Raise tracking_error)]>
         (<[16%positive := method_object (λ _ _, Raise rpc_error)]>
         (<[20%positive := PyObj "Client" None true true
                             (<["tracked_method" := VRef 10%positive]> ∅)]> ∅))))))))
        (<[1%positive := Proxy (VRef 20%positive) the_tracker
                           (<["tracked_method" := External (VRef 14%positive)]> ∅) ∅]> ∅)
        ∅ [] [] [] [] 0.

Definition closure_over (method tracker_func : loc) : closure :=
  Closure 1%positive (VRef method) "tracked_method" (External (VRef tracker_func)).
Arguments closure_over (method tracker_func)%_positive.

(** The keyword arguments of [test_proxy_customer_id_extraction]. *)
Definition kwargs_with_customer : gmap string value :=
  <["customer_id" := VStr "customer-123"]> (<["kwarg" := VStr "value"]> ∅).

Definition plain_kwargs : gmap string value := <["kwarg" := VStr "value"]> ∅.

(** The client of the module: [client.models] (object 2) is a namespace
    with the two tracked methods, and [client.api_version] is a string.
    Proxy 1 wraps the client with [GEMINI_TRACK_METHODS]. *)
Definition namespace_client : pyobj :=
  PyObj "Client" None true true
        (<["models" := VRef 2%positive]> (<["api_version" := VStr "v1beta"]> ∅)).

Definition namespace_proxy : proxy :=
  Proxy (VRef 1%positive) the_tracker GEMINI_TRACK_METHODS ∅.

Definition world_of_namespaces : world :=
  World (<[1%positive := namespace_client]>
         (<[2%positive := PyObj "Models" None true true
                            (<["generate_content" := VRef 3%positive]>
                               (<["count_tokens" := VRef 4%positive]> ∅))]>
         (<[3%positive := method_object (λ _ _, Return (VStr "generated"))]>
         (<[4%positive := method_object (λ _ _, Return (VStr "counted"))]> ∅))))
        (<[1%positive := namespace_proxy]> ∅)
        ∅ [] [] [] [] 0.

(** A client with a method three names deep, [client.outer.inner.op], an
    extraction function supplied by the caller (object 5), and a proxy (1)
    whose table has the one key [outer.inner.op]. *)
Definition nesting_table : gmap string tracker_fn :=
  <["outer.inner.op" := External (VRef 5%positive)]> ∅.

Definition nesting_proxy : proxy :=
  Proxy (VRef 1%positive) the_tracker nesting_table ∅.

Definition world_of_nesting : world :=
  World (<[1%positive := PyObj "Client" None true true
                           (<["outer" := VRef 2%positive]> ∅)]>
         (<[2%positive := PyObj "Outer" None true true
                            (<["inner" := VRef 3%positive]> ∅)]>
         (<[3%positive := PyObj "Inner" None true true
                            (<["op" := VRef 4%positive]> ∅)]>
         (<[4%positive := method_object (λ _ _, Return (VStr "done"))]>
         (<[5%positive := method_object (λ _ _, Return VNone)]> ∅)))))
        (<[1%positive := nesting_proxy]> ∅)
        ∅ [] [] [] [] 0.

(** The same client when [op] raises an error of the SDK, whose [code] is
    the integer status. *)
Definition world_of_failing_nesting : world :=
  World (<[4%positive := method_object (λ _ _, Raise client_error)]>
           (objects world_of_nesting))
        (proxies world_of_nesting) ∅ [] [] [] [] 0.

(** [proxy.outer.inner.op(...)] and [proxy.models.generate_content(...)] *)
Definition call_through (env : environment) (self : loc) (path : list string)
    (args : list value) (kwargs : gmap string value) : M value :=
  h <- resolve_path (HProxy self) path ;;
  call_handle env h args kwargs.

(** ** Further vocabulary *)

(** The world after one more warning, and after one more call received by
    the tracker. *)
Definition logged (w : world) (msg : string) : world :=
  World (objects w) (proxies w) (closures w) (sink_calls w)
        (warnings w ++ [msg]) (tracker_calls w) (method_calls w) (ticks w).

Definition emitted (w : world) (tracker : value) (ev : usage_event) : world :=
  World (objects w) (proxies w) (closures w) (sink_calls w ++ [(tracker, ev)])
        (warnings w) (tracker_calls w) (method_calls w) (ticks w).

(** The event an extraction function assembles from its call, the
    quantities and the metadata. *)
Definition event_of (env : environment) (c : tracker_call)
    (input_tokens output_tokens : value) (metadata : gmap string value)
  : usage_event :=
  {| ev_customer_id := get_effective_customer_id env (tc_customer_id c);
     ev_model := model_of (tc_kwargs c);
     ev_input_tokens := input_tokens;
     ev_output_tokens := output_tokens;
     ev_provider := "google";
     ev_metadata := metadata;
     ev_request_start_time := tc_request_start_time c;
     ev_request_end_time := tc_request_end_time c;
     ev_error_occurred := tc_error_occurred c;
     ev_error_type := tc_error_type c;
     ev_error_code := tc_error_code c;
     ev_error_message := tc_error_message c;
     ev_request_id := tc_request_id c |}.

(** The text that starts the warning of each extraction function. *)
Definition failure_prefix (b : builtin) : string :=
  match b with
  | track_generate_content_fn => "Failed to extract usage data from generate_content: "
  | track_count_tokens_fn => "Failed to extract usage data from count_tokens: "
  end.

(** What each extraction function reads from the result: the two
    quantities and the metadata, or the error raised while reading. *)
Definition usage_of (b : builtin) (w : world) (result : value)
  : outcome (value * value * gmap string value) :=
  match b with
  | track_generate_content_fn => generate_usage w result
  | track_count_tokens_fn =>
      Return ((count_usage w result).1, VInt 0, (count_usage w result).2)
  end.


(** The state in which [wrapped] runs the extraction function: the call is
    in the ghost trace. *)
Definition at_extraction (w : world) (cl : closure) (args : list value)
    (kwargs : gmap string value) (c : tracker_call) : world :=
  World (objects w) (proxies w) (closures w) (sink_calls w) (warnings w)
        (tracker_calls w ++ [(cl_tracker_func cl, c)])
        (method_calls w ++ [(cl_method cl, args, forwarded_kwargs kwargs)])
        (S (S (S (ticks w)))).

(** The names that precede a dot of a key: [a] and [a.b] for [a.b.c]. *)
Fixpoint dot_prefixes (key : string) : list string :=
  match key with
  | EmptyString => []
  | String c rest =>
      (if Ascii.eqb c "." then [EmptyString] else [])
      ++ (String c <$> dot_prefixes rest)
  end.
(** ** Further concrete inputs *)

(** The response of the fixture [mock_gemini_response]: object 1 has an id,
    no safety ratings, one candidate (object 3) that stopped, and usage
    metadata (object 2) with 15 prompt and 25 candidate tokens.  Object 4 is
    a response whose [candidates] is a number. *)
Definition world_with_candidates : world :=
  World (<[1%positive := PyObj "GenerateContentResponse" None true true
                           (<["id" := VStr "resp_123"]>
                              (<["safety_ratings" := VNone]>
                                 (<["candidates" := VList [VRef 3%positive]]>
                                    (<["usage_metadata" := VRef 2%positive]> ∅))))]>
         (<[2%positive := PyObj "UsageMetadata" None true true
                            (<["prompt_token_count" := VInt 15]>
                               (<["candidates_token_count" := VInt 25]>
                                  (<["total_token_count" := VInt 40]> ∅)))]>
         (<[3%positive := PyObj "Candidate" None true true
                            (<["finish_reason" := VStr "STOP"]> ∅)]>
         (<[4%positive := PyObj "GenerateContentResponse" None true true
                            (<["candidates" := VInt 5]>
                               (<["usage_metadata" := VRef 2%positive]> ∅))]> ∅))))
        ∅ ∅ [] [] [] [] 0.

Definition generate_call (result : loc) : tracker_call :=
  call_of (VRef result) (VStr "customer-123") "models.generate_content"
          (<["model" := VStr "gemini-2.5-flash"]> ∅).
Arguments generate_call result%_positive.

(** A call without any customer: the override is an explicit [None]. *)
Definition anonymous_call : tracker_call :=
  call_of (VRef 1%positive) VNone "models.generate_content" ∅.

(** A call with custom metadata that overrides the response id. *)
Definition call_with_metadata : tracker_call :=
  {| tc_result := VRef 1%positive;
     tc_customer_id := VStr "customer-123";
     tc_tracker := the_tracker;
     tc_method_name := "models.generate_content";
     tc_args := [];
     tc_kwargs := ∅;
     tc_custom_metadata :=
       VDict (<["response_id" := VStr "mine"]> (<["team" := VStr "search"]> ∅));
     tc_request_start_time := VNone;
     tc_request_end_time := VNone;
     tc_error_occurred := VNone;
     tc_error_type := VNone;
     tc_error_code := VNone;
     tc_error_message := VNone;
     tc_request_id := VStr "req_xyz" |}.

(** An environment whose tracker raises on every event. *)
Definition failing_tracker_env : environment :=
  {| get_effective_customer_id := get_effective_customer_id test_env;
     track_usage_background := λ _ _, Some tracking_error;
     time_time := time_time test_env;
     uuid4 := uuid4 test_env;
     update_from_other := update_from_other test_env |}.


(** A closure of proxy 1 of [world_of_methods] around one of its methods,
    with an extraction function of the module. *)
Definition module_closure (method : loc) (b : builtin) : closure :=
  Closure 1%positive (VRef method) "generate_content" (Builtin b).
Arguments module_closure method%_positive b.

(** Keyword arguments that switch the tracking off. *)
Definition kwargs_without_tracking : gmap string value :=
  <["track_usage" := VBool false]> kwargs_with_customer.

(** A client whose member [models] (object 2) is a namespace with a tracked
    method and can also be called itself; proxy 1 wraps it with the table
    of the module. *)
Definition world_of_callable_namespace : world :=
  World (<[1%positive := PyObj "Client" None true true
                           (<["models" := VRef 2%positive]> ∅)]>
         (<[2%positive := PyObj "Models" (Some (λ _ _, Return (VStr "called")))
                            true true
                            (<["generate_content" := VRef 3%positive]> ∅)]>
         (<[3%positive := method_object (λ _ _, Return (VStr "generated"))]> ∅)))
        (<[1%positive := namespace_proxy]> ∅)
        ∅ [] [] [] [] 0.

(** A client with a method [list_models] (object 2) that returns the
    keyword arguments it receives; proxy 1 wraps it with the table of the
    module, which does not name that method. *)
Definition world_of_untracked : world :=
  World (<[1%positive := PyObj "Client" None true true
                           (<["list_models" := VRef 2%positive]> ∅)]>
         (<[2%positive := method_object (λ _ kwargs, Return (VDict kwargs))]> ∅))
        (<[1%positive := namespace_proxy]> ∅)
        ∅ [] [] [] [] 0.

(** The proxy of [world_of_namespaces] after [proxy.api_version] has been
    read once. *)
Definition world_after_read : world :=
  (proxy_getattr 1%positive "api_version" world_of_namespaces).2.

(** What [object.__dir__] gives for a [TrackedProxy] (its four fields and
    the names of its class, abridged), and the names of a client. *)
Definition own_names : list string :=
  ["__class__"; "__dict__"; "__dir__"; "__getattr__"; "__init__"; "__repr__";
   "__setattr__"; "_client"; "_tracked_attributes"; "_track_methods"; "_tracker";
   "_wrap_method"].

Definition client_names : list string :=
  ["models"; "_api_client"; "chats"; "__class__"; "files"].

(** A call whose custom metadata is a string. *)
Definition call_with_text_metadata : tracker_call :=
  {| tc_result := VRef 1%positive;
     tc_customer_id := VStr "customer-123";
     tc_tracker := the_tracker;
     tc_method_name := "models.generate_content";
     tc_args := [];
     tc_kwargs := ∅;
     tc_custom_metadata := VStr "note";
     tc_request_start_time := VNone;
     tc_request_end_time := VNone;
     tc_error_occurred := VNone;
     tc_error_type := VNone;
     tc_error_code := VNone;
     tc_error_message := VNone;
     tc_request_id := VStr "req_xyz" |}.
(** * Properties *)

(** ** Strings *)

Lemma prefix_app (p x : string) : String.prefix p (p ++ x) = true.
Proof.
  induction p as [|a p IH]; simpl.
  - by destruct x.
  - destruct (ascii_dec a a); [exact IH | congruence].
Qed.

Lemma drop_chars_app (p x : string) : drop_chars (String.length p) (p ++ x) = x.
Proof. induction p as [|a p IH]; simpl; [by destruct x | exact IH]. Qed.

Lemma prefix_drop_chars (p s : string) :
  String.prefix p s = true → s = p ++ drop_chars (String.length p) s.
Proof.
  revert s. induction p as [|a p IH]; intros s H; simpl.
  - by destruct s.
  - destruct s as [|b s]; simpl in H; [discriminate|].
    destruct (ascii_dec a b) as [->|]; [|discriminate].
    change (String b s = String b (p ++ drop_chars (String.length p) s)).
    f_equal. by apply IH.
Qed.

Lemma normalize_model_prefixed (x : string) :
  normalize_model (VStr ("models/" ++ x)) = VStr x.
Proof.
  unfold normalize_model. rewrite prefix_app.
  f_equal; apply (drop_chars_app "models/" x).
Qed.

Lemma normalize_model_other (s : string) :
  String.prefix "models/" s = false → normalize_model (VStr s) = VStr s.
Proof. intros H. unfold normalize_model. by rewrite H. Qed.

(** ** Reading attributes *)

Lemma py_hasattr_true (w : world) (v : value) (name : string) :
  py_hasattr w v name = true ↔ ∃ x, py_getattr w v name = Some x.
Proof. unfold py_hasattr. rewrite bool_decide_eq_true. reflexivity. Qed.

Lemma py_hasattr_false (w : world) (v : value) (name : string) :
  py_hasattr w v name = false ↔ py_getattr w v name = None.
Proof.
  unfold py_hasattr. rewrite bool_decide_eq_false, <- eq_None_not_Some. reflexivity.
Qed.

(** The truth value of a value depends on the objects of the store alone. *)
Lemma truthy_objects (w w' : world) (v : value) :
  objects w' = objects w → truthy w' v = truthy w v.
Proof. intros H. destruct v; simpl; try done. by rewrite H. Qed.

(** ** The extraction functions *)

Section Extraction.

Context (env : environment).

Ltac run_M :=
  unfold track_count_tokens, track_generate_content, try_except, bind, ret,
    raise, lift, get_world, log_warning, sink_record; simpl.

Lemma merge_custom_mapping (w : world) (metadata : gmap string value)
    (custom : value) :
  mapping_or_none custom →
  ∃ merged, merge_custom env w metadata custom = Return merged.
Proof.
  intros [-> | [d ->]]; unfold merge_custom; simpl; [eauto|].
  destruct (negb _); simpl; eauto.
Qed.

(** [track_count_tokens] never raises; it changes nothing but the log and
    the calls received by the tracker, of which it makes at most one; the
    event carries the normalised model, the quantity read from the result
    and a zero output quantity; and a call is made whenever a customer is
    resolved and the custom metadata is a mapping or absent. *)
Lemma track_count_tokens_run (c : tracker_call) (w : world) :
  ∃ evs msgs,
    track_count_tokens env c w
    = (Return tt,
       World (objects w) (proxies w) (closures w) (sink_calls w ++ evs)
             (warnings w ++ msgs) (tracker_calls w) (method_calls w) (ticks w))
    ∧ (evs = [] ∨
       ∃ ev, evs = [(tc_tracker c, ev)]
             ∧ ev_customer_id ev = get_effective_customer_id env (tc_customer_id c)
             ∧ truthy w (ev_customer_id ev) = true
             ∧ ev_model ev = model_of (tc_kwargs c)
             ∧ ev_input_tokens ev = total_tokens_or_zero w (tc_result c)
             ∧ ev_output_tokens ev = VInt 0
             ∧ ev_error_occurred ev = tc_error_occurred c
             ∧ ev_error_type ev = tc_error_type c
             ∧ ev_error_code ev = tc_error_code c
             ∧ ev_error_message ev = tc_error_message c)
    ∧ (truthy w (get_effective_customer_id env (tc_customer_id c)) = true →
       mapping_or_none (tc_custom_metadata c) → length evs = 1).
Proof.
  run_M.
  destruct (truthy w (get_effective_customer_id env (tc_customer_id c))) eqn:Hc; simpl.
  2:{ exists [], ["No customer_id provided for tracking."].
      rewrite app_nil_r. split; [done|]. split; [by left | done]. }
  assert (Hin : (count_usage w (tc_result c)).1
                = total_tokens_or_zero w (tc_result c)).
  { unfold count_usage, total_tokens_or_zero, getattr_default.
    destruct (truthy w (tc_result c)); [|done].
    destruct (py_hasattr w (tc_result c) "total_tokens") eqn:Hh; simpl.
    - apply py_hasattr_true in Hh as [x ->]. done.
    - apply py_hasattr_false in Hh as ->. done. }
  destruct (count_usage w (tc_result c)) as [input_tokens metadata].
  simpl in Hin. subst input_tokens.
  destruct (merge_custom env w metadata (tc_custom_metadata c)) as [merged|e] eqn:Hm;
    simpl.
  - match goal with |- context [track_usage_background env ?t ?ev] =>
      destruct (track_usage_background env t ev) as [e|] eqn:Hs;
      [exists [(t, ev)], ["Failed to extract usage data from count_tokens: " ++ exc_str e]
      |exists [(t, ev)], []; rewrite (app_nil_r (warnings w))];
      (split; [done|]; split; [right; exists ev; by repeat split | done])
    end.
  - exists [], ["Failed to extract usage data from count_tokens: " ++ exc_str e].
    rewrite app_nil_r. split; [done|]. split; [by left|].
    intros _ Hmap. destruct (merge_custom_mapping w metadata _ Hmap) as [m Hm'].
    congruence.
Qed.

Lemma generate_usage_quantities (w : world) (result : value)
    (i o : value) (md : gmap string value) :
  generate_usage w result = Return (i, o, md) → (i, o) = generate_quantities w result.
Proof.
  unfold generate_usage, generate_quantities, getattr_default.
  destruct (py_hasattr w result "usage_metadata") eqn:Hh.
  - apply py_hasattr_true in Hh as [um ->]. rewrite andb_true_r.
    destruct (truthy w result); simpl; [|by intros [= <- <- _]].
    destruct (finish_reason_of w result); [|discriminate].
    by intros [= <- <- _].
  - apply py_hasattr_false in Hh as ->. rewrite andb_false_r.
    by intros [= <- <- _].
Qed.

Lemma generate_usage_without_container (w : world) (result : value) :
  py_hasattr w result "usage_metadata" = false →
  generate_usage w result = Return (VInt 0, VInt 0, ∅).
Proof. intros H. unfold generate_usage. by rewrite H, andb_false_r. Qed.

(** The same for [track_generate_content]; a call is made whenever a
    customer is resolved, reading the result does not raise, and the custom
    metadata is a mapping or absent. *)
Lemma track_generate_content_run (c : tracker_call) (w : world) :
  ∃ evs msgs,
    track_generate_content env c w
    = (Return tt,
       World (objects w) (proxies w) (closures w) (sink_calls w ++ evs)
             (warnings w ++ msgs) (tracker_calls w) (method_calls w) (ticks w))
    ∧ (evs = [] ∨
       ∃ ev, evs = [(tc_tracker c, ev)]
             ∧ ev_customer_id ev = get_effective_customer_id env (tc_customer_id c)
             ∧ truthy w (ev_customer_id ev) = true
             ∧ ev_model ev = model_of (tc_kwargs c)
             ∧ (ev_input_tokens ev, ev_output_tokens ev)
               = generate_quantities w (tc_result c)
             ∧ ev_error_occurred ev = tc_error_occurred c
             ∧ ev_error_type ev = tc_error_type c
             ∧ ev_error_code ev = tc_error_code c
             ∧ ev_error_message ev = tc_error_message c)
    ∧ (truthy w (get_effective_customer_id env (tc_customer_id c)) = true →
       (∃ u, generate_usage w (tc_result c) = Return u) →
       mapping_or_none (tc_custom_metadata c) → length evs = 1).
Proof.
  run_M.
  destruct (truthy w (get_effective_customer_id env (tc_customer_id c))) eqn:Hc; simpl.
  2:{ exists [], ["No customer_id provided for tracking."].
      rewrite app_nil_r. split; [done|]. split; [by left | done]. }
  destruct (generate_usage w (tc_result c)) as [[[i o] metadata]|e] eqn:Hu; simpl.
  2:{ exists [], ["Failed to extract usage data from generate_content: " ++ exc_str e].
      rewrite app_nil_r. split; [done|]. split; [by left|].
      by intros _ [u Hu'] _. }
  apply generate_usage_quantities in Hu.
  destruct (merge_custom env w metadata (tc_custom_metadata c)) as [merged|e] eqn:Hm;
    simpl.
  - match goal with |- context [track_usage_background env ?t ?ev] =>
      destruct (track_usage_background env t ev) as [e|] eqn:Hs;
      [exists [(t, ev)], ["Failed to extract usage data from generate_content: " ++ exc_str e]
      |exists [(t, ev)], []; rewrite (app_nil_r (warnings w))];
      (split; [done|]; split; [right; exists ev; by repeat split | done])
    end.
  - exists [], ["Failed to extract usage data from generate_content: " ++ exc_str e].
    rewrite app_nil_r. split; [done|]. split; [by left|].
    intros _ _ Hmap. destruct (merge_custom_mapping w metadata _ Hmap) as [m Hm'].
    congruence.
Qed.

(** Both functions through their values. *)
Lemma run_builtin_run (b : builtin) (c : tracker_call) (w : world) :
  ∃ evs msgs,
    run_builtin env b c w
    = (Return tt,
       World (objects w) (proxies w) (closures w) (sink_calls w ++ evs)
             (warnings w ++ msgs) (tracker_calls w) (method_calls w) (ticks w))
    ∧ (evs = [] ∨
       ∃ ev, evs = [(tc_tracker c, ev)] ∧ ev_model ev = model_of (tc_kwargs c))
    ∧ (truthy w (get_effective_customer_id env (tc_customer_id c)) = true →
       (∃ u, generate_usage w (tc_result c) = Return u) →
       mapping_or_none (tc_custom_metadata c) → length evs = 1).
Proof.
  destruct b; simpl.
  - destruct (track_generate_content_run c w)
      as (evs & msgs & -> & [->|(ev & -> & H)] & Hlive);
      eexists _, msgs; (split; [done|]); (split; [|done]);
      [by left | right; exists ev; by destruct H as (_ & _ & ? & _)].
  - destruct (track_count_tokens_run c w)
      as (evs & msgs & -> & [->|(ev & -> & H)] & Hlive);
      eexists _, msgs; (split; [done|]); (split; [|by auto]);
      [by left | right; exists ev; by destruct H as (_ & _ & ? & _)].
Qed.

End Extraction.

(** C2.  The code at the input of its own test
    [test_track_generate_content_no_usage_info]: the result has no
    [usage_metadata], a customer is given, and [track_generate_content]
    does call the tracker, once, with an event whose two quantities are
    zero.  The claim (and the test) expect no call at all. *)
Theorem generate_without_usage_metadata_emits_zero_event :
  py_hasattr world_without_usage (tc_result call_without_usage) "usage_metadata" = false
  ∧ (track_generate_content test_env call_without_usage world_without_usage).1
    = Return tt
  ∧ ∃ ev,
      sink_calls (track_generate_content test_env call_without_usage
                    world_without_usage).2
      = [(the_tracker, ev)]
      ∧ ev_customer_id ev = VStr "customer-123"
      ∧ ev_model ev = VStr "unknown"
      ∧ ev_input_tokens ev = VInt 0
      ∧ ev_output_tokens ev = VInt 0
      ∧ ev_metadata ev = ∅.
Proof.
  split; [by vm_compute|]. split; [by vm_compute|].
  eexists. split; [by vm_compute|]. by repeat split.
Qed.

(** The same on every input: with a customer resolved and the custom
    metadata a mapping or absent, a result without [usage_metadata] (the
    failure path, where the result is [None], included) leads to exactly
    one call of the tracker, with zero quantities. *)
Lemma generate_without_usage_metadata (env : environment) (c : tracker_call)
    (w : world) :
  truthy w (get_effective_customer_id env (tc_customer_id c)) = true →
  mapping_or_none (tc_custom_metadata c) →
  py_hasattr w (tc_result c) "usage_metadata" = false →
  ∃ ev msgs,
    telemetry_step w (track_generate_content env c w).2 [(tc_tracker c, ev)] msgs
    ∧ ev_input_tokens ev = VInt 0 ∧ ev_output_tokens ev = VInt 0.
Proof.
  intros Hc Hm Hh.
  destruct (track_generate_content_run env c w) as (evs & msgs & -> & Hev & Hlive).
  specialize (Hlive Hc (ex_intro _ _ (generate_usage_without_container _ _ Hh)) Hm).
  destruct Hev as [->|(ev & -> & _ & _ & _ & Hq & _)]; [done|].
  exists ev, msgs. split; [done|].
  unfold generate_quantities in Hq. apply py_hasattr_false in Hh.
  rewrite Hh in Hq. by inversion Hq.
Qed.

(** When the result is true in a condition and the container is there, the
    event carries the counts read from it. *)
Lemma generate_with_usage_metadata (env : environment) (c : tracker_call)
    (w : world) (usage_metadata prompt candidates : value) :
  truthy w (get_effective_customer_id env (tc_customer_id c)) = true →
  mapping_or_none (tc_custom_metadata c) →
  (∃ u, generate_usage w (tc_result c) = Return u) →
  truthy w (tc_result c) = true →
  py_getattr w (tc_result c) "usage_metadata" = Some usage_metadata →
  py_getattr w usage_metadata "prompt_token_count" = Some prompt →
  py_getattr w usage_metadata "candidates_token_count" = Some candidates →
  ∃ ev msgs,
    telemetry_step w (track_generate_content env c w).2 [(tc_tracker c, ev)] msgs
    ∧ ev_input_tokens ev = prompt ∧ ev_output_tokens ev = candidates.
Proof.
  intros Hc Hm Hu Ht Hum Hp Hcand.
  destruct (track_generate_content_run env c w) as (evs & msgs & -> & Hev & Hlive).
  specialize (Hlive Hc Hu Hm).
  destruct Hev as [->|(ev & -> & _ & _ & _ & Hq & _)]; [done|].
  exists ev, msgs. split; [done|].
  unfold generate_quantities, getattr_default in Hq.
  rewrite Hum, Ht, Hp, Hcand in Hq. by inversion Hq.
Qed.

(** C10, as the specification states it, fails on a result that has the
    field but is false in a condition: the guard [result and
    hasattr(result, "total_tokens")] fails, and the event reports zero
    although the result exposes [total_tokens = 15]. *)
Lemma false_result_reports_zero_tokens :
  truthy world_with_false_result
    (get_effective_customer_id test_env (tc_customer_id count_tokens_call)) = true
  ∧ py_getattr world_with_false_result (tc_result count_tokens_call) "total_tokens"
    = Some (VInt 15)
  ∧ truthy world_with_false_result (tc_result count_tokens_call) = false
  ∧ ∃ ev,
      sink_calls (track_count_tokens test_env count_tokens_call
                    world_with_false_result).2 = [(the_tracker, ev)]
      ∧ ev_input_tokens ev = VInt 0
      ∧ ev_input_tokens ev ≠ VInt 15.
Proof.
  split; [reflexivity|]. split; [reflexivity|]. split; [reflexivity|].
  eexists. split; [by vm_compute|]. by split.
Qed.

(** C10, amended.  With a customer resolved, [track_count_tokens] never
    raises and calls the tracker at most once; every event it sends has
    output quantity zero and, as input quantity, the field [total_tokens]
    of the result when the result is true in a condition and has the
    field, and zero when the result has not the field or is false in a
    condition, in particular when it is [None]; and it does send one when
    the custom metadata is a mapping or absent. *)
Theorem count_tokens_event_quantities (env : environment) (c : tracker_call)
    (w : world) :
  truthy w (get_effective_customer_id env (tc_customer_id c)) = true →
  ∃ evs msgs,
    (track_count_tokens env c w).1 = Return tt
    ∧ telemetry_step w (track_count_tokens env c w).2 evs msgs
    ∧ (∀ t ev, (t, ev) ∈ evs →
         ev_output_tokens ev = VInt 0
         ∧ (∀ total, truthy w (tc_result c) = true →
                     py_getattr w (tc_result c) "total_tokens" = Some total →
                     ev_input_tokens ev = total)
         ∧ (py_getattr w (tc_result c) "total_tokens" = None →
            ev_input_tokens ev = VInt 0)
         ∧ (truthy w (tc_result c) = false → ev_input_tokens ev = VInt 0)
         ∧ (tc_result c = VNone → ev_input_tokens ev = VInt 0))
    ∧ (mapping_or_none (tc_custom_metadata c) → ∃ ev, evs = [(tc_tracker c, ev)]).
Proof.
  intros Hc.
  destruct (track_count_tokens_run env c w) as (evs & msgs & Hrun & Hev & Hlive).
  exists evs, msgs. rewrite Hrun. split; [done|]. split; [done|]. split.
  - intros t ev Hin.
    destruct Hev as [->|(ev' & -> & _ & _ & _ & Hi & Ho & _)].
    { by apply elem_of_nil in Hin. }
    apply list_elem_of_singleton in Hin. injection Hin as -> ->.
    unfold total_tokens_or_zero in Hi.
    split; [done|]. split; [|split; [|split]].
    + intros total Ht Hg. by rewrite Ht, Hg in Hi.
    + intros Hg. rewrite Hg in Hi. by destruct (truthy w (tc_result c)).
    + intros Ht. by rewrite Ht in Hi.
    + intros Hr. by rewrite Hr in Hi.
  - intros Hm. specialize (Hlive Hc Hm).
    destruct Hev as [->|(ev & -> & _)]; [done | by exists ev].
Qed.

Lemma count_tokens_event_quantities_witness :
  truthy world_with_usage
    (get_effective_customer_id test_env (tc_customer_id count_tokens_call)) = true
  ∧ ∃ evs msgs,
      (track_count_tokens test_env count_tokens_call world_with_usage).1 = Return tt
      ∧ telemetry_step world_with_usage
          (track_count_tokens test_env count_tokens_call world_with_usage).2 evs msgs
      ∧ (∀ t ev, (t, ev) ∈ evs →
           ev_output_tokens ev = VInt 0
           ∧ (∀ total,
                truthy world_with_usage (tc_result count_tokens_call) = true →
                py_getattr world_with_usage (tc_result count_tokens_call) "total_tokens"
                = Some total → ev_input_tokens ev = total)
           ∧ (py_getattr world_with_usage (tc_result count_tokens_call) "total_tokens"
              = None → ev_input_tokens ev = VInt 0)
           ∧ (truthy world_with_usage (tc_result count_tokens_call) = false →
              ev_input_tokens ev = VInt 0)
           ∧ (tc_result count_tokens_call = VNone → ev_input_tokens ev = VInt 0))
      ∧ (mapping_or_none (tc_custom_metadata count_tokens_call) →
         ∃ ev, evs = [(tc_tracker count_tokens_call, ev)]).
Proof.
  split; [reflexivity|].
  apply (count_tokens_event_quantities test_env count_tokens_call world_with_usage).
  reflexivity.
Defined.

(** The event of the response of the tests: 15 and zero. *)
Example count_tokens_of_the_fixture :
  ∃ ev,
    sink_calls (track_count_tokens test_env count_tokens_call world_with_usage).2
    = [(the_tracker, ev)]
    ∧ ev_input_tokens ev = VInt 15 ∧ ev_output_tokens ev = VInt 0.
Proof. eexists. split; [by vm_compute|]. by split. Qed.

(** C9.  Both extraction functions, when the keyword argument [model] is a
    string [s]: neither raises, each calls the tracker at most once, and
    every event sent names the model [x] when [s] is ["models/"] followed
    by [x], and [s] itself when [s] does not start with ["models/"]; an
    event is sent when a customer is resolved, reading the result does not
    raise, and the custom metadata is a mapping or absent. *)
Theorem operation_identifier_strips_models_prefix (env : environment)
    (b : builtin) (c : tracker_call) (w : world) (s : string) :
  tc_kwargs c !! "model" = Some (VStr s) →
  ∃ evs msgs,
    (run_builtin env b c w).1 = Return tt
    ∧ telemetry_step w (run_builtin env b c w).2 evs msgs
    ∧ (∀ t ev, (t, ev) ∈ evs →
         (∀ x, s = "models/" ++ x → ev_model ev = VStr x)
         ∧ (String.prefix "models/" s = false → ev_model ev = VStr s))
    ∧ (truthy w (get_effective_customer_id env (tc_customer_id c)) = true →
       (∃ u, generate_usage w (tc_result c) = Return u) →
       mapping_or_none (tc_custom_metadata c) →
       ∃ ev, evs = [(tc_tracker c, ev)]).
Proof.
  intros Hmodel.
  destruct (run_builtin_run env b c w) as (evs & msgs & Hrun & Hev & Hlive).
  exists evs, msgs. rewrite Hrun. split; [done|]. split; [done|]. split.
  - intros t ev Hin.
    destruct Hev as [->|(ev' & -> & Hm)]; [by apply elem_of_nil in Hin|].
    apply list_elem_of_singleton in Hin. injection Hin as -> ->.
    unfold model_of in Hm. rewrite Hmodel in Hm.
    change (ev_model ev' = normalize_model (VStr s)) in Hm. split.
    + intros x ->. by rewrite normalize_model_prefixed in Hm.
    + intros Hp. by rewrite normalize_model_other in Hm.
  - intros Hc Hu Hm. specialize (Hlive Hc Hu Hm).
    destruct Hev as [->|(ev & -> & _)]; [done | by exists ev].
Qed.

Lemma operation_identifier_strips_models_prefix_witness :
  tc_kwargs count_tokens_call !! "model" = Some (VStr "models/gemini-2.5-flash")
  ∧ ∃ evs msgs,
      (run_builtin test_env track_count_tokens_fn count_tokens_call
         world_with_usage).1 = Return tt
      ∧ telemetry_step world_with_usage
          (run_builtin test_env track_count_tokens_fn count_tokens_call
             world_with_usage).2 evs msgs
      ∧ (∀ t ev, (t, ev) ∈ evs →
           (∀ x, "models/gemini-2.5-flash" = "models/" ++ x → ev_model ev = VStr x)
           ∧ (String.prefix "models/" "models/gemini-2.5-flash" = false →
              ev_model ev = VStr "models/gemini-2.5-flash"))
      ∧ (truthy world_with_usage
           (get_effective_customer_id test_env
              (tc_customer_id count_tokens_call)) = true →
         (∃ u, generate_usage world_with_usage (tc_result count_tokens_call)
               = Return u) →
         mapping_or_none (tc_custom_metadata count_tokens_call) →
         ∃ ev, evs = [(tc_tracker count_tokens_call, ev)]).
Proof.
  split; [reflexivity|].
  apply (operation_identifier_strips_models_prefix test_env track_count_tokens_fn
           count_tokens_call world_with_usage "models/gemini-2.5-flash").
  reflexivity.
Defined.

(** ** The per-call interceptor *)

Section Interceptor.

Context (env : environment).

Lemma forwarded_kwargs_lookup (kwargs : gmap string value) (k : string) :
  forwarded_kwargs kwargs !! k
  = if bool_decide (reserved k) then None else kwargs !! k.
Proof.
  unfold forwarded_kwargs, reserved.
  rewrite !lookup_delete.
  repeat case_decide; subst; try done; case_bool_decide; naive_solver.
Qed.

(** A call of an extraction function is recorded, adds to the calls of the
    tracker and to the log, and touches nothing else. *)
Lemma call_tracker_run (tf : tracker_fn) (c : tracker_call) (w : world) :
  ∃ r evs msgs,
    call_tracker env tf c w
    = (r, World (objects w) (proxies w) (closures w) (sink_calls w ++ evs)
                (warnings w ++ msgs) (tracker_calls w ++ [(tf, c)])
                (method_calls w) (ticks w)).
Proof.
  unfold call_tracker. destruct tf as [b|f].
  - match goal with |- context [run_builtin env b c ?w1] =>
      destruct (run_builtin_run env b c w1) as (evs & msgs & -> & _) end.
    by exists (Return tt), evs, msgs.
  - match goal with |- context [call_value ?w1 f ?a ?k] =>
      destruct (call_value w1 f a k) as [v|e] end;
      [exists (Return tt), [], [] | exists (Raise e), [], []];
      simpl; by rewrite !app_nil_r.
Qed.

(** The two extraction functions of the module never raise. *)
Lemma call_tracker_builtin (b : builtin) (c : tracker_call) (w : world) :
  (call_tracker env (Builtin b) c w).1 = Return tt.
Proof.
  unfold call_tracker.
  match goal with |- context [run_builtin env b c ?w1] =>
    destruct (run_builtin_run env b c w1) as (evs & msgs & -> & _) end.
  done.
Qed.

Lemma call_value_objects (w w' : world) (f : value) (args : list value)
    (kwargs : gmap string value) :
  objects w' = objects w → call_value w' f args kwargs = call_value w f args kwargs.
Proof.
  intros H. unfold call_value, heap_obj, type_name. destruct f; try done.
  by rewrite H.
Qed.

Ltac run_wrapped w kwargs :=
  unfold method_outcome;
  unfold wrapped, try_except, bind, new_request_id, now, call_method,
    self_tracker, lift, ret, raise, log_warning, get_world;
  cbn [fst snd objects proxies closures sink_calls warnings tracker_calls
       method_calls ticks tick];
  rewrite (call_value_objects w (tick (tick w))) by done;
  fold (forwarded_kwargs kwargs);
  rewrite (lookup_delete_ne kwargs "customer_id" "track_usage") by done;
  rewrite !(lookup_delete_ne _ _ "metadata") by done;
  fold (customer_override kwargs) (metadata_override kwargs).

Ltac enabled_at w kwargs :=
  unfold tick;
  cbn [fst snd objects proxies closures sink_calls warnings tracker_calls
       method_calls ticks];
  rewrite ?(truthy_objects w (World _ _ _ _ _ _ _ _)) by done;
  fold (tracking_enabled w kwargs).

(** What a tracked call does, by the outcome of the real method and of the
    classification of its error. *)
Lemma wrapped_run (cl : closure) (args : list value) (kwargs : gmap string value)
    (w : world) :
  match method_outcome w cl args kwargs with
  | Return result =>
      (wrapped env cl args kwargs w).1 = Return result
      ∧ tracked_step w (wrapped env cl args kwargs w).2 cl args kwargs
          (if tracking_enabled w kwargs
           then [success_call env w cl args kwargs result] else [])
  | Raise e =>
      match classify_error e with
      | Return (error_code, error_type) =>
          (wrapped env cl args kwargs w).1 = Raise e
          ∧ tracked_step w (wrapped env cl args kwargs w).2 cl args kwargs
              (if tracking_enabled w kwargs
               then [failure_call env w cl args kwargs e error_code error_type]
               else [])
      | Raise x =>
          (wrapped env cl args kwargs w).1 = Raise x
          ∧ tracked_step w (wrapped env cl args kwargs w).2 cl args kwargs []
      end
  end.
Proof.
  run_wrapped w kwargs.
  destruct (call_value w (cl_method cl) args (forwarded_kwargs kwargs))
    as [result|e] eqn:Hout.
  - enabled_at w kwargs. destruct (tracking_enabled w kwargs); cbn.
    + match goal with |- context [call_tracker env ?tf ?c ?w0] =>
        destruct (call_tracker_run tf c w0) as (r & evs & msgs & ->) end.
      destruct r as [[]|x]; cbn; (split; [done|]);
        unfold tracked_step; cbn; repeat split; eauto.
      eexists. by rewrite <- app_assoc.
    + split; [done|]. unfold tracked_step; cbn.
      rewrite app_nil_r. repeat (split; [done|]).
      split; exists []; by rewrite app_nil_r.
  - cbn. destruct (classify_error e) as [[error_code error_type]|x]; cbn.
    + enabled_at w kwargs. destruct (tracking_enabled w kwargs); cbn.
      * match goal with |- context [call_tracker env ?tf ?c ?w0] =>
          destruct (call_tracker_run tf c w0) as (r & evs & msgs & ->) end.
        destruct r as [[]|x]; cbn; (split; [done|]);
          unfold tracked_step; cbn; repeat split; eauto.
        eexists. by rewrite <- app_assoc.
      * split; [done|]. unfold tracked_step; cbn.
        rewrite app_nil_r. repeat (split; [done|]).
        split; exists []; by rewrite app_nil_r.
    + split; [done|]. unfold tracked_step; cbn.
      rewrite app_nil_r. repeat (split; [done|]).
      split; exists []; by rewrite app_nil_r.
Qed.

(** The log and the tracker after a tracked call with tracking enabled:
    what the extraction function left, and one warning when it raised. *)
Lemma wrapped_telemetry (cl : closure) (args : list value)
    (kwargs : gmap string value) (w : world) :
  tracking_enabled w kwargs = true →
  let w' := (wrapped env cl args kwargs w).2 in
  let run c := call_tracker env (cl_tracker_func cl) c
                 (at_tracker_call w cl args kwargs) in
  match method_outcome w cl args kwargs with
  | Return result =>
      let r := run (success_call env w cl args kwargs result) in
      sink_calls w' = sink_calls r.2
      ∧ warnings w'
        = (warnings r.2
           ++ tracker_warning "Failed to track usage for " (cl_method_name cl) r.1)%list
  | Raise e =>
      match classify_error e with
      | Return (error_code, error_type) =>
          let r := run (failure_call env w cl args kwargs e error_code error_type) in
          sink_calls w' = sink_calls r.2
          ∧ warnings w'
            = (warnings r.2
               ++ tracker_warning "Failed to track error for " (cl_method_name cl) r.1)%list
      | Raise x => sink_calls w' = sink_calls w ∧ warnings w' = warnings w
      end
  end.
Proof.
  intros Hen. run_wrapped w kwargs.
  destruct (call_value w (cl_method cl) args (forwarded_kwargs kwargs))
    as [result|e] eqn:Hout.
  - enabled_at w kwargs. rewrite Hen. cbn.
    match goal with |- context [call_tracker env ?tf ?c ?w0] =>
      change (call_tracker env tf c w0)
        with (call_tracker env (cl_tracker_func cl)
                (success_call env w cl args kwargs result)
                (at_tracker_call w cl args kwargs));
      destruct (call_tracker env (cl_tracker_func cl)
                  (success_call env w cl args kwargs result)
                  (at_tracker_call w cl args kwargs)) as [[[]|x] w4] end;
      cbn; by rewrite ?app_nil_r.
  - cbn. destruct (classify_error e) as [[error_code error_type]|x]; cbn; [|done].
    enabled_at w kwargs. rewrite Hen. cbn.
    match goal with |- context [call_tracker env ?tf ?c ?w0] =>
      change (call_tracker env tf c w0)
        with (call_tracker env (cl_tracker_func cl)
                (failure_call env w cl args kwargs e error_code error_type)
                (at_tracker_call w cl args kwargs));
      destruct (call_tracker env (cl_tracker_func cl)
                  (failure_call env w cl args kwargs e error_code error_type)
                  (at_tracker_call w cl args kwargs)) as [[[]|x] w4] end;
      cbn; by rewrite ?app_nil_r.
Qed.

(** With tracking switched off, a tracked call is the call of the real
    method, three readings of the clock, and nothing else. *)
Lemma wrapped_untracked (cl : closure) (args : list value)
    (kwargs : gmap string value) (w : world) :
  tracking_enabled w kwargs = false →
  wrapped env cl args kwargs w
  = (match method_outcome w cl args kwargs with
     | Return result => Return result
     | Raise e =>
         match classify_error e with
         | Return _ => Raise e
         | Raise x => Raise x
         end
     end,
     at_tracker_call w cl args kwargs).
Proof.
  intros Hen. run_wrapped w kwargs.
  destruct (call_value w (cl_method cl) args (forwarded_kwargs kwargs))
    as [result|e].
  - enabled_at w kwargs. by rewrite Hen.
  - cbn. destruct (classify_error e) as [[error_code error_type]|x]; cbn; [|done].
    enabled_at w kwargs. by rewrite Hen.
Qed.

End Interceptor.

(** The error path of a tracked call when the classification goes through
    (the error has no [code], or a method [code] that returns): the very
    error is raised again and, with tracking enabled, the extraction
    function is called exactly once, with no result, the failure flag, the
    string form of the error, and the kind and code of the error. *)
Lemma classified_error_is_tracked_and_reraised (env : environment) (cl : closure)
    (args : list value) (kwargs : gmap string value) (w : world) (e : exc) :
  method_outcome w cl args kwargs = Raise e →
  tracking_enabled w kwargs = true →
  exc_code e = CodeAbsent ∨ (∃ s, exc_code e = CodeMethod s) →
  ∃ c,
    (wrapped env cl args kwargs w).1 = Raise e
    ∧ tracked_step w (wrapped env cl args kwargs w).2 cl args kwargs [c]
    ∧ tc_result c = VNone
    ∧ tc_error_occurred c = VBool true
    ∧ tc_error_message c = VStr (exc_str e)
    ∧ (exc_code e = CodeAbsent →
       tc_error_type c = VStr "sdk_error" ∧ tc_error_code c = VNone)
    ∧ (∀ s, exc_code e = CodeMethod s →
       tc_error_type c = VStr "grpc_error" ∧ tc_error_code c = VStr s).
Proof.
  intros Hout Hen Hcode.
  pose proof (wrapped_run env cl args kwargs w) as H.
  rewrite Hout, Hen in H. unfold classify_error in H.
  destruct Hcode as [Hc|[s Hc]]; rewrite Hc in H; destruct H as [H1 H2];
    eexists; (split; [exact H1|]); (split; [exact H2|]); cbn;
    repeat split; congruence.
Qed.

(** C1.  The code on an error of the SDK it wraps: the error has an
    attribute [code] (the integer status), so [hasattr(e, 'code')] holds,
    and the unguarded call [e.code()] raises [TypeError] inside the
    handler.  No classification is made and, although tracking is enabled,
    the extraction function receives nothing. *)
Theorem error_with_integer_code_is_not_classified :
  method_outcome world_of_methods (closure_over 12 14) [VStr "arg1"] plain_kwargs
  = Raise client_error
  ∧ exc_code client_error = CodeNotCallable "int"
  ∧ tracking_enabled world_of_methods plain_kwargs = true
  ∧ classify_error client_error = Raise (not_callable "int")
  ∧ tracker_calls
      (wrapped test_env (closure_over 12 14) [VStr "arg1"] plain_kwargs
         world_of_methods).2 = [].
Proof. repeat split; by vm_compute. Qed.

(** C3.  The same defect seen by the caller: the method raises an
    [APIError] whose [code] is an integer, and the tracked call raises a
    [TypeError] instead of that error, without any call of the extraction
    function. *)
Theorem error_with_integer_code_is_not_reraised :
  method_outcome world_of_methods (closure_over 11 14) [VStr "arg1"] plain_kwargs
  = Raise api_error
  ∧ tracking_enabled world_of_methods plain_kwargs = true
  ∧ (wrapped test_env (closure_over 11 14) [VStr "arg1"] plain_kwargs
       world_of_methods).1
    = Raise (Exc "TypeError" "'int' object is not callable" CodeAbsent)
  ∧ (wrapped test_env (closure_over 11 14) [VStr "arg1"] plain_kwargs
       world_of_methods).1 ≠ Raise api_error
  ∧ tracker_calls
      (wrapped test_env (closure_over 11 14) [VStr "arg1"] plain_kwargs
         world_of_methods).2 = [].
Proof. repeat split; by vm_compute. Qed.

Lemma tracked_step_calls (w w' : world) (cl : closure) (args : list value)
    (kwargs : gmap string value) (calls calls' : list tracker_call) :
  tracked_step w w' cl args kwargs calls →
  tracked_step w w' cl args kwargs calls' → calls = calls'.
Proof.
  intros (_ & _ & _ & _ & H & _) (_ & _ & _ & _ & H' & _).
  rewrite H in H'. apply app_inv_head in H'.
  revert H'. apply (inj (fmap (λ c, (cl_tracker_func cl, c)))).
Qed.

(** C7.  Every tracked call: the real method is called once, with the
    positional arguments as they are and with the keyword arguments without
    the three reserved ones and otherwise unchanged; every call of the
    extraction function carries the same forwarded arguments and, as the
    customer override, the value given as [customer_id] (the unset
    sentinel when none is given); and with tracking enabled and an outcome
    of the method that can be classified there is exactly one such call,
    and the outcome of the tracked call is the one of the method. *)
Theorem reserved_keywords_are_stripped (env : environment) (cl : closure)
    (args : list value) (kwargs : gmap string value) (w : world) :
  ∃ calls,
    tracked_step w (wrapped env cl args kwargs w).2 cl args kwargs calls
    ∧ (∀ k, reserved k → forwarded_kwargs kwargs !! k = None)
    ∧ (∀ k, ¬ reserved k → forwarded_kwargs kwargs !! k = kwargs !! k)
    ∧ (∀ c, c ∈ calls →
         tc_args c = args
         ∧ tc_kwargs c = forwarded_kwargs kwargs
         ∧ tc_customer_id c = default VEllipsis (kwargs !! "customer_id")
         ∧ ∀ cid, kwargs !! "customer_id" = Some cid → tc_customer_id c = cid)
    ∧ (tracking_enabled w kwargs = true →
       classifiable (method_outcome w cl args kwargs) →
       (wrapped env cl args kwargs w).1 = method_outcome w cl args kwargs
       ∧ ∃ c, calls = [c]).
Proof.
  assert (Hfields : ∀ r eo et ec em,
            let c := call_context env w cl args kwargs r eo et ec em in
            tc_args c = args
            ∧ tc_kwargs c = forwarded_kwargs kwargs
            ∧ tc_customer_id c = default VEllipsis (kwargs !! "customer_id")
            ∧ ∀ cid, kwargs !! "customer_id" = Some cid → tc_customer_id c = cid).
  { intros. subst c. cbn. unfold customer_override.
    repeat (split; [done|]). by intros cid ->. }
  assert (Hres : ∀ k, reserved k → forwarded_kwargs kwargs !! k = None).
  { intros k Hk. rewrite forwarded_kwargs_lookup. by rewrite bool_decide_eq_true_2. }
  assert (Hoth : ∀ k, ¬ reserved k → forwarded_kwargs kwargs !! k = kwargs !! k).
  { intros k Hk. rewrite forwarded_kwargs_lookup. by rewrite bool_decide_eq_false_2. }
  pose proof (wrapped_run env cl args kwargs w) as H.
  destruct (method_outcome w cl args kwargs) as [result|e].
  - destruct H as [H1 H2]. eexists. split; [exact H2|].
    split; [done|]. split; [done|]. split.
    + intros c Hc. destruct (tracking_enabled w kwargs).
      * apply list_elem_of_singleton in Hc as ->. apply Hfields.
      * by apply elem_of_nil in Hc.
    + intros -> _. split; [done|]. by eexists.
  - destruct (classify_error e) as [[error_code error_type]|x] eqn:Hcl.
    + destruct H as [H1 H2]. eexists. split; [exact H2|].
      split; [done|]. split; [done|]. split.
      * intros c Hc. destruct (tracking_enabled w kwargs).
        -- apply list_elem_of_singleton in Hc as ->. apply Hfields.
        -- by apply elem_of_nil in Hc.
      * intros -> _. split; [done|]. by eexists.
    + destruct H as [H1 H2]. exists []. split; [exact H2|].
      split; [done|]. split; [done|]. split.
      * intros c Hc. by apply elem_of_nil in Hc.
      * intros _ [r Hr]. simpl in Hr. congruence.
Qed.

Lemma reserved_keywords_are_stripped_witness :
  ∃ calls,
    tracked_step world_of_methods
      (wrapped test_env (closure_over 10 14) [VStr "arg1"] kwargs_with_customer
         world_of_methods).2
      (closure_over 10 14) [VStr "arg1"] kwargs_with_customer calls
    ∧ (∀ k, reserved k → forwarded_kwargs kwargs_with_customer !! k = None)
    ∧ (∀ k, ¬ reserved k →
            forwarded_kwargs kwargs_with_customer !! k = kwargs_with_customer !! k)
    ∧ (∀ c, c ∈ calls →
         tc_args c = [VStr "arg1"]
         ∧ tc_kwargs c = forwarded_kwargs kwargs_with_customer
         ∧ tc_customer_id c
           = default VEllipsis (kwargs_with_customer !! "customer_id")
         ∧ ∀ cid, kwargs_with_customer !! "customer_id" = Some cid →
                  tc_customer_id c = cid)
    ∧ (tracking_enabled world_of_methods kwargs_with_customer = true →
       classifiable (method_outcome world_of_methods (closure_over 10 14)
                       [VStr "arg1"] kwargs_with_customer) →
       (wrapped test_env (closure_over 10 14) [VStr "arg1"] kwargs_with_customer
          world_of_methods).1
       = method_outcome world_of_methods (closure_over 10 14) [VStr "arg1"]
           kwargs_with_customer
       ∧ ∃ c, calls = [c]).
Proof.
  apply (reserved_keywords_are_stripped test_env (closure_over 10 14) [VStr "arg1"]
           kwargs_with_customer world_of_methods).
Defined.

(** The forwarded keyword arguments of that call are exactly the one
    ordinary argument, as the test asserts, and the extraction function
    receives the customer. *)
Example forwarded_kwargs_of_test :
  forwarded_kwargs kwargs_with_customer = plain_kwargs
  ∧ ∃ c, tracker_calls (wrapped test_env (closure_over 10 14) [VStr "arg1"]
                          kwargs_with_customer world_of_methods).2
         = [(External (VRef 14%positive), c)]
         ∧ tc_customer_id c = VStr "customer-123"
         ∧ tc_kwargs c = plain_kwargs.
Proof.
  split; [by vm_compute|]. eexists. split; [by vm_compute|]. by split.
Qed.

(** C4.  Every tracked call with tracking enabled whose method returns, or
    raises an error that can be classified: the extraction function is
    called exactly once, and whatever it does, whether it returns or
    raises, the outcome of the tracked call is the outcome of the real
    method, the same result or the same error; when the extraction
    function raises, the log ends with the warning that names its error.
    Moreover the outcome of a tracked call does not depend on the
    extraction function at all.  (When the error of the method cannot be
    classified, the extraction function is not called.) *)
Theorem extraction_failures_are_contained (env : environment) (cl : closure)
    (args : list value) (kwargs : gmap string value) (w : world) :
  tracking_enabled w kwargs = true →
  let w' := (wrapped env cl args kwargs w).2 in
  let run c := call_tracker env (cl_tracker_func cl) c
                 (at_tracker_call w cl args kwargs) in
  (∀ result,
     method_outcome w cl args kwargs = Return result →
     let c := success_call env w cl args kwargs result in
     (wrapped env cl args kwargs w).1 = Return result
     ∧ tracked_step w w' cl args kwargs [c]
     ∧ warnings w'
       = (warnings (run c).2
          ++ tracker_warning "Failed to track usage for " (cl_method_name cl)
               (run c).1)%list)
  ∧ (∀ e error_code error_type,
       method_outcome w cl args kwargs = Raise e →
       classify_error e = Return (error_code, error_type) →
       let c := failure_call env w cl args kwargs e error_code error_type in
       (wrapped env cl args kwargs w).1 = Raise e
       ∧ tracked_step w w' cl args kwargs [c]
       ∧ warnings w'
         = (warnings (run c).2
            ++ tracker_warning "Failed to track error for " (cl_method_name cl)
                 (run c).1)%list)
  ∧ (∀ tracker_func,
       (wrapped env (Closure (cl_self cl) (cl_method cl) (cl_method_name cl)
                             tracker_func) args kwargs w).1
       = (wrapped env cl args kwargs w).1).
Proof.
  intros Hen. cbn zeta.
  pose proof (wrapped_run env cl args kwargs w) as H.
  pose proof (wrapped_telemetry env cl args kwargs w Hen) as T. cbn zeta in T.
  rewrite Hen in H.
  split; [|split].
  - intros result Hout. rewrite Hout in H, T.
    destruct H as [H1 H2], T as [_ T]. done.
  - intros e error_code error_type Hout Hcl. rewrite Hout, Hcl in H, T.
    destruct H as [H1 H2], T as [_ T]. done.
  - intros tf.
    pose proof (wrapped_run env (Closure (cl_self cl) (cl_method cl)
                                   (cl_method_name cl) tf) args kwargs w) as H'.
    change (method_outcome w (Closure (cl_self cl) (cl_method cl)
                                (cl_method_name cl) tf) args kwargs)
      with (method_outcome w cl args kwargs) in H'.
    destruct (method_outcome w cl args kwargs) as [result|e].
    + destruct H as [-> _], H' as [-> _]. done.
    + destruct (classify_error e) as [[error_code error_type]|x];
        destruct H as [-> _], H' as [-> _]; done.
Qed.

Lemma extraction_failures_are_contained_witness :
  tracking_enabled world_of_methods plain_kwargs = true
  ∧ let cl := closure_over 10 15 in
    let w' := (wrapped test_env cl [VStr "arg1"] plain_kwargs world_of_methods).2 in
    let run c := call_tracker test_env (cl_tracker_func cl) c
                   (at_tracker_call world_of_methods cl [VStr "arg1"] plain_kwargs) in
    (∀ result,
       method_outcome world_of_methods cl [VStr "arg1"] plain_kwargs = Return result →
       let c := success_call test_env world_of_methods cl [VStr "arg1"] plain_kwargs
                  result in
       (wrapped test_env cl [VStr "arg1"] plain_kwargs world_of_methods).1
       = Return result
       ∧ tracked_step world_of_methods w' cl [VStr "arg1"] plain_kwargs [c]
       ∧ warnings w'
         = (warnings (run c).2
            ++ tracker_warning "Failed to track usage for " (cl_method_name cl)
                 (run c).1)%list)
    ∧ (∀ e error_code error_type,
         method_outcome world_of_methods cl [VStr "arg1"] plain_kwargs = Raise e →
         classify_error e = Return (error_code, error_type) →
         let c := failure_call test_env world_of_methods cl [VStr "arg1"]
                    plain_kwargs e error_code error_type in
         (wrapped test_env cl [VStr "arg1"] plain_kwargs world_of_methods).1
         = Raise e
         ∧ tracked_step world_of_methods w' cl [VStr "arg1"] plain_kwargs [c]
         ∧ warnings w'
           = (warnings (run c).2
              ++ tracker_warning "Failed to track error for " (cl_method_name cl)
                   (run c).1)%list)
    ∧ (∀ tracker_func,
         (wrapped test_env (Closure (cl_self cl) (cl_method cl) (cl_method_name cl)
                                    tracker_func)
            [VStr "arg1"] plain_kwargs world_of_methods).1
         = (wrapped test_env cl [VStr "arg1"] plain_kwargs world_of_methods).1).
Proof.
  split; [reflexivity|].
  apply (extraction_failures_are_contained test_env (closure_over 10 15)
           [VStr "arg1"] plain_kwargs world_of_methods).
  reflexivity.
Defined.

(** The scenario of [test_proxy_tracking_failure_resilience]: the
    extraction function raises, the call returns the result of the method,
    and the failure is in the log. *)
Example tracking_failure_on_success :
  (wrapped test_env (closure_over 10 15) [VStr "arg1"] plain_kwargs
     world_of_methods).1 = Return (VStr "result")
  ∧ warnings (wrapped test_env (closure_over 10 15) [VStr "arg1"] plain_kwargs
                world_of_methods).2
    = ["Failed to track usage for tracked_method: Tracking failed"]%list
  ∧ length (tracker_calls
              (wrapped test_env (closure_over 10 15) [VStr "arg1"] plain_kwargs
                 world_of_methods).2) = 1.
Proof. repeat split; by vm_compute. Qed.

(** The same when the method itself raises an error without [code]: the
    error of the method reaches the caller, not the one of the extraction
    function. *)
Example tracking_failure_on_error :
  (wrapped test_env (closure_over 13 15) [VStr "arg1"] plain_kwargs
     world_of_methods).1 = Raise plain_error
  ∧ warnings (wrapped test_env (closure_over 13 15) [VStr "arg1"] plain_kwargs
                world_of_methods).2
    = ["Failed to track error for tracked_method: Tracking failed"]%list
  ∧ length (tracker_calls
              (wrapped test_env (closure_over 13 15) [VStr "arg1"] plain_kwargs
                 world_of_methods).2) = 1.
Proof. repeat split; by vm_compute. Qed.

(** The scenario of [test_proxy_tracks_api_error], and an error of gRPC:
    both are classified and raised again. *)
Example classified_errors :
  (∃ c, tracker_calls (wrapped test_env (closure_over 13 14) [VStr "arg1"]
                         plain_kwargs world_of_methods).2
        = [(External (VRef 14%positive), c)]
        ∧ tc_error_type c = VStr "sdk_error" ∧ tc_error_code c = VNone
        ∧ tc_error_message c = VStr "API call failed")
  ∧ (∃ c, tracker_calls (wrapped test_env (closure_over 16 14) [VStr "arg1"]
                           plain_kwargs world_of_methods).2
          = [(External (VRef 14%positive), c)]
          ∧ tc_error_type c = VStr "grpc_error"
          ∧ tc_error_code c = VStr "StatusCode.DEADLINE_EXCEEDED"
          ∧ tc_error_message c = VStr "deadline exceeded").
Proof. split; eexists; (split; [by vm_compute|]); by repeat split. Qed.

(** ** The forwarding proxy *)

Lemma string_cons_app (x : ascii) (a b : string) :
  String x a ++ b = String x (a ++ b).
Proof. reflexivity. Qed.

Lemma string_app_assoc (a b c : string) : (a ++ b) ++ c = a ++ b ++ c.
Proof.
  induction a as [|x a IH]; [done|]. rewrite !string_cons_app. by f_equal.
Qed.

Lemma string_length_app (a b : string) :
  String.length (a ++ b) = String.length a + String.length b.
Proof.
  induction a as [|x a IH]; [done|]. rewrite string_cons_app. simpl. by f_equal.
Qed.

(** The entries of the derived table, one by one. *)
Lemma sub_track_methods_entry (name : string) (tm : gmap string tracker_fn)
    (s : string) (tf : tracker_fn) :
  (s, tf) ∈ omap (λ kv : string * tracker_fn,
                    if String.prefix (name ++ ".") kv.1
                    then Some (drop_chars (String.length name + 1) kv.1, kv.2)
                    else None)
                 (map_to_list tm)
  ↔ tm !! (name ++ "." ++ s) = Some tf.
Proof.
  rewrite list_elem_of_omap. split.
  - intros [[k x] [Hin Hf]]. apply elem_of_map_to_list in Hin. simpl in Hf.
    destruct (String.prefix (name ++ ".") k) eqn:Hp; [|discriminate].
    injection Hf as <- <-.
    apply prefix_drop_chars in Hp.
    rewrite string_length_app, string_app_assoc in Hp. simpl in Hp.
    by rewrite <- Hp.
  - intros Hk. exists (name ++ "." ++ s, tf). split.
    + by apply elem_of_map_to_list.
    + simpl. rewrite <- string_app_assoc, prefix_app.
      replace (String.length name + 1) with (String.length (name ++ "."))
        by (by rewrite string_length_app).
      by rewrite drop_chars_app.
Qed.

(** The table of a child proxy contains exactly the suffixes: under [s] it
    has what the table has under [name], a dot and [s]. *)
Lemma sub_track_methods_lookup (name : string) (tm : gmap string tracker_fn)
    (s : string) :
  sub_track_methods name tm !! s = tm !! (name ++ "." ++ s).
Proof.
  apply option_eq. intros tf. unfold sub_track_methods.
  rewrite <- sub_track_methods_entry.
  symmetry. apply elem_of_list_to_map'.
  intros tf' H1 H2. apply sub_track_methods_entry in H1, H2. congruence.
Qed.

Lemma sub_track_methods_empty (name : string) (tm : gmap string tracker_fn) :
  sub_track_methods name tm = ∅ ↔ ∀ s, tm !! (name ++ "." ++ s) = None.
Proof.
  split.
  - intros H s. by rewrite <- sub_track_methods_lookup, H.
  - intros H. apply map_eq. intros s.
    by rewrite sub_track_methods_lookup, H, lookup_empty.
Qed.

(** The table of the module at [models]. *)
Example sub_track_methods_models :
  sub_track_methods "models" GEMINI_TRACK_METHODS
  = <["generate_content" := Builtin track_generate_content_fn]>
      (<["count_tokens" := Builtin track_count_tokens_fn]> ∅).
Proof. by vm_compute. Qed.

Lemma alter_lookup_insert {A} (f : A → A) (m : gmap loc A) (i : loc) (x : A) :
  m !! i = Some x → alter f i m = <[i := f x]> m.
Proof.
  intros H. apply map_eq. intros j. destruct (decide (i = j)) as [<-|Hne].
  - by rewrite lookup_alter_eq, lookup_insert_eq, H.
  - by rewrite lookup_alter_ne, lookup_insert_ne.
Qed.

(** The five ways of [__getattr__]. *)

Lemma proxy_getattr_cached (self : loc) (name : string) (w : world) (p : proxy)
    (h : handle) :
  proxies w !! self = Some p → _tracked_attributes p !! name = Some h →
  proxy_getattr self name w = (Return h, w).
Proof. intros Hp Hc. unfold proxy_getattr. by rewrite Hp, Hc. Qed.

Lemma proxy_getattr_missing (self : loc) (name : string) (w : world) (p : proxy) :
  proxies w !! self = Some p → _tracked_attributes p !! name = None →
  py_getattr w (_client p) name = None →
  proxy_getattr self name w = (Raise (attribute_error w (_client p) name), w).
Proof. intros Hp Hc Ha. unfold proxy_getattr. by rewrite Hp, Hc, Ha. Qed.

Lemma proxy_getattr_wrap (self : loc) (name : string) (w : world) (p : proxy)
    (attr : value) (tf : tracker_fn) :
  proxies w !! self = Some p → _tracked_attributes p !! name = None →
  py_getattr w (_client p) name = Some attr →
  py_callable w attr = true → _track_methods p !! name = Some tf →
  let l := fresh (dom (closures w)) in
  proxy_getattr self name w
  = (Return (HWrapped l),
     with_store w (<[self := memo p name (HWrapped l)]> (proxies w))
                  (<[l := Closure self attr name tf]> (closures w))).
Proof.
  intros Hp Hc Ha Hcall Htm l. unfold proxy_getattr.
  rewrite Hp, Hc, Ha, Hcall, Htm. simpl.
  unfold bind, _wrap_method, memoize, ret. simpl.
  rewrite Hp. simpl. rewrite Htm. simpl.
  by rewrite (alter_lookup_insert _ _ _ _ Hp).
Qed.

Lemma proxy_getattr_child (self : loc) (name : string) (w : world) (p : proxy)
    (attr : value) :
  proxies w !! self = Some p → _tracked_attributes p !! name = None →
  py_getattr w (_client p) name = Some attr →
  wraps w (_track_methods p) name attr = false →
  nests w (_track_methods p) name attr = true →
  let l := fresh (dom (proxies w)) in
  proxy_getattr self name w
  = (Return (HProxy l),
     with_store w
       (<[self := memo p name (HProxy l)]>
          (<[l := Proxy attr (_tracker p)
                    (sub_track_methods name (_track_methods p)) ∅]> (proxies w)))
       (closures w)).
Proof.
  intros Hp Hc Ha Hw Hn l. unfold proxy_getattr.
  unfold wraps in Hw. unfold nests in Hn.
  rewrite Hp, Hc, Ha, Hw, Hn.
  unfold bind, new_proxy, memoize, ret. simpl.
  assert (Hfresh : proxies w !! l = None) by apply not_elem_of_dom, is_fresh.
  assert (Hne : l ≠ self) by (intros Heq; rewrite Heq in Hfresh; congruence).
  rewrite (alter_lookup_insert _ _ self p); [done|].
  by rewrite lookup_insert_ne.
Qed.

Lemma proxy_getattr_pass (self : loc) (name : string) (w : world) (p : proxy)
    (attr : value) :
  proxies w !! self = Some p → _tracked_attributes p !! name = None →
  py_getattr w (_client p) name = Some attr →
  wraps w (_track_methods p) name attr = false →
  nests w (_track_methods p) name attr = false →
  proxy_getattr self name w
  = (Return (HValue attr),
     with_store w (<[self := memo p name (HValue attr)]> (proxies w)) (closures w)).
Proof.
  intros Hp Hc Ha Hw Hn. unfold proxy_getattr.
  unfold wraps in Hw. unfold nests in Hn.
  rewrite Hp, Hc, Ha, Hw, Hn.
  unfold bind, memoize, ret. simpl.
  by rewrite (alter_lookup_insert _ _ _ _ Hp).
Qed.

Lemma later_proxy_refl (p : proxy) : later_proxy p p.
Proof. by repeat split. Qed.

Lemma later_proxy_memo (p : proxy) (name : string) (h : handle) :
  _tracked_attributes p !! name = None → later_proxy p (memo p name h).
Proof.
  intros Hc. repeat split; try done. intros k h' Hk. simpl.
  rewrite lookup_insert_ne; [done | congruence].
Qed.

(** A successful first resolution: the handle stands for the member and is
    memoized; other proxies and all closures stay as they are. *)
Lemma proxy_getattr_first (self : loc) (name : string) (w : world) (p : proxy)
    (v : value) :
  proxies w !! self = Some p → _tracked_attributes p !! name = None →
  py_getattr w (_client p) name = Some v →
  ∃ h ps cs,
    proxy_getattr self name w = (Return h, with_store w ps cs)
    ∧ ps !! self = Some (memo p name h)
    ∧ presents (with_store w ps cs) h v
    ∧ (∀ q pq, q ≠ self → proxies w !! q = Some pq → ps !! q = Some pq)
    ∧ (∀ l cl, closures w !! l = Some cl → cs !! l = Some cl)
    ∧ (wraps w (_track_methods p) name v = false →
       nests w (_track_methods p) name v = false → h = HValue v).
Proof.
  intros Hp Hc Ha.
  destruct (wraps w (_track_methods p) name v) eqn:Hw.
  - unfold wraps in Hw. apply andb_true_iff in Hw as [Hcall Hkey].
    apply bool_decide_eq_true in Hkey as [tf Htf].
    rewrite (proxy_getattr_wrap _ _ _ _ _ _ Hp Hc Ha Hcall Htf).
    assert (Hfresh : closures w !! fresh (dom (closures w)) = None)
      by apply not_elem_of_dom, is_fresh.
    eexists _, _, _. split; [done|]. split; [by rewrite lookup_insert_eq|].
    split; [|split; [|split; [|done]]].
    + simpl. eexists. by rewrite lookup_insert_eq.
    + intros q pq Hq Hpq. by rewrite lookup_insert_ne.
    + intros l cl Hl. rewrite lookup_insert_ne; [done | congruence].
  - assert (Hfresh : proxies w !! fresh (dom (proxies w)) = None)
      by apply not_elem_of_dom, is_fresh.
    destruct (nests w (_track_methods p) name v) eqn:Hn.
    + rewrite (proxy_getattr_child _ _ _ _ _ Hp Hc Ha Hw Hn).
      eexists _, _, _. split; [done|]. split; [by rewrite lookup_insert_eq|].
      split; [|split; [|split; [done|done]]].
      * simpl. eexists. rewrite lookup_insert_ne by congruence.
        by rewrite lookup_insert_eq.
      * intros q pq Hq Hpq. rewrite lookup_insert_ne by done.
        rewrite lookup_insert_ne; [done | congruence].
    + rewrite (proxy_getattr_pass _ _ _ _ _ Hp Hc Ha Hw Hn).
      eexists _, _, _. split; [done|]. split; [by rewrite lookup_insert_eq|].
      split; [done|]. split; [|done].
      intros q pq Hq Hpq. by rewrite lookup_insert_ne.
Qed.

(** Whatever [__getattr__] is asked, a proxy stays, with its target and
    table; its cache keeps its entries, and changes at most at the name
    asked of that very proxy. *)
Lemma proxy_getattr_keeps (q : loc) (n : string) (w : world) (self : loc)
    (p : proxy) :
  proxies w !! self = Some p →
  objects (proxy_getattr q n w).2 = objects w
  ∧ (∀ l cl, closures w !! l = Some cl →
             closures (proxy_getattr q n w).2 !! l = Some cl)
  ∧ ∃ p', proxies (proxy_getattr q n w).2 !! self = Some p'
          ∧ later_proxy p p'
          ∧ ∀ k, (q, n) ≠ (self, k) →
                 _tracked_attributes p' !! k = _tracked_attributes p !! k.
Proof.
  intros Hp.
  assert (Hsame : (proxy_getattr q n w).2 = w →
                  objects (proxy_getattr q n w).2 = objects w
                  ∧ (∀ l cl, closures w !! l = Some cl →
                             closures (proxy_getattr q n w).2 !! l = Some cl)
                  ∧ ∃ p', proxies (proxy_getattr q n w).2 !! self = Some p'
                          ∧ later_proxy p p'
                          ∧ ∀ k, (q, n) ≠ (self, k) →
                                 _tracked_attributes p' !! k
                                 = _tracked_attributes p !! k).
  { intros ->. split; [done|]. split; [done|]. exists p.
    split; [done|]. split; [apply later_proxy_refl | done]. }
  destruct (proxies w !! q) as [pq|] eqn:Hq.
  2:{ apply Hsame. unfold proxy_getattr. by rewrite Hq. }
  destruct (_tracked_attributes pq !! n) as [h|] eqn:Hc.
  { apply Hsame. by rewrite (proxy_getattr_cached _ _ _ _ _ Hq Hc). }
  destruct (py_getattr w (_client pq) n) as [v|] eqn:Ha.
  2:{ apply Hsame. by rewrite (proxy_getattr_missing _ _ _ _ Hq Hc Ha). }
  destruct (proxy_getattr_first _ _ _ _ _ Hq Hc Ha)
    as (h & ps & cs & -> & Hself & _ & Hoth & Hcl & _).
  simpl. split; [done|]. split; [done|].
  destruct (decide (self = q)) as [->|Hne].
  - rewrite Hp in Hq. injection Hq as <-.
    exists (memo p n h). split; [done|]. split; [by apply later_proxy_memo|].
    intros k Hk. simpl. rewrite lookup_insert_ne; [done | congruence].
  - exists p. split; [by apply Hoth|]. split; [apply later_proxy_refl | done].
Qed.

(** ** The lifetime of a proxy *)

Section Lifetime.

Context (env : environment).

Lemma later_proxy_trans (p1 p2 p3 : proxy) :
  later_proxy p1 p2 → later_proxy p2 p3 → later_proxy p1 p3.
Proof.
  intros (? & ? & ? & H12) (? & ? & ? & H23).
  repeat split; try congruence. eauto.
Qed.

Lemma wrapped_store (cl : closure) (args : list value) (kwargs : gmap string value)
    (w : world) :
  objects (wrapped env cl args kwargs w).2 = objects w
  ∧ proxies (wrapped env cl args kwargs w).2 = proxies w
  ∧ closures (wrapped env cl args kwargs w).2 = closures w.
Proof.
  pose proof (wrapped_run env cl args kwargs w) as H.
  destruct (method_outcome w cl args kwargs) as [result|e].
  - by destruct H as (_ & ? & ? & ? & _).
  - destruct (classify_error e) as [[error_code error_type]|x];
      by destruct H as (_ & ? & ? & ? & _).
Qed.

Lemma call_handle_store (h : handle) (args : list value)
    (kwargs : gmap string value) (w : world) :
  objects (call_handle env h args kwargs w).2 = objects w
  ∧ proxies (call_handle env h args kwargs w).2 = proxies w
  ∧ closures (call_handle env h args kwargs w).2 = closures w.
Proof.
  unfold call_handle. destruct h as [v|l|l]; [done| |done].
  destruct (closures w !! l) as [cl|]; [apply wrapped_store | done].
Qed.

(** No action of a program removes a proxy, changes its target or its
    table, or takes an entry out of its memo cache; and the cache changes
    only at a name that is asked of the proxy. *)
Lemma run_action_keeps (a : action) (w : world) (self : loc) (p : proxy) :
  proxies w !! self = Some p →
  ∃ p', proxies (run_action env a w) !! self = Some p'
        ∧ later_proxy p p'
        ∧ ∀ k, a ≠ AGetattr self k →
               _tracked_attributes p' !! k = _tracked_attributes p !! k.
Proof.
  intros Hp. destruct a as [q n|h args kwargs|l n v|client tracker tm]; simpl.
  - destruct (proxy_getattr_keeps q n w self p Hp) as (_ & _ & p' & H1 & H2 & H3).
    exists p'. split; [done|]. split; [done|].
    intros k Hk. apply H3. congruence.
  - destruct (call_handle_store h args kwargs w) as (_ & -> & _).
    exists p. split; [done|]. split; [apply later_proxy_refl | done].
  - exists p. split; [done|]. split; [apply later_proxy_refl | done].
  - exists p. split; [|split; [apply later_proxy_refl | done]].
    rewrite lookup_insert_ne; [done|].
    intros Heq. pose proof (is_fresh (dom (proxies w))) as Hf.
    apply not_elem_of_dom in Hf. rewrite Heq in Hf. congruence.
Qed.

Lemma run_actions_keeps (acts : list action) (w : world) (self : loc) (p : proxy) :
  proxies w !! self = Some p →
  ∃ p', proxies (run_actions env acts w) !! self = Some p'
        ∧ later_proxy p p'
        ∧ ∀ k, (∀ a, a ∈ acts → a ≠ AGetattr self k) →
               _tracked_attributes p' !! k = _tracked_attributes p !! k.
Proof.
  revert w p. induction acts as [|a acts IH]; intros w p Hp.
  - exists p. split; [done|]. split; [apply later_proxy_refl | done].
  - destruct (run_action_keeps a w self p Hp) as (p1 & Hp1 & Hl1 & Hk1).
    destruct (IH _ _ Hp1) as (p2 & Hp2 & Hl2 & Hk2).
    exists p2. split; [exact Hp2|]. split; [by eapply later_proxy_trans|].
    intros k Hk. rewrite Hk2, Hk1; [done| |].
    + apply Hk. by left.
    + intros a' Ha'. apply Hk. by right.
Qed.

(** A resolution that succeeds leaves its handle in the memo cache. *)
Lemma proxy_getattr_memoizes (self : loc) (name : string) (w : world) (h : handle) :
  (proxy_getattr self name w).1 = Return h →
  ∃ p', proxies (proxy_getattr self name w).2 !! self = Some p'
        ∧ _tracked_attributes p' !! name = Some h.
Proof.
  intros Hr.
  destruct (proxies w !! self) as [p|] eqn:Hp.
  2:{ unfold proxy_getattr in Hr. by rewrite Hp in Hr. }
  destruct (_tracked_attributes p !! name) as [h'|] eqn:Hc.
  { rewrite (proxy_getattr_cached _ _ _ _ _ Hp Hc) in *.
    injection Hr as <-. by exists p. }
  destruct (py_getattr w (_client p) name) as [v|] eqn:Ha.
  2:{ by rewrite (proxy_getattr_missing _ _ _ _ Hp Hc Ha) in Hr. }
  destruct (proxy_getattr_first _ _ _ _ _ Hp Hc Ha)
    as (h' & ps & cs & Heq & Hself & _).
  rewrite Heq in *. injection Hr as <-.
  exists (memo p name h'). split; [done|]. simpl. by rewrite lookup_insert_eq.
Qed.

End Lifetime.

(** C5.  A name that is absent from the proxy (not memoized) and from the
    target: the access raises [AttributeError] with the message that names
    the type of the target and the name, and changes nothing, so the
    absence is not memoized; after anything the program does next, short of
    asking for that name again, once the target has the name the access
    succeeds with a handle that stands for the member the target has
    then. *)
Theorem missing_member_is_never_memoized (env : environment) (self : loc)
    (name : string) (w : world) (p : proxy) (o : pyobj) :
  proxies w !! self = Some p →
  _tracked_attributes p !! name = None →
  heap_obj w (_client p) = Some o →
  obj_attrs o !! name = None →
  proxy_getattr self name w
  = (Raise (Exc "AttributeError"
                ("'" ++ obj_type o ++ "' object has no attribute '" ++ name ++ "'")
                CodeAbsent), w)
  ∧ ∀ acts v,
      (∀ a, a ∈ acts → a ≠ AGetattr self name) →
      py_getattr (run_actions env acts w) (_client p) name = Some v →
      ∃ h, (proxy_getattr self name (run_actions env acts w)).1 = Return h
           ∧ presents (proxy_getattr self name (run_actions env acts w)).2 h v.
Proof.
  intros Hp Hc Ho Hn. split.
  - rewrite (proxy_getattr_missing _ _ _ _ Hp Hc).
    + unfold attribute_error. do 3 f_equal.
      destruct (_client p); try discriminate. simpl in *. by rewrite Ho.
    + unfold py_getattr. by rewrite Ho.
  - intros acts v Hacts Hv.
    destruct (run_actions_keeps env acts w self p Hp) as (p' & Hp' & Hl & Hk).
    destruct Hl as (Hcl & _).
    rewrite <- Hcl in Hv.
    destruct (proxy_getattr_first self name _ p' v Hp') as (h & ps & cs & -> & _ & Hpr & _).
    + by rewrite Hk.
    + done.
    + by exists h.
Qed.

Lemma missing_member_is_never_memoized_witness :
  proxies world_of_namespaces !! 1%positive = Some namespace_proxy
  ∧ _tracked_attributes namespace_proxy !! "nonexistent_attr" = None
  ∧ heap_obj world_of_namespaces (_client namespace_proxy) = Some namespace_client
  ∧ obj_attrs namespace_client !! "nonexistent_attr" = None
  ∧ proxy_getattr 1%positive "nonexistent_attr" world_of_namespaces
    = (Raise (Exc "AttributeError"
                  ("'" ++ obj_type namespace_client
                       ++ "' object has no attribute '" ++ "nonexistent_attr" ++ "'")
                  CodeAbsent), world_of_namespaces)
  ∧ ∀ acts v,
      (∀ a, a ∈ acts → a ≠ AGetattr 1%positive "nonexistent_attr") →
      py_getattr (run_actions test_env acts world_of_namespaces)
        (_client namespace_proxy) "nonexistent_attr" = Some v →
      ∃ h, (proxy_getattr 1%positive "nonexistent_attr"
              (run_actions test_env acts world_of_namespaces)).1 = Return h
           ∧ presents (proxy_getattr 1%positive "nonexistent_attr"
                         (run_actions test_env acts world_of_namespaces)).2 h v.
Proof.
  split; [reflexivity|]. split; [reflexivity|].
  split; [reflexivity|]. split; [reflexivity|].
  apply (missing_member_is_never_memoized test_env 1%positive "nonexistent_attr"
           world_of_namespaces namespace_proxy namespace_client); reflexivity.
Defined.

(** The monkey-patching of the specification: the name is given to the
    target after the failed access, and the next access returns it. *)
Example patched_member_is_observed :
  (proxy_getattr 1%positive "timeout" world_of_namespaces).1
  = Raise (Exc "AttributeError" "'Client' object has no attribute 'timeout'" CodeAbsent)
  ∧ (proxy_getattr 1%positive "timeout"
       (run_actions test_env
          [AGetattr 1%positive "timeout";
           APatch 1%positive "timeout" (Some (VInt 30))]
          world_of_namespaces)).1
    = Return (HValue (VInt 30)).
Proof. split; by vm_compute. Qed.

(** C6, as the specification states it, fails at the very namespace of the
    module: [models] is present on the target and is not a key of
    [GEMINI_TRACK_METHODS], and the proxy returns a child proxy, not the
    member [client.models]. *)
Lemma namespace_member_is_not_passed_through :
  GEMINI_TRACK_METHODS !! "models" = None
  ∧ py_getattr world_of_namespaces (_client namespace_proxy) "models"
    = Some (VRef 2%positive)
  ∧ (∃ l, (proxy_getattr 1%positive "models" world_of_namespaces).1
          = Return (HProxy l))
  ∧ (proxy_getattr 1%positive "models" world_of_namespaces).1
    ≠ Return (HValue (VRef 2%positive)).
Proof.
  split; [by vm_compute|]. split; [by vm_compute|].
  split; [eexists; by vm_compute | by vm_compute].
Qed.

(** C6, amended.  A resolution that succeeds is memoized: whatever the
    program does afterwards, every later access of the name through the
    proxy returns the identical handle and changes nothing.  And for a
    name that is present on the target, is not a key of the interception
    table and is not followed by a dot at the start of any key, the first
    resolution returns exactly the member of the target. *)
Theorem first_resolution_is_memoized (env : environment) (self : loc)
    (name : string) (w : world) (h : handle) :
  (proxy_getattr self name w).1 = Return h →
  (∀ acts,
     proxy_getattr self name (run_actions env acts (proxy_getattr self name w).2)
     = (Return h, run_actions env acts (proxy_getattr self name w).2))
  ∧ (∀ p v,
       proxies w !! self = Some p →
       _tracked_attributes p !! name = None →
       py_getattr w (_client p) name = Some v →
       _track_methods p !! name = None →
       (∀ s, _track_methods p !! (name ++ "." ++ s) = None) →
       h = HValue v).
Proof.
  intros Hr. split.
  - intros acts.
    destruct (proxy_getattr_memoizes self name w h Hr) as (p1 & Hp1 & Hc1).
    destruct (run_actions_keeps env acts _ self p1 Hp1) as (p2 & Hp2 & Hl & _).
    destruct Hl as (_ & _ & _ & Hkeep).
    apply (proxy_getattr_cached _ _ _ p2); auto.
  - intros p v Hp Hc Ha Hkey Hsub.
    destruct (proxy_getattr_first _ _ _ _ _ Hp Hc Ha)
      as (h' & ps & cs & Heq & _ & _ & _ & _ & Hpass).
    rewrite Heq in Hr. injection Hr as <-. apply Hpass.
    + unfold wraps. rewrite Hkey.
      rewrite bool_decide_eq_false_2; [by rewrite andb_false_r|].
      by intros [? ?].
    + unfold nests. apply sub_track_methods_empty in Hsub. rewrite Hsub.
      rewrite bool_decide_eq_true_2 by done. by rewrite andb_false_r.
Qed.

Lemma first_resolution_is_memoized_witness :
  (proxy_getattr 1%positive "api_version" world_of_namespaces).1
  = Return (HValue (VStr "v1beta"))
  ∧ (∀ acts,
       proxy_getattr 1%positive "api_version"
         (run_actions test_env acts
            (proxy_getattr 1%positive "api_version" world_of_namespaces).2)
       = (Return (HValue (VStr "v1beta")),
          run_actions test_env acts
            (proxy_getattr 1%positive "api_version" world_of_namespaces).2))
  ∧ (∀ p v,
       proxies world_of_namespaces !! 1%positive = Some p →
       _tracked_attributes p !! "api_version" = None →
       py_getattr world_of_namespaces (_client p) "api_version" = Some v →
       _track_methods p !! "api_version" = None →
       (∀ s, _track_methods p !! ("api_version" ++ "." ++ s) = None) →
       HValue (VStr "v1beta") = HValue v).
Proof.
  split; [reflexivity|].
  apply (first_resolution_is_memoized test_env 1%positive "api_version"
           world_of_namespaces (HValue (VStr "v1beta"))).
  reflexivity.
Defined.

(** The child proxy too is memoized: the second access of [models] returns
    the identical proxy. *)
Example child_proxy_is_memoized :
  (proxy_getattr 1%positive "models"
     (proxy_getattr 1%positive "models" world_of_namespaces).2).1
  = (proxy_getattr 1%positive "models" world_of_namespaces).1.
Proof. by vm_compute. Qed.

(** ** Nested namespaces *)

Section Chain.

Context (env : environment).

Lemma heap_obj_objects (w w' : world) (v : value) :
  objects w' = objects w → heap_obj w' v = heap_obj w v.
Proof. intros H. destruct v; simpl; try done. by rewrite H. Qed.

Lemma namespace_chain_objects (w w' : world) (path : list string) :
  objects w' = objects w →
  ∀ client tm method,
    namespace_chain w client tm path method →
    namespace_chain w' client tm path method.
Proof.
  intros Ho. induction path as [|name rest IH]; intros client tm method; [done|].
  simpl. destruct rest as [|name' rest'].
  - unfold py_getattr, py_callable. by rewrite !(heap_obj_objects w w' _ Ho).
  - intros (member & Hg & Hd & Hw & Hrest). exists member.
    unfold py_getattr, has_dict, wraps, py_callable in *.
    rewrite !(heap_obj_objects w w' _ Ho). eauto.
Qed.

Lemma has_dict_not_scalar (w : world) (v : value) :
  has_dict w v = true → is_scalar v = false.
Proof. unfold has_dict. by destruct v. Qed.

(** Accessing the first name of a dotted key gives a child proxy over the
    member, with the tracker of the parent, an empty cache, and the derived
    table. *)
Lemma namespace_gives_child_proxy (self : loc) (w : world) (p : proxy)
    (name rest : string) (member : value) (tf : tracker_fn) :
  proxies w !! self = Some p →
  _tracked_attributes p !! name = None →
  _track_methods p !! (name ++ "." ++ rest) = Some tf →
  py_getattr w (_client p) name = Some member →
  has_dict w member = true →
  wraps w (_track_methods p) name member = false →
  ∃ l,
    l ≠ self
    ∧ proxy_getattr self name w
      = (Return (HProxy l),
         with_store w
           (<[self := memo p name (HProxy l)]>
              (<[l := Proxy member (_tracker p)
                        (sub_track_methods name (_track_methods p)) ∅]> (proxies w)))
           (closures w)).
Proof.
  intros Hp Hc Hkey Hg Hd Hw.
  assert (Hfresh : proxies w !! fresh (dom (proxies w)) = None)
    by apply not_elem_of_dom, is_fresh.
  exists (fresh (dom (proxies w))). split; [congruence|].
  apply proxy_getattr_child; try done.
  unfold nests. rewrite Hd, (has_dict_not_scalar _ _ Hd). simpl.
  rewrite bool_decide_eq_false_2; [done|].
  intros Hsub. apply sub_track_methods_empty with (s := rest) in Hsub. congruence.
Qed.

(** Resolving the whole chain through the proxies ends in a closure around
    the method, with the extraction function of the dotted key. *)
Lemma resolve_path_chain (path : list string) :
  ∀ (self : loc) (w : world) (p : proxy) (method : value) (tf : tracker_fn),
    proxies w !! self = Some p →
    _tracked_attributes p = ∅ →
    _track_methods p !! dotted path = Some tf →
    namespace_chain w (_client p) (_track_methods p) path method →
    ∃ l cl,
      (resolve_path (HProxy self) path w).1 = Return (HWrapped l)
      ∧ closures (resolve_path (HProxy self) path w).2 !! l = Some cl
      ∧ cl_method cl = method
      ∧ cl_tracker_func cl = tf
      ∧ objects (resolve_path (HProxy self) path w).2 = objects w
      ∧ tracker_calls (resolve_path (HProxy self) path w).2 = tracker_calls w.
Proof.
  induction path as [|name rest IH]; intros self w p method tf Hp Hc Hkey Hchain;
    [done|].
  assert (Hcn : _tracked_attributes p !! name = None) by by rewrite Hc.
  simpl in Hkey, Hchain. destruct rest as [|name' rest'].
  - destruct Hchain as [Hg Hcall].
    pose proof (proxy_getattr_wrap _ _ _ _ _ _ Hp Hcn Hg Hcall Hkey) as Hw.
    cbn zeta in Hw. simpl. unfold bind. rewrite Hw. unfold ret. simpl.
    eexists _, _. split; [done|]. split; [by rewrite lookup_insert_eq|]. done.
  - destruct Hchain as (member & Hg & Hd & Hw & Hrest).
    destruct (namespace_gives_child_proxy _ _ _ _ _ _ _ Hp Hcn Hkey Hg Hd Hw)
      as (l & Hne & Hget).
    change (resolve_path (HProxy self) (name :: name' :: rest') w)
      with (bind (proxy_getattr self name)
                 (λ h', resolve_path h' (name' :: rest')) w).
    unfold bind at 1 2 3 4. rewrite Hget.
    match goal with |- context [resolve_path (HProxy l) _ ?w1] =>
      destruct (IH l w1 (Proxy member (_tracker p)
                           (sub_track_methods name (_track_methods p)) ∅)
                   method tf) as (lc & cl & H1 & H2 & H3 & H4 & H5 & H6) end.
    + simpl. rewrite lookup_insert_ne by done. by rewrite lookup_insert_eq.
    + done.
    + simpl. by rewrite sub_track_methods_lookup.
    + refine (namespace_chain_objects w _ _ _ _ _ _ Hrest). done.
    + exists lc, cl. by repeat split.
Qed.

Lemma proxy_getattr_closures (q : loc) (n : string) (w : world) (l : loc)
    (cl : closure) :
  closures w !! l = Some cl → closures (proxy_getattr q n w).2 !! l = Some cl.
Proof.
  intros Hl. destruct (proxies w !! q) as [pq|] eqn:Hq.
  - destruct (proxy_getattr_keeps q n w q pq Hq) as (_ & H & _). by apply H.
  - unfold proxy_getattr. by rewrite Hq.
Qed.

(** Closures are never removed nor changed. *)
Lemma run_actions_closures (acts : list action) (w : world) (l : loc)
    (cl : closure) :
  closures w !! l = Some cl → closures (run_actions env acts w) !! l = Some cl.
Proof.
  revert w. induction acts as [|a acts IH]; intros w Hl; [done|].
  apply IH. destruct a as [q n|h args kwargs|l' n v|client tracker tm]; simpl.
  - by apply proxy_getattr_closures.
  - by destruct (call_handle_store env h args kwargs w) as (_ & _ & ->).
  - done.
  - done.
Qed.

(** A call of a closure whose real method has a classifiable outcome. *)
Lemma classifiable_call_is_tracked_once (cl : closure) (args : list value)
    (kwargs : gmap string value) (w : world) :
  tracking_enabled w kwargs = true →
  classifiable (method_outcome w cl args kwargs) →
  (wrapped env cl args kwargs w).1 = method_outcome w cl args kwargs
  ∧ ∃ c, tracked_step w (wrapped env cl args kwargs w).2 cl args kwargs [c].
Proof.
  intros Hen Hcl. pose proof (wrapped_run env cl args kwargs w) as H.
  rewrite Hen in H. destruct (method_outcome w cl args kwargs) as [result|e].
  - destruct H as [-> H]. split; [done | by eexists].
  - destruct Hcl as [[error_code error_type] Hr]. rewrite Hr in H.
    destruct H as [-> H]. split; [done | by eexists].
Qed.

End Chain.

(** What does hold of a dotted key.  A proxy with an empty cache whose
    table has the dotted key of a chain of members of its target (such as
    [outer.inner.op]): accessing the name before the first dot of a key
    gives a child proxy whose table contains exactly the suffixes of the
    keys that start with the name and a dot; resolving the chain through
    the proxies ends in a closure around the method with the extraction
    function of the key; and every call of it with tracking enabled and an
    outcome of the method that can be classified calls the extraction
    function exactly once. *)
Lemma nested_key_is_tracked_once (env : environment) (self : loc) (w : world)
    (p : proxy) (path : list string) (method : value) (tf : tracker_fn) :
  proxies w !! self = Some p →
  _tracked_attributes p = ∅ →
  _track_methods p !! dotted path = Some tf →
  namespace_chain w (_client p) (_track_methods p) path method →
  child_proxy_for_every_prefix w self p
  ∧ ∃ l cl,
      (resolve_path (HProxy self) path w).1 = Return (HWrapped l)
      ∧ cl_method cl = method
      ∧ cl_tracker_func cl = tf
      ∧ tracked_once_per_call env (resolve_path (HProxy self) path w).2 l cl.
Proof.
  intros Hp Hc Hkey Hchain. split.
  - intros name rest member tf' Hcn Hk Hg Hd Hw.
    destruct (namespace_gives_child_proxy _ _ _ _ _ _ _ Hp Hcn Hk Hg Hd Hw)
      as (l & Hne & ->).
    eexists l, _. split; [done|]. simpl.
    split; [rewrite lookup_insert_ne by done; by rewrite lookup_insert_eq|].
    split; [done|]. split; [done|].
    intros s. apply sub_track_methods_lookup.
  - destruct (resolve_path_chain path self w p method tf Hp Hc Hkey Hchain)
      as (l & cl & H1 & H2 & H3 & H4 & _).
    exists l, cl. split; [done|]. split; [done|]. split; [done|].
    intros acts args kwargs Hen Hcl.
    unfold call_handle. rewrite (run_actions_closures env acts _ l cl H2).
    by apply classifiable_call_is_tracked_once.
Qed.

Lemma nested_key_is_tracked_once_witness :
  proxies world_of_nesting !! 1%positive = Some nesting_proxy
  ∧ _tracked_attributes nesting_proxy = ∅
  ∧ _track_methods nesting_proxy !! dotted ["outer"; "inner"; "op"]
    = Some (External (VRef 5%positive))
  ∧ namespace_chain world_of_nesting (_client nesting_proxy)
      (_track_methods nesting_proxy) ["outer"; "inner"; "op"] (VRef 4%positive)
  ∧ child_proxy_for_every_prefix world_of_nesting 1%positive nesting_proxy
  ∧ ∃ l cl,
      (resolve_path (HProxy 1%positive) ["outer"; "inner"; "op"]
         world_of_nesting).1 = Return (HWrapped l)
      ∧ cl_method cl = VRef 4%positive
      ∧ cl_tracker_func cl = External (VRef 5%positive)
      ∧ tracked_once_per_call test_env
          (resolve_path (HProxy 1%positive) ["outer"; "inner"; "op"]
             world_of_nesting).2 l cl.
Proof.
  assert (Hchain : namespace_chain world_of_nesting (_client nesting_proxy)
                     (_track_methods nesting_proxy) ["outer"; "inner"; "op"]
                     (VRef 4%positive)).
  { exists (VRef 2%positive). split; [reflexivity|]. split; [reflexivity|].
    split; [by vm_compute|].
    exists (VRef 3%positive). split; [reflexivity|]. split; [reflexivity|].
    split; [by vm_compute|]. split; by vm_compute. }
  split; [reflexivity|]. split; [reflexivity|]. split; [by vm_compute|].
  split; [exact Hchain|].
  apply (nested_key_is_tracked_once test_env 1%positive world_of_nesting
           nesting_proxy ["outer"; "inner"; "op"] (VRef 4%positive)
           (External (VRef 5%positive)));
    [reflexivity | reflexivity | by vm_compute | exact Hchain].
Defined.

(** The tables along the chain: [inner.op] at [outer], [op] at [inner]. *)
Example nesting_tables :
  sub_track_methods "outer" nesting_table
  = <["inner.op" := External (VRef 5%positive)]> ∅
  ∧ sub_track_methods "inner" (sub_track_methods "outer" nesting_table)
    = <["op" := External (VRef 5%positive)]> ∅.
Proof. split; by vm_compute. Qed.

(** [proxy.outer.inner.op("a")] returns the result of the method and calls
    the extraction function once; a second call calls it once more. *)
Example nested_call_is_tracked_once :
  (call_through test_env 1%positive ["outer"; "inner"; "op"] [VStr "a"] ∅
     world_of_nesting).1 = Return (VStr "done")
  ∧ length (tracker_calls
              (call_through test_env 1%positive ["outer"; "inner"; "op"]
                 [VStr "a"] ∅ world_of_nesting).2) = 1
  ∧ length (tracker_calls
              (call_through test_env 1%positive ["outer"; "inner"; "op"]
                 [VStr "a"] ∅
                 (call_through test_env 1%positive ["outer"; "inner"; "op"]
                    [VStr "a"] ∅ world_of_nesting).2).2) = 2.
Proof. repeat split; by vm_compute. Qed.

(** The example of the specification: with the table of the module,
    [proxy.models.generate_content(model="models/x", customer_id="c")]
    returns the result of the method, and the tracker receives one event,
    for the model [x]. *)
Example generate_content_through_the_proxy :
  (call_through test_env 1%positive ["models"; "generate_content"] []
     (<["model" := VStr "models/x"]> (<["customer_id" := VStr "c"]> ∅))
     world_of_namespaces).1 = Return (VStr "generated")
  ∧ ∃ ev,
      sink_calls
        (call_through test_env 1%positive ["models"; "generate_content"] []
           (<["model" := VStr "models/x"]> (<["customer_id" := VStr "c"]> ∅))
           world_of_namespaces).2 = [(the_tracker, ev)]
      ∧ ev_model ev = VStr "x" ∧ ev_customer_id ev = VStr "c"
      ∧ ev_provider ev = "google".
Proof.
  split; [by vm_compute|]. eexists. split; [by vm_compute|]. by repeat split.
Qed.

(** C8.  The code on a call through the chain whose method raises an error
    of the SDK it wraps, with the integer status as [code].  The first half
    of the claim holds: [outer] is a child proxy whose table is exactly
    [inner.op].  But the call [proxy.outer.inner.op("a")], with tracking
    enabled, invokes the method once and the extraction function not at
    all: the unguarded [e.code()] raises [TypeError] in the handler before
    the extraction function is reached.  The claim has it triggered exactly
    once per call. *)
Theorem nested_call_with_integer_code_is_not_tracked :
  _track_methods nesting_proxy !! "outer.inner.op" = Some (External (VRef 5%positive))
  ∧ (∃ l q,
       (proxy_getattr 1%positive "outer" world_of_failing_nesting).1
       = Return (HProxy l)
       ∧ proxies (proxy_getattr 1%positive "outer" world_of_failing_nesting).2 !! l
         = Some q
       ∧ _track_methods q = <["inner.op" := External (VRef 5%positive)]> ∅)
  ∧ tracking_enabled world_of_failing_nesting ∅ = true
  ∧ (call_through test_env 1%positive ["outer"; "inner"; "op"] [VStr "a"] ∅
       world_of_failing_nesting).1
    = Raise (Exc "TypeError" "'int' object is not callable" CodeAbsent)
  ∧ method_calls
      (call_through test_env 1%positive ["outer"; "inner"; "op"] [VStr "a"] ∅
         world_of_failing_nesting).2
    = [(VRef 4%positive, [VStr "a"], ∅)]
  ∧ tracker_calls
      (call_through test_env 1%positive ["outer"; "inner"; "op"] [VStr "a"] ∅
         world_of_failing_nesting).2
    = [].
Proof.
  split; [by vm_compute|]. split.
  { eexists _, _. split; [by vm_compute|]. split; by vm_compute. }
  repeat split; by vm_compute.
Qed.

(** * Further properties *)

(** ** The extraction functions, case by case *)

Section ExtractionCases.

Context (env : environment).

(** Both extraction functions follow one course: no customer, a warning;
    an error while reading the result or merging the custom metadata, a
    warning; otherwise one call of the tracker, and a warning when that
    call raises.  They return in every case. *)
Lemma run_builtin_cases (b : builtin) (c : tracker_call) (w : world) :
  run_builtin env b c w
  = (Return tt,
     if negb (truthy w (get_effective_customer_id env (tc_customer_id c)))
     then logged w "No customer_id provided for tracking."
     else
       match usage_of b w (tc_result c) with
       | Raise e => logged w (failure_prefix b ++ exc_str e)
       | Return (input_tokens, output_tokens, metadata) =>
           match merge_custom env w metadata (tc_custom_metadata c) with
           | Raise e => logged w (failure_prefix b ++ exc_str e)
           | Return merged =>
               let ev := event_of env c input_tokens output_tokens merged in
               match track_usage_background env (tc_tracker c) ev with
               | None => emitted w (tc_tracker c) ev
               | Some e =>
                   logged (emitted w (tc_tracker c) ev)
                          (failure_prefix b ++ exc_str e)
               end
           end
       end).
Proof.
  destruct b; simpl;
    unfold track_generate_content, track_count_tokens, try_except, bind, ret,
      lift, get_world, log_warning, sink_record, logged, emitted, event_of;
    destruct (truthy w (get_effective_customer_id env (tc_customer_id c)));
    simpl; try done.
  - destruct (generate_usage w (tc_result c)) as [[[i o] md]|e]; simpl; [|done].
    destruct (merge_custom env w md (tc_custom_metadata c)) as [merged|e]; simpl;
      [|done].
    by destruct (track_usage_background env (tc_tracker c) _).
  - destruct (count_usage w (tc_result c)) as [i md]; simpl.
    destruct (merge_custom env w md (tc_custom_metadata c)) as [merged|e]; simpl;
      [|done].
    by destruct (track_usage_background env (tc_tracker c) _).
Qed.

End ExtractionCases.

Section ExtractionProperties.

Context (env : environment).

Lemma app_singleton_ne {A} (l : list A) (x : A) : l ≠ (l ++ [x])%list.
Proof.
  intros H. apply (f_equal length) in H. rewrite length_app in H. simpl in H. lia.
Qed.

(** An event that reached the tracker is the one assembled from the call:
    a customer was resolved, the result was read and the custom metadata
    merged. *)
Lemma sent_event (b : builtin) (c : tracker_call) (w : world) (t : value)
    (ev : usage_event) :
  sink_calls (run_builtin env b c w).2 = (sink_calls w ++ [(t, ev)])%list →
  truthy w (get_effective_customer_id env (tc_customer_id c)) = true
  ∧ ∃ i o md merged,
      usage_of b w (tc_result c) = Return (i, o, md)
      ∧ merge_custom env w md (tc_custom_metadata c) = Return merged
      ∧ t = tc_tracker c
      ∧ ev = event_of env c i o merged.
Proof.
  rewrite run_builtin_cases. simpl.
  destruct (truthy w (get_effective_customer_id env (tc_customer_id c))); simpl.
  2:{ intros H. by apply app_singleton_ne in H. }
  destruct (usage_of b w (tc_result c)) as [[[i o] md]|e]; simpl.
  2:{ intros H. by apply app_singleton_ne in H. }
  destruct (merge_custom env w md (tc_custom_metadata c)) as [merged|e] eqn:Hm;
    simpl.
  2:{ intros H. by apply app_singleton_ne in H. }
  intros H. split; [done|]. exists i, o, md, merged.
  assert (Hev : (tc_tracker c, event_of env c i o merged) = (t, ev)).
  { destruct (track_usage_background env (tc_tracker c) _); simpl in H;
      apply app_inv_head in H; congruence. }
  injection Hev as <- <-. by repeat split.
Qed.

End ExtractionProperties.

(** ** Extraction functions: what reaches the tracker and the log *)

(** X1.  When no customer is resolved (the resolver returns [None], an
    empty string or any other false value), either extraction function
    returns without calling the tracker and logs exactly the warning that
    no customer id was provided; nothing else changes. *)
Theorem no_customer_means_no_event (env : environment) (b : builtin)
    (c : tracker_call) (w : world) :
  truthy w (get_effective_customer_id env (tc_customer_id c)) = false →
  run_builtin env b c w
  = (Return tt, logged w "No customer_id provided for tracking.").
Proof. intros H. rewrite run_builtin_cases. by rewrite H. Qed.

Lemma no_customer_means_no_event_witness :
  truthy world_with_candidates
    (get_effective_customer_id test_env (tc_customer_id anonymous_call)) = false
  ∧ run_builtin test_env track_generate_content_fn anonymous_call
      world_with_candidates
    = (Return tt,
       logged world_with_candidates "No customer_id provided for tracking.").
Proof.
  split; [reflexivity|].
  apply (no_customer_means_no_event test_env track_generate_content_fn
           anonymous_call world_with_candidates).
  reflexivity.
Defined.

(** X2.  Whatever the result, the custom metadata and the tracker do,
    neither extraction function raises; each touches only the calls of the
    tracker and the log, calls the tracker at most once, logs at most one
    warning, and is never silent: it does one of the two. *)
Theorem extraction_never_raises_and_is_never_silent (env : environment)
    (b : builtin) (c : tracker_call) (w : world) :
  ∃ evs msgs,
    run_builtin env b c w
    = (Return tt,
       World (objects w) (proxies w) (closures w) (sink_calls w ++ evs)
             (warnings w ++ msgs) (tracker_calls w) (method_calls w) (ticks w))
    ∧ (length evs ≤ 1 ∧ length msgs ≤ 1 ∧ 1 ≤ length evs + length msgs)%nat.
Proof.
  rewrite run_builtin_cases. unfold logged, emitted.
  destruct (truthy w (get_effective_customer_id env (tc_customer_id c))); simpl.
  2:{ eexists [], [_]. rewrite app_nil_r. split; [done | simpl; lia]. }
  destruct (usage_of b w (tc_result c)) as [[[i o] md]|e]; simpl.
  2:{ eexists [], [_]. rewrite app_nil_r. split; [done | simpl; lia]. }
  destruct (merge_custom env w md (tc_custom_metadata c)) as [merged|e]; simpl.
  2:{ eexists [], [_]. rewrite app_nil_r. split; [done | simpl; lia]. }
  destruct (track_usage_background env (tc_tracker c) _) as [e|]; simpl.
  - eexists [_], [_]. split; [done | simpl; lia].
  - eexists [_], []. rewrite app_nil_r. split; [done | simpl; lia].
Qed.

(** X3.  Custom metadata given as a dict wins over what is read from the
    result: in every event that reaches the tracker, each key of the dict
    has the value of the dict, and every other key has the value read from
    the result. *)
Theorem custom_metadata_wins (env : environment) (b : builtin)
    (c : tracker_call) (w : world) (d : gmap string value) (t : value)
    (ev : usage_event) :
  tc_custom_metadata c = VDict d →
  sink_calls (run_builtin env b c w).2 = (sink_calls w ++ [(t, ev)])%list →
  ∃ input_tokens output_tokens extracted,
    usage_of b w (tc_result c) = Return (input_tokens, output_tokens, extracted)
    ∧ ∀ k, ev_metadata ev !! k
           = match d !! k with
             | Some v => Some v
             | None => extracted !! k
             end.
Proof.
  intros Hd Hs.
  destruct (sent_event env b c w t ev Hs)
    as (_ & i & o & md & merged & Hu & Hm & _ & ->).
  exists i, o, md. split; [done|]. intros k. simpl.
  rewrite Hd in Hm. unfold merge_custom in Hm.
  destruct (truthy w (VDict d)) eqn:Ht.
  - simpl in Hm. injection Hm as <-. rewrite lookup_union.
    by destruct (d !! k), (md !! k).
  - injection Hm as <-. simpl in Ht.
    apply negb_false_iff, bool_decide_eq_true in Ht. subst d.
    by rewrite lookup_empty.
Qed.

Lemma custom_metadata_wins_witness :
  ∃ ev,
    tc_custom_metadata call_with_metadata
    = VDict (<["response_id" := VStr "mine"]> (<["team" := VStr "search"]> ∅))
    ∧ sink_calls (run_builtin test_env track_generate_content_fn call_with_metadata
                    world_with_candidates).2
      = (sink_calls world_with_candidates ++ [(the_tracker, ev)])%list
    ∧ ∃ input_tokens output_tokens extracted,
        usage_of track_generate_content_fn world_with_candidates
          (tc_result call_with_metadata)
        = Return (input_tokens, output_tokens, extracted)
        ∧ ∀ k, ev_metadata ev !! k
               = match (<["response_id" := VStr "mine"]>
                          (<["team" := VStr "search"]> ∅) : gmap string value) !! k with
                 | Some v => Some v
                 | None => extracted !! k
                 end.
Proof.
  eexists. split; [reflexivity|]. split; [vm_compute; reflexivity|].
  apply (custom_metadata_wins test_env track_generate_content_fn call_with_metadata
           world_with_candidates _ the_tracker); [reflexivity|].
  vm_compute. reflexivity.
Defined.

(** The event of that call: the caller's response id, the caller's extra
    key, and the finish reason of the response. *)
Example custom_metadata_of_example :
  ∃ ev,
    sink_calls (run_builtin test_env track_generate_content_fn call_with_metadata
                  world_with_candidates).2 = [(the_tracker, ev)]
    ∧ ev_metadata ev !! "response_id" = Some (VStr "mine")
    ∧ ev_metadata ev !! "team" = Some (VStr "search")
    ∧ ev_metadata ev !! "finish_reason" = Some (VStr "STOP").
Proof. eexists. split; [by vm_compute|]. repeat split; by vm_compute. Qed.

(** X4.  Every event that reaches the tracker goes to the tracker of the
    call, names the provider [google] and the resolved customer, which is a
    true value, and carries the timing, the error fields and the request id
    of the call unchanged. *)
Theorem event_carries_call_context (env : environment) (b : builtin)
    (c : tracker_call) (w : world) (t : value) (ev : usage_event) :
  sink_calls (run_builtin env b c w).2 = (sink_calls w ++ [(t, ev)])%list →
  t = tc_tracker c
  ∧ ev_provider ev = "google"
  ∧ ev_customer_id ev = get_effective_customer_id env (tc_customer_id c)
  ∧ truthy w (ev_customer_id ev) = true
  ∧ ev_request_start_time ev = tc_request_start_time c
  ∧ ev_request_end_time ev = tc_request_end_time c
  ∧ ev_error_occurred ev = tc_error_occurred c
  ∧ ev_error_type ev = tc_error_type c
  ∧ ev_error_code ev = tc_error_code c
  ∧ ev_error_message ev = tc_error_message c
  ∧ ev_request_id ev = tc_request_id c.
Proof.
  intros Hs.
  destruct (sent_event env b c w t ev Hs)
    as (Hc & i & o & md & merged & _ & _ & -> & ->).
  by repeat split.
Qed.

Lemma event_carries_call_context_witness :
  ∃ ev,
    sink_calls (run_builtin test_env track_generate_content_fn call_with_metadata
                  world_with_candidates).2
    = (sink_calls world_with_candidates ++ [(the_tracker, ev)])%list
    ∧ the_tracker = tc_tracker call_with_metadata
    ∧ ev_provider ev = "google"
    ∧ ev_customer_id ev
      = get_effective_customer_id test_env (tc_customer_id call_with_metadata)
    ∧ truthy world_with_candidates (ev_customer_id ev) = true
    ∧ ev_request_start_time ev = tc_request_start_time call_with_metadata
    ∧ ev_request_end_time ev = tc_request_end_time call_with_metadata
    ∧ ev_error_occurred ev = tc_error_occurred call_with_metadata
    ∧ ev_error_type ev = tc_error_type call_with_metadata
    ∧ ev_error_code ev = tc_error_code call_with_metadata
    ∧ ev_error_message ev = tc_error_message call_with_metadata
    ∧ ev_request_id ev = tc_request_id call_with_metadata.
Proof.
  eexists. split; [vm_compute; reflexivity|].
  apply (event_carries_call_context test_env track_generate_content_fn
           call_with_metadata world_with_candidates the_tracker).
  vm_compute. reflexivity.
Defined.

(** ** What [track_generate_content] reads from the result *)

Lemma py_getattr_hasattr (w : world) (v : value) (name : string) (x : value) :
  py_getattr w v name = Some x → py_hasattr w v name = true.
Proof. intros H. apply py_hasattr_true. by exists x. Qed.

Lemma generate_usage_present (w : world) (result usage_metadata : value) :
  truthy w result = true →
  py_getattr w result "usage_metadata" = Some usage_metadata →
  generate_usage w result
  = match finish_reason_of w result with
    | Return finish_reason =>
        Return (default (VInt 0) (py_getattr w usage_metadata "prompt_token_count"),
                default (VInt 0) (py_getattr w usage_metadata "candidates_token_count"),
                <["response_id" := default VNone (py_getattr w result "id")]>
                  (<["safety_ratings" :=
                       default VNone (py_getattr w result "safety_ratings")]>
                     (<["finish_reason" := finish_reason]> ∅)))
    | Raise e => Raise e
    end.
Proof.
  intros Ht H. unfold generate_usage, getattr_default.
  by rewrite Ht, (py_getattr_hasattr _ _ _ _ H), H.
Qed.

Lemma finish_reason_of_first (w : world) (result cand : value) (rest : list value) :
  py_getattr w result "candidates" = Some (VList (cand :: rest)) →
  finish_reason_of w result = Return (default VNone (py_getattr w cand "finish_reason")).
Proof.
  intros H. unfold finish_reason_of, getattr_default.
  by rewrite (py_getattr_hasattr _ _ _ _ H), H.
Qed.

Lemma finish_reason_of_none (w : world) (result : value) :
  truthy w (default VNone (py_getattr w result "candidates")) = false →
  finish_reason_of w result = Return VNone.
Proof.
  intros H. unfold finish_reason_of, getattr_default. by rewrite H, andb_false_r.
Qed.

Lemma finish_reason_of_raise (w : world) (result candidates : value) (e : exc) :
  py_getattr w result "candidates" = Some candidates →
  truthy w candidates = true →
  py_index0 w candidates = Raise e →
  finish_reason_of w result = Raise e.
Proof.
  intros H Ht Hi. unfold finish_reason_of, getattr_default.
  rewrite (py_getattr_hasattr _ _ _ _ H), H. simpl. by rewrite Ht, Hi.
Qed.

(** X5.  The quantities of every event [track_generate_content] sends.
    For a result that is true in a condition and has usage metadata: the
    fields [prompt_token_count] and [candidates_token_count] of the usage
    metadata, each replaced by zero when the field is missing (the field
    [total_token_count] is not read).  Two zeros when the result has no
    usage metadata, and when the result is false in a condition, whatever
    it has. *)
Theorem generate_content_event_quantities (env : environment) (c : tracker_call)
    (w : world) (t : value) (ev : usage_event) :
  sink_calls (run_builtin env track_generate_content_fn c w).2
  = (sink_calls w ++ [(t, ev)])%list →
  (∀ usage_metadata,
     truthy w (tc_result c) = true →
     py_getattr w (tc_result c) "usage_metadata" = Some usage_metadata →
     ev_input_tokens ev
     = default (VInt 0) (py_getattr w usage_metadata "prompt_token_count")
     ∧ ev_output_tokens ev
       = default (VInt 0) (py_getattr w usage_metadata "candidates_token_count"))
  ∧ (py_getattr w (tc_result c) "usage_metadata" = None →
     ev_input_tokens ev = VInt 0 ∧ ev_output_tokens ev = VInt 0)
  ∧ (truthy w (tc_result c) = false →
     ev_input_tokens ev = VInt 0 ∧ ev_output_tokens ev = VInt 0).
Proof.
  intros Hs.
  destruct (sent_event env _ c w t ev Hs)
    as (_ & i & o & md & merged & Hu & _ & _ & ->).
  simpl in Hu. apply generate_usage_quantities in Hu.
  unfold generate_quantities, getattr_default in Hu. simpl. split; [|split].
  - intros um Ht Hum. rewrite Hum, Ht in Hu. by injection Hu as -> ->.
  - intros Hum. rewrite Hum in Hu. by injection Hu as -> ->.
  - intros Ht. rewrite Ht in Hu.
    destruct (py_getattr w (tc_result c) "usage_metadata");
      by injection Hu as -> ->.
Qed.

Lemma generate_content_event_quantities_witness :
  ∃ ev,
    sink_calls (run_builtin test_env track_generate_content_fn (generate_call 1)
                  world_with_candidates).2
    = (sink_calls world_with_candidates ++ [(the_tracker, ev)])%list
    ∧ (∀ usage_metadata,
         truthy world_with_candidates (tc_result (generate_call 1)) = true →
         py_getattr world_with_candidates (tc_result (generate_call 1))
           "usage_metadata" = Some usage_metadata →
         ev_input_tokens ev
         = default (VInt 0)
             (py_getattr world_with_candidates usage_metadata "prompt_token_count")
         ∧ ev_output_tokens ev
           = default (VInt 0)
               (py_getattr world_with_candidates usage_metadata
                  "candidates_token_count"))
    ∧ (py_getattr world_with_candidates (tc_result (generate_call 1))
         "usage_metadata" = None →
       ev_input_tokens ev = VInt 0 ∧ ev_output_tokens ev = VInt 0)
    ∧ (truthy world_with_candidates (tc_result (generate_call 1)) = false →
       ev_input_tokens ev = VInt 0 ∧ ev_output_tokens ev = VInt 0).
Proof.
  eexists. split; [vm_compute; reflexivity|].
  apply (generate_content_event_quantities test_env (generate_call 1)
           world_with_candidates the_tracker).
  vm_compute. reflexivity.
Defined.

(** The event of the fixture response: 15 and 25. *)
Example quantities_of_the_fixture :
  ∃ ev,
    sink_calls (run_builtin test_env track_generate_content_fn (generate_call 1)
                  world_with_candidates).2 = [(the_tracker, ev)]
    ∧ ev_input_tokens ev = VInt 15 ∧ ev_output_tokens ev = VInt 25
    ∧ ev_model ev = VStr "gemini-2.5-flash".
Proof. eexists. split; [by vm_compute|]. by repeat split. Qed.

(** X6.  The metadata of an event of [track_generate_content] for a result
    that is true in a condition and has usage metadata, when the caller
    gives no custom metadata: the three keys [response_id],
    [safety_ratings] and [finish_reason], the first two read from the
    result with [None] for a missing field.  The finish reason is the one
    of the first candidate only ([None] when that candidate has none), and
    [None] when the result has no candidates or an empty or otherwise false
    [candidates]. *)
Theorem generate_content_event_metadata (env : environment) (c : tracker_call)
    (w : world) (usage_metadata : value) (t : value) (ev : usage_event) :
  truthy w (tc_result c) = true →
  py_getattr w (tc_result c) "usage_metadata" = Some usage_metadata →
  tc_custom_metadata c = VNone →
  sink_calls (run_builtin env track_generate_content_fn c w).2
  = (sink_calls w ++ [(t, ev)])%list →
  ∃ finish_reason,
    ev_metadata ev
    = <["response_id" := default VNone (py_getattr w (tc_result c) "id")]>
        (<["safety_ratings" :=
             default VNone (py_getattr w (tc_result c) "safety_ratings")]>
           (<["finish_reason" := finish_reason]> ∅))
    ∧ (∀ first rest,
         py_getattr w (tc_result c) "candidates" = Some (VList (first :: rest)) →
         finish_reason = default VNone (py_getattr w first "finish_reason"))
    ∧ (truthy w (default VNone (py_getattr w (tc_result c) "candidates")) = false →
       finish_reason = VNone).
Proof.
  intros Ht Hum Hcm Hs.
  destruct (sent_event env _ c w t ev Hs)
    as (_ & i & o & md & merged & Hu & Hm & _ & ->).
  simpl in Hu. rewrite (generate_usage_present _ _ _ Ht Hum) in Hu.
  rewrite Hcm in Hm. unfold merge_custom in Hm. simpl in Hm.
  injection Hm as <-.
  destruct (finish_reason_of w (tc_result c)) as [fr|e] eqn:Hfr; [|discriminate].
  injection Hu as _ _ <-. exists fr. split; [done|]. split.
  - intros first rest Hc. rewrite (finish_reason_of_first _ _ _ _ Hc) in Hfr.
    by injection Hfr as <-.
  - intros Hc. rewrite (finish_reason_of_none _ _ Hc) in Hfr.
    by injection Hfr as <-.
Qed.

Lemma generate_content_event_metadata_witness :
  ∃ ev,
    truthy world_with_candidates (tc_result (generate_call 1)) = true
    ∧ py_getattr world_with_candidates (tc_result (generate_call 1)) "usage_metadata"
      = Some (VRef 2%positive)
    ∧ tc_custom_metadata (generate_call 1) = VNone
    ∧ sink_calls (run_builtin test_env track_generate_content_fn (generate_call 1)
                    world_with_candidates).2
      = (sink_calls world_with_candidates ++ [(the_tracker, ev)])%list
    ∧ ∃ finish_reason,
        ev_metadata ev
        = <["response_id" :=
              default VNone
                (py_getattr world_with_candidates (tc_result (generate_call 1)) "id")]>
            (<["safety_ratings" :=
                 default VNone
                   (py_getattr world_with_candidates (tc_result (generate_call 1))
                      "safety_ratings")]>
               (<["finish_reason" := finish_reason]> ∅))
        ∧ (∀ first rest,
             py_getattr world_with_candidates (tc_result (generate_call 1))
               "candidates" = Some (VList (first :: rest)) →
             finish_reason
             = default VNone (py_getattr world_with_candidates first "finish_reason"))
        ∧ (truthy world_with_candidates
             (default VNone
                (py_getattr world_with_candidates (tc_result (generate_call 1))
                   "candidates")) = false →
           finish_reason = VNone).
Proof.
  eexists. split; [reflexivity|]. split; [reflexivity|]. split; [reflexivity|].
  split; [vm_compute; reflexivity|].
  apply (generate_content_event_metadata test_env (generate_call 1)
           world_with_candidates (VRef 2%positive) the_tracker);
    [reflexivity | reflexivity | reflexivity | vm_compute; reflexivity].
Defined.

(** The metadata of the fixture response, as
    [test_track_generate_content_success] expects it. *)
Example metadata_of_the_fixture :
  ∃ ev,
    sink_calls (run_builtin test_env track_generate_content_fn (generate_call 1)
                  world_with_candidates).2 = [(the_tracker, ev)]
    ∧ ev_metadata ev
      = <["response_id" := VStr "resp_123"]>
          (<["safety_ratings" := VNone]> (<["finish_reason" := VStr "STOP"]> ∅)).
Proof. eexists. split; [by vm_compute|]. by vm_compute. Qed.

(** X7.  A result that is true in a condition and has usage metadata,
    whose [candidates] is a true value that cannot be indexed (indexing it
    raises [e]): although a customer is resolved and the counts are there,
    [track_generate_content] sends no event; it logs the failure with the
    text of [e], and returns. *)
Theorem unindexable_candidates_lose_the_event (env : environment)
    (c : tracker_call) (w : world) (usage_metadata candidates : value) (e : exc) :
  truthy w (get_effective_customer_id env (tc_customer_id c)) = true →
  truthy w (tc_result c) = true →
  py_getattr w (tc_result c) "usage_metadata" = Some usage_metadata →
  py_getattr w (tc_result c) "candidates" = Some candidates →
  truthy w candidates = true →
  py_index0 w candidates = Raise e →
  run_builtin env track_generate_content_fn c w
  = (Return tt,
     logged w ("Failed to extract usage data from generate_content: " ++ exc_str e)).
Proof.
  intros Hc Hr Hum Hca Ht Hi. rewrite run_builtin_cases, Hc. simpl.
  rewrite (generate_usage_present _ _ _ Hr Hum).
  by rewrite (finish_reason_of_raise _ _ _ _ Hca Ht Hi).
Qed.

Lemma unindexable_candidates_lose_the_event_witness :
  truthy world_with_candidates
    (get_effective_customer_id test_env (tc_customer_id (generate_call 4))) = true
  ∧ truthy world_with_candidates (tc_result (generate_call 4)) = true
  ∧ py_getattr world_with_candidates (tc_result (generate_call 4)) "usage_metadata"
    = Some (VRef 2%positive)
  ∧ py_getattr world_with_candidates (tc_result (generate_call 4)) "candidates"
    = Some (VInt 5)
  ∧ truthy world_with_candidates (VInt 5) = true
  ∧ py_index0 world_with_candidates (VInt 5)
    = Raise (Exc "TypeError" "'int' object is not subscriptable" CodeAbsent)
  ∧ run_builtin test_env track_generate_content_fn (generate_call 4)
      world_with_candidates
    = (Return tt,
       logged world_with_candidates
         ("Failed to extract usage data from generate_content: "
          ++ exc_str (Exc "TypeError" "'int' object is not subscriptable" CodeAbsent))).
Proof.
  split; [reflexivity|]. split; [reflexivity|]. split; [reflexivity|].
  split; [reflexivity|]. split; [reflexivity|]. split; [reflexivity|].
  apply (unindexable_candidates_lose_the_event test_env (generate_call 4)
           world_with_candidates (VRef 2%positive) (VInt 5));
    reflexivity.
Defined.

(** ** The model and the metadata of [track_count_tokens] *)

(** X8.  The model of every event of either extraction function comes
    from the keyword arguments alone: without a keyword [model] it is the
    string [unknown], whatever the positional arguments are, and a [model]
    that is not a string is passed on unchanged. *)
Theorem model_comes_from_keywords_only (env : environment) (b : builtin)
    (c : tracker_call) (w : world) (t : value) (ev : usage_event) :
  sink_calls (run_builtin env b c w).2 = (sink_calls w ++ [(t, ev)])%list →
  (tc_kwargs c !! "model" = None → ev_model ev = VStr "unknown")
  ∧ (∀ v, tc_kwargs c !! "model" = Some v → (∀ s, v ≠ VStr s) → ev_model ev = v).
Proof.
  intros Hs.
  destruct (sent_event env b c w t ev Hs)
    as (_ & i & o & md & merged & _ & _ & _ & ->).
  simpl. unfold model_of. split.
  - by intros ->.
  - intros v -> Hv. simpl. destruct v; try done. by destruct (Hv s).
Qed.

Lemma model_comes_from_keywords_only_witness :
  ∃ ev,
    sink_calls (run_builtin test_env track_generate_content_fn call_with_metadata
                  world_with_candidates).2
    = (sink_calls world_with_candidates ++ [(the_tracker, ev)])%list
    ∧ (tc_kwargs call_with_metadata !! "model" = None → ev_model ev = VStr "unknown")
    ∧ (∀ v, tc_kwargs call_with_metadata !! "model" = Some v →
            (∀ s, v ≠ VStr s) → ev_model ev = v).
Proof.
  eexists. split; [vm_compute; reflexivity|].
  apply (model_comes_from_keywords_only test_env track_generate_content_fn
           call_with_metadata world_with_candidates the_tracker).
  vm_compute. reflexivity.
Defined.

(** X9.  The metadata of an event of [track_count_tokens], when the caller
    gives no custom metadata: the key [operation] with the string
    [count_tokens], and the key [total_tokens] with the field of the result
    exactly when the result is true in a condition and has that field. *)
Theorem count_tokens_event_metadata (env : environment) (c : tracker_call)
    (w : world) (t : value) (ev : usage_event) :
  tc_custom_metadata c = VNone →
  sink_calls (run_builtin env track_count_tokens_fn c w).2
  = (sink_calls w ++ [(t, ev)])%list →
  ev_metadata ev !! "operation" = Some (VStr "count_tokens")
  ∧ ev_metadata ev !! "total_tokens"
    = (if truthy w (tc_result c) then py_getattr w (tc_result c) "total_tokens"
       else None)
  ∧ ∀ k, k ≠ "operation" → k ≠ "total_tokens" → ev_metadata ev !! k = None.
Proof.
  intros Hcm Hs.
  destruct (sent_event env _ c w t ev Hs)
    as (_ & i & o & md & merged & Hu & Hm & _ & ->).
  unfold usage_of in Hu. injection Hu as _ _ <-.
  rewrite Hcm in Hm. unfold merge_custom in Hm. cbn [truthy] in Hm.
  injection Hm as <-.
  unfold event_of. cbn [ev_metadata].
  unfold count_usage, getattr_default.
  destruct (truthy w (tc_result c)); simpl.
  2:{ split; [done|]. split; [done|].
      intros k H1 H2. by rewrite lookup_singleton_ne. }
  destruct (py_hasattr w (tc_result c) "total_tokens") eqn:Hh; simpl.
  - apply py_hasattr_true in Hh as [x Hx]. rewrite Hx. simpl.
    split; [done|]. split; [by rewrite lookup_insert_eq|].
    intros k H1 H2. rewrite lookup_insert_ne by done.
    by rewrite lookup_singleton_ne.
  - apply py_hasattr_false in Hh. rewrite Hh.
    split; [done|]. split; [done|].
    intros k H1 H2. by rewrite lookup_singleton_ne.
Qed.

Lemma count_tokens_event_metadata_witness :
  ∃ ev,
    tc_custom_metadata count_tokens_call = VNone
    ∧ sink_calls (run_builtin test_env track_count_tokens_fn count_tokens_call
                    world_with_usage).2
      = (sink_calls world_with_usage ++ [(the_tracker, ev)])%list
    ∧ ev_metadata ev !! "operation" = Some (VStr "count_tokens")
    ∧ ev_metadata ev !! "total_tokens"
      = (if truthy world_with_usage (tc_result count_tokens_call)
         then py_getattr world_with_usage (tc_result count_tokens_call) "total_tokens"
         else None)
    ∧ ∀ k, k ≠ "operation" → k ≠ "total_tokens" → ev_metadata ev !! k = None.
Proof.
  eexists. split; [reflexivity|]. split; [vm_compute; reflexivity|].
  apply (count_tokens_event_metadata test_env count_tokens_call world_with_usage
           the_tracker); [reflexivity | vm_compute; reflexivity].
Defined.

(** The metadata of the response of the tests, and of a response that is
    false in a condition. *)
Example count_tokens_metadata_of_the_fixtures :
  (∃ ev,
     sink_calls (run_builtin test_env track_count_tokens_fn count_tokens_call
                   world_with_usage).2 = [(the_tracker, ev)]
     ∧ ev_metadata ev
       = <["total_tokens" := VInt 15]> {["operation" := VStr "count_tokens"]})
  ∧ (∃ ev,
       sink_calls (run_builtin test_env track_count_tokens_fn count_tokens_call
                     world_with_false_result).2 = [(the_tracker, ev)]
       ∧ ev_metadata ev = {["operation" := VStr "count_tokens"]}).
Proof. split; eexists; (split; [by vm_compute|]); by vm_compute. Qed.

(** ** The interceptor with the extraction functions of the module *)

Section InterceptorCases.

Context (env : environment).

(** With an extraction function of the module and tracking enabled, the
    tracker and the log after a tracked call are as the extraction function
    leaves them: the interceptor adds no warning of its own. *)
Lemma wrapped_module (cl : closure) (b : builtin) (args : list value)
    (kwargs : gmap string value) (w : world) :
  cl_tracker_func cl = Builtin b →
  tracking_enabled w kwargs = true →
  let w' := (wrapped env cl args kwargs w).2 in
  match method_outcome w cl args kwargs with
  | Return result =>
      let c := success_call env w cl args kwargs result in
      sink_calls w' = sink_calls (run_builtin env b c (at_extraction w cl args kwargs c)).2
      ∧ warnings w' = warnings (run_builtin env b c (at_extraction w cl args kwargs c)).2
  | Raise e =>
      match classify_error e with
      | Return (error_code, error_type) =>
          let c := failure_call env w cl args kwargs e error_code error_type in
          sink_calls w'
          = sink_calls (run_builtin env b c (at_extraction w cl args kwargs c)).2
          ∧ warnings w'
            = warnings (run_builtin env b c (at_extraction w cl args kwargs c)).2
      | Raise x => sink_calls w' = sink_calls w ∧ warnings w' = warnings w
      end
  end.
Proof.
  intros Hb Hen. pose proof (wrapped_telemetry env cl args kwargs w Hen) as T.
  cbn zeta in *. rewrite Hb in T. unfold at_extraction. rewrite Hb.
  destruct (method_outcome w cl args kwargs) as [result|e].
  - rewrite (call_tracker_builtin env b) in T. simpl in T.
    rewrite app_nil_r in T. exact T.
  - destruct (classify_error e) as [[error_code error_type]|x]; [|exact T].
    rewrite (call_tracker_builtin env b) in T. simpl in T.
    rewrite app_nil_r in T. exact T.
Qed.

End InterceptorCases.

(** X10.  A tracked call with a false [track_usage] (also [None], [0] or
    an empty string): the real method is still called once, without the
    three reserved keywords, and the clock is still read; the extraction
    function is not called, the tracker and the log are untouched; and the
    outcome is the one of the method whenever its error, if any, can be
    classified. *)
Theorem disabled_tracking_calls_only_the_method (env : environment) (cl : closure)
    (args : list value) (kwargs : gmap string value) (w : world) :
  tracking_enabled w kwargs = false →
  let w' := (wrapped env cl args kwargs w).2 in
  method_calls w'
  = (method_calls w ++ [(cl_method cl, args, forwarded_kwargs kwargs)])%list
  ∧ tracker_calls w' = tracker_calls w
  ∧ sink_calls w' = sink_calls w
  ∧ warnings w' = warnings w
  ∧ objects w' = objects w ∧ proxies w' = proxies w ∧ closures w' = closures w
  ∧ (classifiable (method_outcome w cl args kwargs) →
     (wrapped env cl args kwargs w).1 = method_outcome w cl args kwargs).
Proof.
  intros Hen. cbn zeta. rewrite (wrapped_untracked env cl args kwargs w Hen).
  cbn. repeat (split; [done|]).
  destruct (method_outcome w cl args kwargs) as [result|e]; [done|].
  by intros [r ->].
Qed.

Lemma disabled_tracking_calls_only_the_method_witness :
  tracking_enabled world_of_methods kwargs_without_tracking = false
  ∧ let w' := (wrapped test_env (closure_over 10 15) [VStr "arg1"]
                 kwargs_without_tracking world_of_methods).2 in
    method_calls w'
    = (method_calls world_of_methods
       ++ [(cl_method (closure_over 10 15), [VStr "arg1"],
            forwarded_kwargs kwargs_without_tracking)])%list
    ∧ tracker_calls w' = tracker_calls world_of_methods
    ∧ sink_calls w' = sink_calls world_of_methods
    ∧ warnings w' = warnings world_of_methods
    ∧ objects w' = objects world_of_methods
    ∧ proxies w' = proxies world_of_methods
    ∧ closures w' = closures world_of_methods
    ∧ (classifiable (method_outcome world_of_methods (closure_over 10 15)
                       [VStr "arg1"] kwargs_without_tracking) →
       (wrapped test_env (closure_over 10 15) [VStr "arg1"]
          kwargs_without_tracking world_of_methods).1
       = method_outcome world_of_methods (closure_over 10 15) [VStr "arg1"]
           kwargs_without_tracking).
Proof.
  split; [reflexivity|].
  apply (disabled_tracking_calls_only_the_method test_env (closure_over 10 15)
           [VStr "arg1"] kwargs_without_tracking world_of_methods).
  reflexivity.
Defined.

(** The scenario of [test_proxy_tracking_disabled]: the method receives the
    one ordinary keyword and returns its result. *)
Example tracking_disabled_of_test :
  (wrapped test_env (closure_over 10 15) [VStr "arg1"] kwargs_without_tracking
     world_of_methods).1 = Return (VStr "result")
  ∧ method_calls (wrapped test_env (closure_over 10 15) [VStr "arg1"]
                    kwargs_without_tracking world_of_methods).2
    = [(VRef 10%positive, [VStr "arg1"], plain_kwargs)].
Proof. split; by vm_compute. Qed.

(** X11.  A tracked call of a method that returns, with tracking enabled,
    intercepted with an extraction function of the module: the call returns
    the result of the method, whether an event is sent or not; and every
    event the tracker receives goes to the tracker of the proxy that built
    the closure, is for the customer resolved from the keyword
    [customer_id] and the model of the forwarded keywords, carries the
    identifier drawn at the start of the call and the two clock readings
    taken around the call of the method, and has no error. *)
Theorem successful_call_event (env : environment) (cl : closure) (b : builtin)
    (args : list value) (kwargs : gmap string value) (w : world) (p : proxy)
    (result : value) :
  cl_tracker_func cl = Builtin b →
  proxies w !! cl_self cl = Some p →
  tracking_enabled w kwargs = true →
  method_outcome w cl args kwargs = Return result →
  (wrapped env cl args kwargs w).1 = Return result
  ∧ ∀ t ev,
      sink_calls (wrapped env cl args kwargs w).2 = (sink_calls w ++ [(t, ev)])%list →
      t = _tracker p
      ∧ ev_customer_id ev
        = get_effective_customer_id env (default VEllipsis (kwargs !! "customer_id"))
      ∧ ev_model ev = model_of (forwarded_kwargs kwargs)
      ∧ ev_request_id ev = VStr (uuid4 env (ticks w))
      ∧ ev_request_start_time ev = VFloat (time_time env (S (ticks w)))
      ∧ ev_request_end_time ev = VFloat (time_time env (S (S (ticks w))))
      ∧ ev_error_occurred ev = VBool false
      ∧ ev_error_type ev = VNone
      ∧ ev_error_code ev = VNone
      ∧ ev_error_message ev = VNone.
Proof.
  intros Hb Hp Hen Hout.
  pose proof (wrapped_run env cl args kwargs w) as R.
  pose proof (wrapped_module env cl b args kwargs w Hb Hen) as T.
  cbn zeta in T. rewrite Hout in R, T. destruct R as [R _], T as [T _].
  split; [exact R|]. intros t ev Hs. rewrite T in Hs.
  apply (sent_event env b _ (at_extraction w cl args kwargs _) t ev) in Hs.
  destruct Hs as (_ & i & o & md & merged & _ & _ & -> & ->).
  cbn. rewrite Hp. by repeat split.
Qed.

Lemma successful_call_event_witness :
  cl_tracker_func (module_closure 10 track_count_tokens_fn)
  = Builtin track_count_tokens_fn
  ∧ proxies world_of_methods !! cl_self (module_closure 10 track_count_tokens_fn)
    = Some (Proxy (VRef 20%positive) the_tracker
                  (<["tracked_method" := External (VRef 14%positive)]> ∅) ∅)
  ∧ tracking_enabled world_of_methods kwargs_with_customer = true
  ∧ method_outcome world_of_methods (module_closure 10 track_count_tokens_fn) []
      kwargs_with_customer = Return (VStr "result")
  ∧ (wrapped test_env (module_closure 10 track_count_tokens_fn) []
       kwargs_with_customer world_of_methods).1 = Return (VStr "result")
  ∧ ∀ t ev,
      sink_calls (wrapped test_env (module_closure 10 track_count_tokens_fn) []
                    kwargs_with_customer world_of_methods).2
      = (sink_calls world_of_methods ++ [(t, ev)])%list →
      t = _tracker (Proxy (VRef 20%positive) the_tracker
                          (<["tracked_method" := External (VRef 14%positive)]> ∅) ∅)
      ∧ ev_customer_id ev
        = get_effective_customer_id test_env
            (default VEllipsis (kwargs_with_customer !! "customer_id"))
      ∧ ev_model ev = model_of (forwarded_kwargs kwargs_with_customer)
      ∧ ev_request_id ev = VStr (uuid4 test_env (ticks world_of_methods))
      ∧ ev_request_start_time ev
        = VFloat (time_time test_env (S (ticks world_of_methods)))
      ∧ ev_request_end_time ev
        = VFloat (time_time test_env (S (S (ticks world_of_methods))))
      ∧ ev_error_occurred ev = VBool false
      ∧ ev_error_type ev = VNone
      ∧ ev_error_code ev = VNone
      ∧ ev_error_message ev = VNone.
Proof.
  split; [reflexivity|]. split; [reflexivity|]. split; [reflexivity|].
  split; [reflexivity|].
  apply (successful_call_event test_env (module_closure 10 track_count_tokens_fn)
           track_count_tokens_fn [] kwargs_with_customer world_of_methods
           (Proxy (VRef 20%positive) the_tracker
                  (<["tracked_method" := External (VRef 14%positive)]> ∅) ∅)
           (VStr "result")); reflexivity.
Defined.

(** That call does send an event, for the customer of the keyword. *)
Example successful_call_of_example :
  ∃ ev,
    sink_calls (wrapped test_env (module_closure 10 track_count_tokens_fn) []
                  kwargs_with_customer world_of_methods).2 = [(the_tracker, ev)]
    ∧ ev_customer_id ev = VStr "customer-123"
    ∧ ev_error_occurred ev = VBool false.
Proof. eexists. split; [by vm_compute|]. by split. Qed.

(** X12.  A tracked call whose method raises an error that can be
    classified, intercepted with an extraction function of the module, with
    a customer resolved and custom metadata that is absent or a dict: the
    error of the method is raised again, and the tracker receives exactly
    one event, with two zero quantities, the failure flag, the text of the
    error, and its kind and code ([sdk_error] without code when the error
    has no [code], [grpc_error] with the text of the code when [code] is a
    method that returns). *)
Theorem failed_call_event (env : environment) (cl : closure) (b : builtin)
    (args : list value) (kwargs : gmap string value) (w : world) (e : exc)
    (error_code error_type : value) :
  cl_tracker_func cl = Builtin b →
  tracking_enabled w kwargs = true →
  method_outcome w cl args kwargs = Raise e →
  classify_error e = Return (error_code, error_type) →
  truthy w
    (get_effective_customer_id env (default VEllipsis (kwargs !! "customer_id")))
  = true →
  mapping_or_none (default VNone (kwargs !! "metadata")) →
  (wrapped env cl args kwargs w).1 = Raise e
  ∧ ∃ ev,
      sink_calls (wrapped env cl args kwargs w).2
      = (sink_calls w
         ++ [(from_option _tracker VNone (proxies w !! cl_self cl), ev)])%list
      ∧ ev_input_tokens ev = VInt 0
      ∧ ev_output_tokens ev = VInt 0
      ∧ ev_error_occurred ev = VBool true
      ∧ ev_error_message ev = VStr (exc_str e)
      ∧ ev_error_type ev = error_type
      ∧ ev_error_code ev = error_code
      ∧ (exc_code e = CodeAbsent →
         error_type = VStr "sdk_error" ∧ error_code = VNone)
      ∧ (∀ s, exc_code e = CodeMethod s →
         error_type = VStr "grpc_error" ∧ error_code = VStr s).
Proof.
  intros Hb Hen Hout Hcl Hc Hm.
  pose proof (wrapped_run env cl args kwargs w) as R.
  pose proof (wrapped_module env cl b args kwargs w Hb Hen) as T.
  cbn zeta in T. rewrite Hout, Hcl in R, T. destruct R as [R _], T as [T _].
  split; [exact R|]. rewrite T, run_builtin_cases.
  cbn [tc_customer_id failure_call call_context tc_result tc_custom_metadata
       tc_tracker].
  unfold customer_override, metadata_override.
  rewrite (truthy_objects w (at_extraction _ _ _ _ _)) by done.
  rewrite Hc. cbn [negb].
  assert (Hu : ∃ md, usage_of b (at_extraction w cl args kwargs
                                   (failure_call env w cl args kwargs e
                                      error_code error_type)) VNone
                     = Return (VInt 0, VInt 0, md)).
  { destruct b; by eexists. }
  destruct Hu as [md ->].
  destruct (merge_custom_mapping env
              (at_extraction w cl args kwargs
                 (failure_call env w cl args kwargs e error_code error_type))
              md _ Hm) as [merged ->].
  eexists. split.
  - by destruct (track_usage_background env _ _).
  - cbn. repeat (split; [done|]). unfold classify_error in Hcl. split.
    + intros Hx. rewrite Hx in Hcl. by injection Hcl as <- <-.
    + intros s Hx. rewrite Hx in Hcl. by injection Hcl as <- <-.
Qed.

Lemma failed_call_event_witness :
  cl_tracker_func (module_closure 16 track_generate_content_fn)
  = Builtin track_generate_content_fn
  ∧ tracking_enabled world_of_methods kwargs_with_customer = true
  ∧ method_outcome world_of_methods (module_closure 16 track_generate_content_fn) []
      kwargs_with_customer = Raise rpc_error
  ∧ classify_error rpc_error
    = Return (VStr "StatusCode.DEADLINE_EXCEEDED", VStr "grpc_error")
  ∧ truthy world_of_methods
      (get_effective_customer_id test_env
         (default VEllipsis (kwargs_with_customer !! "customer_id"))) = true
  ∧ mapping_or_none (default VNone (kwargs_with_customer !! "metadata"))
  ∧ (wrapped test_env (module_closure 16 track_generate_content_fn) []
       kwargs_with_customer world_of_methods).1 = Raise rpc_error
  ∧ ∃ ev,
      sink_calls (wrapped test_env (module_closure 16 track_generate_content_fn) []
                    kwargs_with_customer world_of_methods).2
      = (sink_calls world_of_methods
         ++ [(from_option _tracker VNone
                (proxies world_of_methods
                   !! cl_self (module_closure 16 track_generate_content_fn)), ev)])%list
      ∧ ev_input_tokens ev = VInt 0
      ∧ ev_output_tokens ev = VInt 0
      ∧ ev_error_occurred ev = VBool true
      ∧ ev_error_message ev = VStr (exc_str rpc_error)
      ∧ ev_error_type ev = VStr "grpc_error"
      ∧ ev_error_code ev = VStr "StatusCode.DEADLINE_EXCEEDED"
      ∧ (exc_code rpc_error = CodeAbsent →
         VStr "grpc_error" = VStr "sdk_error"
         ∧ VStr "StatusCode.DEADLINE_EXCEEDED" = VNone)
      ∧ (∀ s, exc_code rpc_error = CodeMethod s →
         VStr "grpc_error" = VStr "grpc_error"
         ∧ VStr "StatusCode.DEADLINE_EXCEEDED" = VStr s).
Proof.
  split; [reflexivity|]. split; [reflexivity|]. split; [reflexivity|].
  split; [reflexivity|]. split; [reflexivity|].
  split; [by left|].
  apply (failed_call_event test_env (module_closure 16 track_generate_content_fn)
           track_generate_content_fn [] kwargs_with_customer world_of_methods
           rpc_error (VStr "StatusCode.DEADLINE_EXCEEDED") (VStr "grpc_error"));
    [reflexivity | reflexivity | reflexivity | reflexivity | reflexivity | by left].
Defined.

(** X13.  A tracked call intercepted with an extraction function of the
    module, with tracking enabled and an outcome of the method that can be
    classified, always leaves a trace and never two of a kind: the tracker
    receives at most one event, the log at most one warning, and at least
    one of the two happens.  The warning is the one about the missing
    customer or one of the extraction function about its own failure; the
    warnings of the interceptor itself never appear. *)
Theorem tracked_call_always_leaves_a_trace (env : environment) (cl : closure)
    (b : builtin) (args : list value) (kwargs : gmap string value) (w : world) :
  cl_tracker_func cl = Builtin b →
  tracking_enabled w kwargs = true →
  classifiable (method_outcome w cl args kwargs) →
  ∃ evs msgs,
    sink_calls (wrapped env cl args kwargs w).2 = (sink_calls w ++ evs)%list
    ∧ warnings (wrapped env cl args kwargs w).2 = (warnings w ++ msgs)%list
    ∧ (length evs ≤ 1 ∧ length msgs ≤ 1 ∧ 1 ≤ length evs + length msgs)%nat
    ∧ ∀ msg, msg ∈ msgs →
        msg = "No customer_id provided for tracking."
        ∨ ∃ x, msg = failure_prefix b ++ exc_str x.
Proof.
  intros Hb Hen Hcl.
  pose proof (wrapped_module env cl b args kwargs w Hb Hen) as T. cbn zeta in T.
  assert (Hrun : ∀ c w1,
            sink_calls w1 = sink_calls w → warnings w1 = warnings w →
            ∃ evs msgs,
              sink_calls (run_builtin env b c w1).2 = (sink_calls w ++ evs)%list
              ∧ warnings (run_builtin env b c w1).2 = (warnings w ++ msgs)%list
              ∧ (length evs ≤ 1 ∧ length msgs ≤ 1
                 ∧ 1 ≤ length evs + length msgs)%nat
              ∧ ∀ msg, msg ∈ msgs →
                  msg = "No customer_id provided for tracking."
                  ∨ ∃ x, msg = failure_prefix b ++ exc_str x).
  { intros c w1 Hs Hw. rewrite run_builtin_cases. unfold logged, emitted.
    cbn [snd]. rewrite <- Hs, <- Hw.
    destruct (truthy w1 (get_effective_customer_id env (tc_customer_id c))); simpl.
    2:{ eexists [], [_]. rewrite app_nil_r. repeat (split; [done || simpl; lia|]).
        intros msg ->%list_elem_of_singleton. by left. }
    destruct (usage_of b w1 (tc_result c)) as [[[i o] md]|e]; simpl.
    2:{ eexists [], [_]. rewrite app_nil_r. repeat (split; [done || simpl; lia|]).
        intros msg ->%list_elem_of_singleton. right. by exists e. }
    destruct (merge_custom env w1 md (tc_custom_metadata c)) as [merged|e]; simpl.
    2:{ eexists [], [_]. rewrite app_nil_r. repeat (split; [done || simpl; lia|]).
        intros msg ->%list_elem_of_singleton. right. by exists e. }
    destruct (track_usage_background env (tc_tracker c) _) as [e|]; simpl.
    - eexists [_], [_]. repeat (split; [done || simpl; lia|]).
      intros msg ->%list_elem_of_singleton. right. by exists e.
    - eexists [_], []. rewrite app_nil_r. repeat (split; [done || simpl; lia|]).
      intros msg Hin. by apply elem_of_nil in Hin. }
  destruct (method_outcome w cl args kwargs) as [result|e].
  - destruct T as [-> ->]. by apply Hrun.
  - destruct Hcl as [[error_code error_type] Hr]. rewrite Hr in T.
    destruct T as [-> ->]. by apply Hrun.
Qed.

Lemma tracked_call_always_leaves_a_trace_witness :
  cl_tracker_func (module_closure 13 track_generate_content_fn)
  = Builtin track_generate_content_fn
  ∧ tracking_enabled world_of_methods plain_kwargs = true
  ∧ classifiable (method_outcome world_of_methods
                    (module_closure 13 track_generate_content_fn) [] plain_kwargs)
  ∧ ∃ evs msgs,
      sink_calls (wrapped test_env (module_closure 13 track_generate_content_fn) []
                    plain_kwargs world_of_methods).2
      = (sink_calls world_of_methods ++ evs)%list
      ∧ warnings (wrapped test_env (module_closure 13 track_generate_content_fn) []
                    plain_kwargs world_of_methods).2
        = (warnings world_of_methods ++ msgs)%list
      ∧ (length evs ≤ 1 ∧ length msgs ≤ 1 ∧ 1 ≤ length evs + length msgs)%nat
      ∧ ∀ msg, msg ∈ msgs →
          msg = "No customer_id provided for tracking."
          ∨ ∃ x, msg = failure_prefix track_generate_content_fn ++ exc_str x.
Proof.
  split; [reflexivity|]. split; [reflexivity|].
  split; [by eexists|].
  apply (tracked_call_always_leaves_a_trace test_env
           (module_closure 13 track_generate_content_fn) track_generate_content_fn
           [] plain_kwargs world_of_methods);
    [reflexivity | reflexivity | by eexists].
Defined.

(** ** The forwarding proxy: dispatch, pass-through and nesting *)

Lemma wraps_false (w : world) (tm : gmap string tracker_fn) (name : string)
    (attr : value) :
  wraps w tm name attr = false ↔ py_callable w attr = false ∨ tm !! name = None.
Proof.
  unfold wraps. rewrite andb_false_iff, bool_decide_eq_false.
  by rewrite <- eq_None_not_Some.
Qed.

Lemma nests_true (w : world) (tm : gmap string tracker_fn) (name : string)
    (attr : value) :
  nests w tm name attr = true
  ↔ has_dict w attr = true ∧ ∃ s tf, tm !! (name ++ "." ++ s) = Some tf.
Proof.
  unfold nests. split.
  - intros [[Hd _]%andb_true_iff Hn%negb_true_iff%bool_decide_eq_false]%andb_true_iff.
    split; [done|]. apply map_choose in Hn as (s & tf & Hs).
    exists s, tf. by rewrite <- sub_track_methods_lookup.
  - intros [Hd (s & tf & Hs)]. rewrite Hd, (has_dict_not_scalar _ _ Hd). simpl.
    apply negb_true_iff, bool_decide_eq_false. intros He.
    apply sub_track_methods_empty with (s := s) in He. congruence.
Qed.

Lemma nests_false (w : world) (tm : gmap string tracker_fn) (name : string)
    (attr : value) :
  nests w tm name attr = false
  ↔ has_dict w attr = false ∨ ∀ s, tm !! (name ++ "." ++ s) = None.
Proof.
  split.
  - intros Hn. destruct (has_dict w attr) eqn:Hd; [right | by left].
    intros s. destruct (tm !! (name ++ "." ++ s)) as [tf|] eqn:Hs; [|done].
    assert (nests w tm name attr = true) by (apply nests_true; eauto).
    congruence.
  - intros H. destruct (nests w tm name attr) eqn:Hn; [|done].
    apply nests_true in Hn as [Hd (s & tf & Hs)].
    destruct H as [H|H]; [congruence | by rewrite H in Hs].
Qed.

(** The closure at the end of a chain belongs to the last proxy of the
    chain, which has the tracker of the first, and is named by the last
    name of the chain. *)
Lemma resolve_path_chain_closure (path : list string) :
  ∀ (self : loc) (w : world) (p : proxy) (method : value) (tf : tracker_fn),
    proxies w !! self = Some p →
    _tracked_attributes p = ∅ →
    _track_methods p !! dotted path = Some tf →
    namespace_chain w (_client p) (_track_methods p) path method →
    ∃ l owner q,
      (resolve_path (HProxy self) path w).1 = Return (HWrapped l)
      ∧ closures (resolve_path (HProxy self) path w).2 !! l
        = Some (Closure owner method (List.last path "") tf)
      ∧ proxies (resolve_path (HProxy self) path w).2 !! owner = Some q
      ∧ _tracker q = _tracker p.
Proof.
  induction path as [|name rest IH]; intros self w p method tf Hp Hc Hkey Hchain;
    [done|].
  assert (Hcn : _tracked_attributes p !! name = None) by by rewrite Hc.
  simpl in Hkey, Hchain. destruct rest as [|name' rest'].
  - destruct Hchain as [Hg Hcall].
    pose proof (proxy_getattr_wrap _ _ _ _ _ _ Hp Hcn Hg Hcall Hkey) as Hw.
    cbn zeta in Hw. simpl. unfold bind. rewrite Hw. unfold ret. simpl.
    eexists _, self, _. split; [done|]. rewrite !lookup_insert_eq. done.
  - destruct Hchain as (member & Hg & Hd & Hw & Hrest).
    destruct (namespace_gives_child_proxy _ _ _ _ _ _ _ Hp Hcn Hkey Hg Hd Hw)
      as (l & Hne & Hget).
    change (resolve_path (HProxy self) (name :: name' :: rest') w)
      with (bind (proxy_getattr self name)
                 (λ h', resolve_path h' (name' :: rest')) w).
    unfold bind. rewrite Hget.
    match goal with |- context [resolve_path (HProxy l) _ ?w1] =>
      destruct (IH l w1 (Proxy member (_tracker p)
                           (sub_track_methods name (_track_methods p)) ∅)
                   method tf) as (lc & owner & q & H1 & H2 & H3 & H4) end.
    + simpl. rewrite lookup_insert_ne by done. by rewrite lookup_insert_eq.
    + done.
    + simpl. by rewrite sub_track_methods_lookup.
    + refine (namespace_chain_objects w _ _ _ _ _ _ Hrest). done.
    + exists lc, owner, q.
      change (List.last (name :: name' :: rest') "")
        with (List.last (name' :: rest') "").
      by repeat split.
Qed.

(** X14.  The first resolution of a name the target has decides between
    three handles, in this order.  A closure: exactly when the member is
    callable and the name itself is a key of the table; the closure is
    around the member, under that name, with the extraction function of the
    key.  A child proxy: otherwise, exactly when the member has a
    [__dict__] and some key of the table starts with the name and a dot;
    the child is over the member, with the tracker of the parent, the
    derived table and an empty cache.  The member itself: in every other
    case, in particular for a key whose member is not callable. *)
Theorem first_resolution_dispatch (self : loc) (name : string) (w : world)
    (p : proxy) (attr : value) :
  proxies w !! self = Some p →
  _tracked_attributes p !! name = None →
  py_getattr w (_client p) name = Some attr →
  ∃ h,
    (proxy_getattr self name w).1 = Return h
    ∧ match h with
      | HWrapped l =>
          py_callable w attr = true
          ∧ ∃ tf, _track_methods p !! name = Some tf
                  ∧ closures (proxy_getattr self name w).2 !! l
                    = Some (Closure self attr name tf)
      | HProxy l =>
          (py_callable w attr = false ∨ _track_methods p !! name = None)
          ∧ has_dict w attr = true
          ∧ (∃ s tf, _track_methods p !! (name ++ "." ++ s) = Some tf)
          ∧ proxies (proxy_getattr self name w).2 !! l
            = Some (Proxy attr (_tracker p)
                          (sub_track_methods name (_track_methods p)) ∅)
      | HValue v =>
          v = attr
          ∧ (py_callable w attr = false ∨ _track_methods p !! name = None)
          ∧ (has_dict w attr = false
             ∨ ∀ s, _track_methods p !! (name ++ "." ++ s) = None)
      end.
Proof.
  intros Hp Hc Ha.
  destruct (wraps w (_track_methods p) name attr) eqn:Hw.
  - pose proof Hw as Hw'. unfold wraps in Hw'.
    apply andb_true_iff in Hw' as [Hcall [tf Htf]%bool_decide_eq_true].
    rewrite (proxy_getattr_wrap _ _ _ _ _ _ Hp Hc Ha Hcall Htf).
    eexists. split; [done|]. simpl. split; [done|]. exists tf.
    split; [done|]. by rewrite lookup_insert_eq.
  - destruct (nests w (_track_methods p) name attr) eqn:Hn.
    + rewrite (proxy_getattr_child _ _ _ _ _ Hp Hc Ha Hw Hn).
      eexists. split; [done|]. simpl.
      apply wraps_false in Hw. apply nests_true in Hn as [Hd Hk].
      repeat (split; [done|]).
      assert (Hfresh : proxies w !! fresh (dom (proxies w)) = None)
        by apply not_elem_of_dom, is_fresh.
      rewrite lookup_insert_ne by congruence. by rewrite lookup_insert_eq.
    + rewrite (proxy_getattr_pass _ _ _ _ _ Hp Hc Ha Hw Hn).
      eexists. split; [done|]. simpl.
      apply wraps_false in Hw. by apply nests_false in Hn.
Qed.

Lemma first_resolution_dispatch_witness :
  proxies world_of_namespaces !! 1%positive = Some namespace_proxy
  ∧ _tracked_attributes namespace_proxy !! "models" = None
  ∧ py_getattr world_of_namespaces (_client namespace_proxy) "models"
    = Some (VRef 2%positive)
  ∧ ∃ h,
      (proxy_getattr 1%positive "models" world_of_namespaces).1 = Return h
      ∧ match h with
        | HWrapped l =>
            py_callable world_of_namespaces (VRef 2%positive) = true
            ∧ ∃ tf, _track_methods namespace_proxy !! "models" = Some tf
                    ∧ closures (proxy_getattr 1%positive "models"
                                  world_of_namespaces).2 !! l
                      = Some (Closure 1%positive (VRef 2%positive) "models" tf)
        | HProxy l =>
            (py_callable world_of_namespaces (VRef 2%positive) = false
             ∨ _track_methods namespace_proxy !! "models" = None)
            ∧ has_dict world_of_namespaces (VRef 2%positive) = true
            ∧ (∃ s tf, _track_methods namespace_proxy !! ("models" ++ "." ++ s)
                       = Some tf)
            ∧ proxies (proxy_getattr 1%positive "models" world_of_namespaces).2 !! l
              = Some (Proxy (VRef 2%positive) (_tracker namespace_proxy)
                            (sub_track_methods "models"
                               (_track_methods namespace_proxy)) ∅)
        | HValue v =>
            v = VRef 2%positive
            ∧ (py_callable world_of_namespaces (VRef 2%positive) = false
               ∨ _track_methods namespace_proxy !! "models" = None)
            ∧ (has_dict world_of_namespaces (VRef 2%positive) = false
               ∨ ∀ s, _track_methods namespace_proxy !! ("models" ++ "." ++ s) = None)
        end.
Proof.
  split; [reflexivity|]. split; [reflexivity|]. split; [reflexivity|].
  apply (first_resolution_dispatch 1%positive "models" world_of_namespaces
           namespace_proxy (VRef 2%positive)); reflexivity.
Defined.

(** X15.  A member that can be called and is also a namespace of tracked
    methods (it has a [__dict__], its name is no key, and some key starts
    with its name and a dot) is handed out as a child proxy; and a proxy
    cannot be called, so what was a call of the member through the target
    is a [TypeError] through the proxy. *)
Theorem callable_namespace_cannot_be_called (env : environment) (self : loc)
    (name s : string) (w : world) (p : proxy) (attr : value) (tf : tracker_fn) :
  proxies w !! self = Some p →
  _tracked_attributes p !! name = None →
  py_getattr w (_client p) name = Some attr →
  py_callable w attr = true →
  has_dict w attr = true →
  _track_methods p !! name = None →
  _track_methods p !! (name ++ "." ++ s) = Some tf →
  ∃ l,
    (proxy_getattr self name w).1 = Return (HProxy l)
    ∧ ∀ args kwargs,
        (call_handle env (HProxy l) args kwargs (proxy_getattr self name w).2).1
        = Raise (Exc "TypeError" "'TrackedProxy' object is not callable" CodeAbsent)
        ∧ ∃ g, heap_obj w attr ≫= obj_call = Some g
               ∧ call_value w attr args kwargs = g args kwargs.
Proof.
  intros Hp Hc Ha Hcall Hd Hkey Hsub.
  assert (Hw : wraps w (_track_methods p) name attr = false)
    by (apply wraps_false; by right).
  destruct (namespace_gives_child_proxy _ _ _ _ _ _ _ Hp Hc Hsub Ha Hd Hw)
    as (l & _ & ->).
  exists l. split; [done|]. intros args kwargs. split; [done|].
  unfold py_callable in Hcall. unfold call_value.
  destruct (heap_obj w attr) as [o|]; [|discriminate]. simpl.
  apply bool_decide_eq_true in Hcall as [g Hg]. rewrite Hg. by exists g.
Qed.

Lemma callable_namespace_cannot_be_called_witness :
  proxies world_of_callable_namespace !! 1%positive = Some namespace_proxy
  ∧ _tracked_attributes namespace_proxy !! "models" = None
  ∧ py_getattr world_of_callable_namespace (_client namespace_proxy) "models"
    = Some (VRef 2%positive)
  ∧ py_callable world_of_callable_namespace (VRef 2%positive) = true
  ∧ has_dict world_of_callable_namespace (VRef 2%positive) = true
  ∧ _track_methods namespace_proxy !! "models" = None
  ∧ _track_methods namespace_proxy !! ("models" ++ "." ++ "generate_content")
    = Some (Builtin track_generate_content_fn)
  ∧ ∃ l,
      (proxy_getattr 1%positive "models" world_of_callable_namespace).1
      = Return (HProxy l)
      ∧ ∀ args kwargs,
          (call_handle test_env (HProxy l) args kwargs
             (proxy_getattr 1%positive "models" world_of_callable_namespace).2).1
          = Raise (Exc "TypeError" "'TrackedProxy' object is not callable" CodeAbsent)
          ∧ ∃ g, heap_obj world_of_callable_namespace (VRef 2%positive) ≫= obj_call
                 = Some g
                 ∧ call_value world_of_callable_namespace (VRef 2%positive) args kwargs
                   = g args kwargs.
Proof.
  split; [reflexivity|]. split; [reflexivity|]. split; [reflexivity|].
  split; [reflexivity|]. split; [reflexivity|]. split; [reflexivity|].
  split; [reflexivity|].
  apply (callable_namespace_cannot_be_called test_env 1%positive "models"
           "generate_content" world_of_callable_namespace namespace_proxy
           (VRef 2%positive) (Builtin track_generate_content_fn)); reflexivity.
Defined.

(** The member returns when it is called on the target, and the call
    through the proxy raises. *)
Example callable_namespace_example :
  call_value world_of_callable_namespace (VRef 2%positive) [] ∅
  = Return (VStr "called")
  ∧ (call_through test_env 1%positive ["models"] [] ∅
       world_of_callable_namespace).1
    = Raise (Exc "TypeError" "'TrackedProxy' object is not callable" CodeAbsent).
Proof. split; by vm_compute. Qed.

(** X16.  A member whose name is no key of the table and starts no key is
    handed out as it is, and a call of it is the call of the member of the
    target and nothing more: the keyword arguments arrive as they are
    given, the three reserved ones included, no extraction function is
    called, the clock is not read, and the tracker and the log are
    untouched. *)
Theorem untracked_member_is_called_directly (env : environment) (self : loc)
    (name : string) (w : world) (p : proxy) (attr : value) :
  proxies w !! self = Some p →
  _tracked_attributes p !! name = None →
  py_getattr w (_client p) name = Some attr →
  _track_methods p !! name = None →
  (∀ s, _track_methods p !! (name ++ "." ++ s) = None) →
  (proxy_getattr self name w).1 = Return (HValue attr)
  ∧ ∀ args kwargs,
      call_handle env (HValue attr) args kwargs (proxy_getattr self name w).2
      = (call_value w attr args kwargs, (proxy_getattr self name w).2)
      ∧ tracker_calls (proxy_getattr self name w).2 = tracker_calls w
      ∧ method_calls (proxy_getattr self name w).2 = method_calls w
      ∧ sink_calls (proxy_getattr self name w).2 = sink_calls w
      ∧ warnings (proxy_getattr self name w).2 = warnings w
      ∧ ticks (proxy_getattr self name w).2 = ticks w.
Proof.
  intros Hp Hc Ha Hkey Hsub.
  assert (Hw : wraps w (_track_methods p) name attr = false)
    by (apply wraps_false; by right).
  assert (Hn : nests w (_track_methods p) name attr = false)
    by (apply nests_false; by right).
  rewrite (proxy_getattr_pass _ _ _ _ _ Hp Hc Ha Hw Hn).
  split; [done|]. intros args kwargs. split; [|done].
  unfold call_handle. by f_equal.
Qed.

Lemma untracked_member_is_called_directly_witness :
  proxies world_of_untracked !! 1%positive = Some namespace_proxy
  ∧ _tracked_attributes namespace_proxy !! "list_models" = None
  ∧ py_getattr world_of_untracked (_client namespace_proxy) "list_models"
    = Some (VRef 2%positive)
  ∧ _track_methods namespace_proxy !! "list_models" = None
  ∧ (∀ s, _track_methods namespace_proxy !! ("list_models" ++ "." ++ s) = None)
  ∧ (proxy_getattr 1%positive "list_models" world_of_untracked).1
    = Return (HValue (VRef 2%positive))
  ∧ ∀ args kwargs,
      call_handle test_env (HValue (VRef 2%positive)) args kwargs
        (proxy_getattr 1%positive "list_models" world_of_untracked).2
      = (call_value world_of_untracked (VRef 2%positive) args kwargs,
         (proxy_getattr 1%positive "list_models" world_of_untracked).2)
      ∧ tracker_calls (proxy_getattr 1%positive "list_models" world_of_untracked).2
        = tracker_calls world_of_untracked
      ∧ method_calls (proxy_getattr 1%positive "list_models" world_of_untracked).2
        = method_calls world_of_untracked
      ∧ sink_calls (proxy_getattr 1%positive "list_models" world_of_untracked).2
        = sink_calls world_of_untracked
      ∧ warnings (proxy_getattr 1%positive "list_models" world_of_untracked).2
        = warnings world_of_untracked
      ∧ ticks (proxy_getattr 1%positive "list_models" world_of_untracked).2
        = ticks world_of_untracked.
Proof.
  assert (Hsub : ∀ s, _track_methods namespace_proxy !! ("list_models" ++ "." ++ s)
                      = None).
  { intros s. apply (sub_track_methods_empty "list_models"). by vm_compute. }
  split; [reflexivity|]. split; [reflexivity|]. split; [reflexivity|].
  split; [reflexivity|]. split; [exact Hsub|].
  apply (untracked_member_is_called_directly test_env 1%positive "list_models"
           world_of_untracked namespace_proxy (VRef 2%positive));
    [reflexivity | reflexivity | reflexivity | reflexivity | exact Hsub].
Defined.

(** The method of the target receives the keyword [customer_id] that a
    tracked method would not see. *)
Example reserved_keyword_reaches_untracked_method :
  (call_through test_env 1%positive ["list_models"] [] kwargs_with_customer
     world_of_untracked).1 = Return (VDict kwargs_with_customer)
  ∧ tracker_calls (call_through test_env 1%positive ["list_models"] []
                     kwargs_with_customer world_of_untracked).2 = [].
Proof. split; by vm_compute. Qed.

(** X17.  A method reached through a chain of namespaces under a dotted
    key: the closure is built by the last proxy of the chain, which has the
    tracker of the first; so every call with tracking enabled whose method
    returns hands the extraction function the tracker given to the root
    proxy, and, as the name of the method, the last name of the chain, not
    the dotted key. *)
Theorem nested_method_reports_to_root_tracker (env : environment) (self : loc)
    (w : world) (p : proxy) (path : list string) (method : value)
    (tf : tracker_fn) :
  proxies w !! self = Some p →
  _tracked_attributes p = ∅ →
  _track_methods p !! dotted path = Some tf →
  namespace_chain w (_client p) (_track_methods p) path method →
  ∃ l cl,
    (resolve_path (HProxy self) path w).1 = Return (HWrapped l)
    ∧ closures (resolve_path (HProxy self) path w).2 !! l = Some cl
    ∧ cl_method_name cl = List.last path ""
    ∧ ∀ args kwargs result,
        tracking_enabled (resolve_path (HProxy self) path w).2 kwargs = true →
        method_outcome (resolve_path (HProxy self) path w).2 cl args kwargs
        = Return result →
        ∃ c,
          tracker_calls
            (call_handle env (HWrapped l) args kwargs
               (resolve_path (HProxy self) path w).2).2
          = (tracker_calls (resolve_path (HProxy self) path w).2 ++ [(tf, c)])%list
          ∧ tc_tracker c = _tracker p
          ∧ tc_method_name c = List.last path ""
          ∧ tc_result c = result.
Proof.
  intros Hp Hc Hkey Hchain.
  destruct (resolve_path_chain_closure path self w p method tf Hp Hc Hkey Hchain)
    as (l & owner & q & H1 & H2 & H3 & H4).
  eexists l, _. split; [exact H1|]. split; [exact H2|]. split; [done|].
  intros args kwargs result Hen Hout.
  unfold call_handle. rewrite H2.
  match goal with |- context [wrapped env ?cl args kwargs ?w1] =>
    pose proof (wrapped_run env cl args kwargs w1) as R end.
  rewrite Hout, Hen in R. destruct R as [_ (_ & _ & _ & _ & R & _)].
  eexists. split; [exact R|]. cbn. rewrite H3. simpl. by rewrite H4.
Qed.

Lemma nested_method_reports_to_root_tracker_witness :
  proxies world_of_nesting !! 1%positive = Some nesting_proxy
  ∧ _tracked_attributes nesting_proxy = ∅
  ∧ _track_methods nesting_proxy !! dotted ["outer"; "inner"; "op"]
    = Some (External (VRef 5%positive))
  ∧ namespace_chain world_of_nesting (_client nesting_proxy)
      (_track_methods nesting_proxy) ["outer"; "inner"; "op"] (VRef 4%positive)
  ∧ ∃ l cl,
      (resolve_path (HProxy 1%positive) ["outer"; "inner"; "op"]
         world_of_nesting).1 = Return (HWrapped l)
      ∧ closures (resolve_path (HProxy 1%positive) ["outer"; "inner"; "op"]
                    world_of_nesting).2 !! l = Some cl
      ∧ cl_method_name cl = List.last ["outer"; "inner"; "op"] ""
      ∧ ∀ args kwargs result,
          tracking_enabled
            (resolve_path (HProxy 1%positive) ["outer"; "inner"; "op"]
               world_of_nesting).2 kwargs = true →
          method_outcome (resolve_path (HProxy 1%positive) ["outer"; "inner"; "op"]
                            world_of_nesting).2 cl args kwargs
          = Return result →
          ∃ c,
            tracker_calls
              (call_handle test_env (HWrapped l) args kwargs
                 (resolve_path (HProxy 1%positive) ["outer"; "inner"; "op"]
                    world_of_nesting).2).2
            = (tracker_calls (resolve_path (HProxy 1%positive)
                                ["outer"; "inner"; "op"] world_of_nesting).2
               ++ [(External (VRef 5%positive), c)])%list
            ∧ tc_tracker c = _tracker nesting_proxy
            ∧ tc_method_name c = List.last ["outer"; "inner"; "op"] ""
            ∧ tc_result c = result.
Proof.
  assert (Hchain : namespace_chain world_of_nesting (_client nesting_proxy)
                     (_track_methods nesting_proxy) ["outer"; "inner"; "op"]
                     (VRef 4%positive)).
  { exists (VRef 2%positive). split; [reflexivity|]. split; [reflexivity|].
    split; [by vm_compute|].
    exists (VRef 3%positive). split; [reflexivity|]. split; [reflexivity|].
    split; [by vm_compute|]. split; by vm_compute. }
  split; [reflexivity|]. split; [reflexivity|]. split; [by vm_compute|].
  split; [exact Hchain|].
  apply (nested_method_reports_to_root_tracker test_env 1%positive world_of_nesting
           nesting_proxy ["outer"; "inner"; "op"] (VRef 4%positive)
           (External (VRef 5%positive)));
    [reflexivity | reflexivity | by vm_compute | exact Hchain].
Defined.

(** With the table of the module, the extraction function of
    [models.generate_content] is told the name [generate_content]. *)
Example method_name_through_the_proxy :
  ∃ c,
    tracker_calls
      (call_through test_env 1%positive ["models"; "generate_content"] []
         (<["customer_id" := VStr "c"]> ∅) world_of_namespaces).2
    = [(Builtin track_generate_content_fn, c)]
    ∧ tc_method_name c = "generate_content"
    ∧ tc_tracker c = the_tracker.
Proof. eexists. split; [by vm_compute|]. by split. Qed.

(** ** Listing and setting attributes *)

(** X18.  [dir(proxy)] is sorted and free of repetitions, and lists
    exactly the names of the target, the ones that start with an
    underscore included, together with the names of the proxy object that
    do not start with an underscore. *)
Theorem dir_lists_the_names_of_the_target (own_dir client_dir : list string) :
  StronglySorted String.le (proxy_dir own_dir client_dir)
  ∧ NoDup (proxy_dir own_dir client_dir)
  ∧ ∀ name,
      name ∈ proxy_dir own_dir client_dir
      ↔ (name ∈ own_dir ∧ String.prefix "_" name = false) ∨ name ∈ client_dir.
Proof.
  unfold proxy_dir. cbn zeta. split; [|split].
  - apply StronglySorted_merge_sort; apply _.
  - rewrite merge_sort_Permutation. apply NoDup_remove_dups.
  - intros name. rewrite merge_sort_Permutation, elem_of_remove_dups.
    rewrite elem_of_app, list_elem_of_filter. tauto.
Qed.

(** The names of a proxy object all start with an underscore, so
    [dir(proxy)] shows the names of the client alone. *)
Example dir_of_a_proxy :
  proxy_dir own_names client_names
  = ["__class__"; "_api_client"; "chats"; "files"; "models"].
Proof. by vm_compute. Qed.

Lemma patch_object_getattr (w : world) (l : loc) (name k : string) (v : value) :
  has_dict w (VRef l) = true →
  py_getattr (patch_object l name (Some v) w) (VRef l) k
  = if decide (k = name) then Some v else py_getattr w (VRef l) k.
Proof.
  unfold has_dict, py_getattr. simpl. intros Hd. rewrite lookup_alter_eq.
  destruct (objects w !! l) as [o|]; [|discriminate]. simpl.
  destruct (decide (k = name)) as [->|Hne].
  - by rewrite lookup_insert_eq.
  - by rewrite lookup_insert_ne.
Qed.

(** X19.  Setting a public attribute through the proxy writes it to the
    target and leaves the proxy, its memo cache included, as it is.  So a
    read of that name through the proxy gives the value written only when
    the name had not been resolved before; when it had, the read still
    gives the handle memoized before the write, although the target now
    has the new value. *)
Theorem write_through_the_proxy (self : loc) (name : string) (v : value)
    (w w' : world) :
  proxy_setattr self name v w = Some w' →
  ∃ p,
    proxies w !! self = Some p
    ∧ proxies w' = proxies w
    ∧ closures w' = closures w
    ∧ py_getattr w' (_client p) name = Some v
    ∧ (∀ k, k ≠ name → py_getattr w' (_client p) k = py_getattr w (_client p) k)
    ∧ match _tracked_attributes p !! name with
      | Some h => proxy_getattr self name w' = (Return h, w')
      | None =>
          ∃ h, (proxy_getattr self name w').1 = Return h
               ∧ presents (proxy_getattr self name w').2 h v
      end.
Proof.
  unfold proxy_setattr. intros H.
  destruct (proxies w !! self) as [p|] eqn:Hp; [|discriminate]. simpl in H.
  destruct (String.prefix "_" name); [discriminate|].
  destruct (_client p) as [| | | | | | | | |l] eqn:Hcl; try discriminate.
  destruct (has_dict w (VRef l)) eqn:Hd; [|discriminate].
  injection H as <-. exists p. rewrite Hcl.
  split; [done|]. split; [done|]. split; [done|].
  rewrite !patch_object_getattr by done.
  split; [by rewrite decide_True|].
  split.
  { intros k Hk. rewrite patch_object_getattr by done. by rewrite decide_False. }
  assert (Hp' : proxies (patch_object l name (Some v) w) !! self = Some p) by done.
  assert (Hv : py_getattr (patch_object l name (Some v) w) (_client p) name = Some v).
  { rewrite Hcl, patch_object_getattr by done. by rewrite decide_True. }
  destruct (_tracked_attributes p !! name) as [h|] eqn:Hc.
  - by apply (proxy_getattr_cached _ _ _ p).
  - destruct (proxy_getattr_first _ _ _ _ _ Hp' Hc Hv)
      as (h & ps & cs & -> & _ & Hpr & _).
    by exists h.
Qed.

Lemma write_through_the_proxy_witness :
  ∃ w',
    proxy_setattr 1%positive "api_version" (VStr "v1") world_after_read = Some w'
    ∧ ∃ p,
        proxies world_after_read !! 1%positive = Some p
        ∧ proxies w' = proxies world_after_read
        ∧ closures w' = closures world_after_read
        ∧ py_getattr w' (_client p) "api_version" = Some (VStr "v1")
        ∧ (∀ k, k ≠ "api_version" →
                py_getattr w' (_client p) k
                = py_getattr world_after_read (_client p) k)
        ∧ match _tracked_attributes p !! "api_version" with
          | Some h => proxy_getattr 1%positive "api_version" w' = (Return h, w')
          | None =>
              ∃ h, (proxy_getattr 1%positive "api_version" w').1 = Return h
                   ∧ presents (proxy_getattr 1%positive "api_version" w').2 h
                       (VStr "v1")
          end.
Proof.
  eexists. split; [reflexivity|].
  apply (write_through_the_proxy 1%positive "api_version" (VStr "v1")
           world_after_read).
  reflexivity.
Defined.

(** After [proxy.api_version] has been read, [proxy.api_version = "v1"]
    changes the client, and [proxy.api_version] still reads the old value;
    without the earlier read, it reads the new one. *)
Example stale_read_after_write :
  (∃ w',
     proxy_setattr 1%positive "api_version" (VStr "v1") world_after_read = Some w'
     ∧ py_getattr w' (VRef 1%positive) "api_version" = Some (VStr "v1")
     ∧ (proxy_getattr 1%positive "api_version" w').1
       = Return (HValue (VStr "v1beta")))
  ∧ (∃ w',
       proxy_setattr 1%positive "api_version" (VStr "v1") world_of_namespaces
       = Some w'
       ∧ (proxy_getattr 1%positive "api_version" w').1 = Return (HValue (VStr "v1"))).
Proof.
  split; eexists; (split; [reflexivity|]); [split|]; by vm_compute.
Qed.

(** ** The table of the module *)

Lemma dot_prefixes_spec (name s : string) :
  name ∈ dot_prefixes (name ++ "." ++ s).
Proof.
  induction name as [|c name IH].
  - change ("" ++ "." ++ s) with (String "." s). simpl. by left.
  - rewrite string_cons_app. simpl. apply elem_of_app. right.
    by apply list_elem_of_fmap_2.
Qed.

Lemma module_table_keys (key : string) (tf : tracker_fn) :
  GEMINI_TRACK_METHODS !! key = Some tf →
  key = "models.generate_content" ∨ key = "models.count_tokens".
Proof.
  unfold GEMINI_TRACK_METHODS. intros H.
  apply lookup_insert_Some in H as [[<- _]|[_ H]]; [by left|].
  apply lookup_insert_Some in H as [[<- _]|[_ H]]; [by right|].
  by rewrite lookup_empty in H.
Qed.

Lemma module_table_prefix (name s : string) (tf : tracker_fn) :
  GEMINI_TRACK_METHODS !! (name ++ "." ++ s) = Some tf → name = "models".
Proof.
  intros H. pose proof (dot_prefixes_spec name s) as Hin.
  apply module_table_keys in H as [H|H]; rewrite H in Hin;
    by apply list_elem_of_singleton in Hin.
Qed.

(** A chain of two tables is the table of the dotted name. *)
Lemma sub_track_methods_dotted (a b : string) (tm : gmap string tracker_fn) :
  sub_track_methods b (sub_track_methods a tm)
  = sub_track_methods (a ++ "." ++ b) tm.
Proof.
  apply map_eq. intros s. rewrite !sub_track_methods_lookup.
  by rewrite !string_app_assoc.
Qed.

(** X20.  With the table of the module, [GEMINI_TRACK_METHODS], a proxy of
    the client hands out every member but [models] as it is, and the child
    proxy of [models] hands out every member but [generate_content] and
    [count_tokens] as it is: no other method of the client, at any depth,
    is intercepted. *)
Theorem module_table_intercepts_two_methods (self : loc) (name : string)
    (w : world) (p : proxy) (attr : value) :
  proxies w !! self = Some p →
  _tracked_attributes p !! name = None →
  py_getattr w (_client p) name = Some attr →
  (_track_methods p = GEMINI_TRACK_METHODS
   ∧ name ≠ "models" ∧ name ≠ "models.generate_content"
   ∧ name ≠ "models.count_tokens")
  ∨ (_track_methods p = sub_track_methods "models" GEMINI_TRACK_METHODS
     ∧ name ≠ "generate_content" ∧ name ≠ "count_tokens") →
  (proxy_getattr self name w).1 = Return (HValue attr).
Proof.
  intros Hp Hc Ha Htm.
  assert (Hkey : _track_methods p !! name = None
                 ∧ ∀ s, _track_methods p !! (name ++ "." ++ s) = None).
  { destruct Htm as [(-> & H1 & H2 & H3)|(-> & H1 & H2)].
    - split.
      + destruct (GEMINI_TRACK_METHODS !! name) as [tf|] eqn:Hk; [|done].
        by apply module_table_keys in Hk as [?|?].
      + intros s. destruct (GEMINI_TRACK_METHODS !! (name ++ "." ++ s)) as [tf|] eqn:Hk;
          [|done].
        by apply module_table_prefix in Hk.
    - split.
      + rewrite sub_track_methods_lookup.
        destruct (GEMINI_TRACK_METHODS !! ("models" ++ "." ++ name)) as [tf|] eqn:Hk;
          [|done].
        apply module_table_keys in Hk as [Hk|Hk]; by injection Hk.
      + intros s. rewrite sub_track_methods_lookup.
        destruct (GEMINI_TRACK_METHODS !! ("models" ++ "." ++ name ++ "." ++ s))
          as [tf|] eqn:Hk; [|done].
        pose proof (dot_prefixes_spec name s) as Hin.
        apply module_table_keys in Hk as [Hk|Hk]; injection Hk as Hk;
          change (name ++ "." ++ s = "generate_content") in Hk
          || change (name ++ "." ++ s = "count_tokens") in Hk;
          rewrite Hk in Hin; by apply elem_of_nil in Hin. }
  destruct Hkey as [Hk Hs].
  rewrite (proxy_getattr_pass _ _ _ _ _ Hp Hc Ha); [done| |].
  - apply wraps_false. by right.
  - apply nests_false. by right.
Qed.

Lemma module_table_intercepts_two_methods_witness :
  proxies world_of_untracked !! 1%positive = Some namespace_proxy
  ∧ _tracked_attributes namespace_proxy !! "list_models" = None
  ∧ py_getattr world_of_untracked (_client namespace_proxy) "list_models"
    = Some (VRef 2%positive)
  ∧ ((_track_methods namespace_proxy = GEMINI_TRACK_METHODS
      ∧ "list_models" ≠ "models" ∧ "list_models" ≠ "models.generate_content"
      ∧ "list_models" ≠ "models.count_tokens")
     ∨ (_track_methods namespace_proxy
        = sub_track_methods "models" GEMINI_TRACK_METHODS
        ∧ "list_models" ≠ "generate_content" ∧ "list_models" ≠ "count_tokens"))
  ∧ (proxy_getattr 1%positive "list_models" world_of_untracked).1
    = Return (HValue (VRef 2%positive)).
Proof.
  assert (H : (_track_methods namespace_proxy = GEMINI_TRACK_METHODS
               ∧ "list_models" ≠ "models" ∧ "list_models" ≠ "models.generate_content"
               ∧ "list_models" ≠ "models.count_tokens")
              ∨ (_track_methods namespace_proxy
                 = sub_track_methods "models" GEMINI_TRACK_METHODS
                 ∧ "list_models" ≠ "generate_content"
                 ∧ "list_models" ≠ "count_tokens")).
  { left. split; [reflexivity|]. repeat split; discriminate. }
  split; [reflexivity|]. split; [reflexivity|]. split; [reflexivity|].
  split; [exact H|].
  apply (module_table_intercepts_two_methods 1%positive "list_models"
           world_of_untracked namespace_proxy (VRef 2%positive));
    [reflexivity | reflexivity | reflexivity | exact H].
Defined.

(** X21.  Descending two names one after the other gives the table of the
    dotted name: the child of the child, under [a] and then [b], has
    exactly the entries the table has under [a.b] and a dot, each under the
    rest of its key. *)
Theorem sub_track_methods_compose (a b : string) (tm : gmap string tracker_fn) :
  sub_track_methods b (sub_track_methods a tm) = sub_track_methods (a ++ "." ++ b) tm
  ∧ ∀ s, sub_track_methods b (sub_track_methods a tm) !! s
         = tm !! (a ++ "." ++ b ++ "." ++ s).
Proof.
  split; [apply sub_track_methods_dotted|].
  intros s. by rewrite !sub_track_methods_lookup.
Qed.

(** ** Errors that cannot be classified, and custom metadata that is no dict *)

(** X22.  When the method raises an error whose attribute [code] is a
    plain value and not a method, the unguarded call [e.code()] in the
    handler raises a [TypeError]: that error reaches the caller in place of
    the error of the method, whether tracking is enabled or not, and the
    extraction function, the tracker and the log see nothing of the call. *)
Theorem error_with_plain_code_is_replaced (env : environment) (cl : closure)
    (args : list value) (kwargs : gmap string value) (w : world) (e : exc)
    (tyname : string) :
  method_outcome w cl args kwargs = Raise e →
  exc_code e = CodeNotCallable tyname →
  (wrapped env cl args kwargs w).1
  = Raise (Exc "TypeError" ("'" ++ tyname ++ "' object is not callable") CodeAbsent)
  ∧ (wrapped env cl args kwargs w).1 ≠ Raise e
  ∧ tracker_calls (wrapped env cl args kwargs w).2 = tracker_calls w
  ∧ sink_calls (wrapped env cl args kwargs w).2 = sink_calls w
  ∧ warnings (wrapped env cl args kwargs w).2 = warnings w.
Proof.
  intros Hout Hcode.
  assert (Hcl : classify_error e = Raise (not_callable tyname))
    by (unfold classify_error; by rewrite Hcode).
  assert (Hne : Raise (A := value) (not_callable tyname) ≠ Raise e).
  { intros [= <-]. discriminate. }
  destruct (tracking_enabled w kwargs) eqn:Hen.
  - pose proof (wrapped_run env cl args kwargs w) as R.
    pose proof (wrapped_telemetry env cl args kwargs w Hen) as T. cbn zeta in T.
    rewrite Hout, Hcl in R, T.
    destruct R as [R (_ & _ & _ & _ & Rt & _)], T as [T1 T2].
    rewrite R. split; [done|]. split; [done|].
    by rewrite Rt, app_nil_r.
  - rewrite (wrapped_untracked env cl args kwargs w Hen), Hout, Hcl.
    by repeat split.
Qed.

Lemma error_with_plain_code_is_replaced_witness :
  method_outcome world_of_methods (closure_over 11 14) [VStr "arg1"] plain_kwargs
  = Raise api_error
  ∧ exc_code api_error = CodeNotCallable "int"
  ∧ (wrapped test_env (closure_over 11 14) [VStr "arg1"] plain_kwargs
       world_of_methods).1
    = Raise (Exc "TypeError" ("'" ++ "int" ++ "' object is not callable") CodeAbsent)
  ∧ (wrapped test_env (closure_over 11 14) [VStr "arg1"] plain_kwargs
       world_of_methods).1 ≠ Raise api_error
  ∧ tracker_calls (wrapped test_env (closure_over 11 14) [VStr "arg1"] plain_kwargs
                     world_of_methods).2 = tracker_calls world_of_methods
  ∧ sink_calls (wrapped test_env (closure_over 11 14) [VStr "arg1"] plain_kwargs
                  world_of_methods).2 = sink_calls world_of_methods
  ∧ warnings (wrapped test_env (closure_over 11 14) [VStr "arg1"] plain_kwargs
                world_of_methods).2 = warnings world_of_methods.
Proof.
  split; [reflexivity|]. split; [reflexivity|].
  apply (error_with_plain_code_is_replaced test_env (closure_over 11 14)
           [VStr "arg1"] plain_kwargs world_of_methods api_error "int");
    reflexivity.
Defined.

(** X23.  Custom metadata that is not a dict.  When it is a false value
    (zero, an empty string, an empty list, [False]), it is ignored: every
    event carries the metadata read from the result.  When it is a true
    value that [dict.update] refuses with an error, the event is lost: the
    extraction function logs the refusal, calls no tracker, and returns. *)
Theorem custom_metadata_that_is_no_dict (env : environment) (b : builtin)
    (c : tracker_call) (w : world) (input_tokens output_tokens : value)
    (extracted : gmap string value) :
  (∀ d, tc_custom_metadata c ≠ VDict d) →
  truthy w (get_effective_customer_id env (tc_customer_id c)) = true →
  usage_of b w (tc_result c) = Return (input_tokens, output_tokens, extracted) →
  (truthy w (tc_custom_metadata c) = false →
   ∃ ev, sink_calls (run_builtin env b c w).2
         = (sink_calls w ++ [(tc_tracker c, ev)])%list
         ∧ ev_metadata ev = extracted)
  ∧ (∀ e, truthy w (tc_custom_metadata c) = true →
          update_from_other env extracted (tc_custom_metadata c) = Raise e →
          run_builtin env b c w
          = (Return tt, logged w (failure_prefix b ++ exc_str e))).
Proof.
  intros Hnd Hc Hu. rewrite run_builtin_cases, Hc, Hu. cbn [negb].
  unfold merge_custom. split.
  - intros ->. exists (event_of env c input_tokens output_tokens extracted).
    split; [|done]. by destruct (track_usage_background env _ _).
  - intros e -> He. unfold dict_update.
    destruct (tc_custom_metadata c) eqn:Hcm; try by rewrite He.
    by destruct (Hnd d).
Qed.

Lemma custom_metadata_that_is_no_dict_witness :
  (∀ d, tc_custom_metadata call_with_text_metadata ≠ VDict d)
  ∧ truthy world_with_usage
      (get_effective_customer_id test_env
         (tc_customer_id call_with_text_metadata)) = true
  ∧ usage_of track_count_tokens_fn world_with_usage
      (tc_result call_with_text_metadata)
    = Return (VInt 15, VInt 0,
              <["total_tokens" := VInt 15]> {["operation" := VStr "count_tokens"]})
  ∧ (truthy world_with_usage (tc_custom_metadata call_with_text_metadata)
     = false →
     ∃ ev, sink_calls (run_builtin test_env track_count_tokens_fn
                         call_with_text_metadata world_with_usage).2
           = (sink_calls world_with_usage
              ++ [(tc_tracker call_with_text_metadata, ev)])%list
           ∧ ev_metadata ev
             = <["total_tokens" := VInt 15]> {["operation" := VStr "count_tokens"]})
  ∧ (∀ e, truthy world_with_usage (tc_custom_metadata call_with_text_metadata)
          = true →
          update_from_other test_env
            (<["total_tokens" := VInt 15]> {["operation" := VStr "count_tokens"]})
            (tc_custom_metadata call_with_text_metadata) = Raise e →
          run_builtin test_env track_count_tokens_fn call_with_text_metadata
            world_with_usage
          = (Return tt,
             logged world_with_usage
               (failure_prefix track_count_tokens_fn ++ exc_str e))).
Proof.
  split; [discriminate|]. split; [reflexivity|]. split; [reflexivity|].
  apply (custom_metadata_that_is_no_dict test_env track_count_tokens_fn
           call_with_text_metadata world_with_usage (VInt 15) (VInt 0)
           (<["total_tokens" := VInt 15]> {["operation" := VStr "count_tokens"]}));
    [discriminate | reflexivity | reflexivity].
Defined.
